(** * hms-hmcollector in Rocq

    A shallow embedding of the collector's Intel River telemetry parsers
    (package [river_collector]), of the HSM endpoint inventory loop
    ([doUpdateHSMEndpoints]) and of the start-up and shutdown paths of
    [main] (package [main], cmd/hmcollector/hmcollector.go), followed by the
    properties established about them.

    Conventions.  A Go [string] and a Go [[]byte] are byte sequences: both
    are [string] here.  A [uint8] or [uint64] is a [Z] with its wrap-around
    written out.  A [float64] is a binary64 [float].  A Go pointer that may
    be [nil] is an [option].  A call that can panic returns a [Go.Result].
    Code that reads the wall clock, the secret store or any other part of
    the environment threads that part explicitly. *)

From Stdlib Require Import ZArith String Ascii List Floats DecimalString Lia.
From stdpp Require Import gmap strings list.

Set Warnings "-inexact-float,-register-all".
Local Open Scope string_scope.
Local Open Scope Z_scope.
Local Open Scope list_scope.

(** ** Part I.  The Go runtime and library as the program uses them *)

Module Go.

(** How a call ends: it returns, or it panics. *)
Inductive Result (A : Type) : Type :=
| Returned (a : A)
| Panicked (msg : string).
Arguments Returned {A} a.
Arguments Panicked {A} msg.

(** The conversion [uint8(x)] of an unsigned integer. *)
Definition uint8 (x : Z) : Z := x mod 2 ^ 8.

Definition maxUint64 : Z := 2 ^ 64 - 1.

(** [s[lo:len(s)]]: the runtime checks [lo <= len(s)] and panics
    otherwise. *)
Definition slice_from (s : string) (lo : nat) : Result string :=
  if (lo <=? String.length s)%nat
  then Returned (String.substring lo (String.length s - lo) s)
  else Panicked "slice bounds out of range".

(** The wall clock.  [instants k] is what the [k]-th reading gives, already
    formatted by [Format(time.RFC3339)]; [reads] counts the readings made
    so far. *)
Record Clock : Type := mkClock {
  instants : nat -> string;
  reads : nat
}.

(** [time.Now().Format(time.RFC3339)] *)
Definition time_Now (clk : Clock) : string * Clock :=
  (instants clk (reads clk), mkClock (instants clk) (S (reads clk))).

End Go.

(** [strconv.ParseUint] of Go's standard library, for an explicit base
    between 2 and 36 (the program calls it with base 10 and bit size 8).
    The result is the pair Go returns: the value and the error. *)
Module Strconv.

Inductive NumError : Type := ErrSyntax | ErrRange.

(** [lower(c)] is [c | ('x' - 'X')]. *)
Definition lower (c : Z) : Z := Z.lor c 32.

(** The digit a byte stands for, when it is a digit or a letter. *)
Definition digit_of (b : ascii) : option Z :=
  let c := Z.of_N (N_of_ascii b) in
  if (48 <=? c) && (c <=? 57) then Some (c - 48)
  else if (97 <=? lower c) && (lower c <=? 122) then Some (lower c - 97 + 10)
  else None.

Fixpoint ParseUint_loop (s : string) (base cutoff maxVal n : Z)
  : Z * option NumError :=
  match s with
  | EmptyString => (n, None)
  | String b rest =>
      match digit_of b with
      | None => (0, Some ErrSyntax)
      | Some d =>
          if d >=? base then (0, Some ErrSyntax)
          else if n >=? cutoff then (maxVal, Some ErrRange)
          else
            let n' := (n * base) mod 2 ^ 64 in
            let n1 := (n' + d) mod 2 ^ 64 in
            if (n1 <? n') || (n1 >? maxVal) then (maxVal, Some ErrRange)
            else ParseUint_loop rest base cutoff maxVal n1
      end
  end.

Definition ParseUint (s : string) (base bitSize : Z) : Z * option NumError :=
  if String.eqb s "" then (0, Some ErrSyntax)
  else ParseUint_loop s base (Go.maxUint64 / base + 1) (2 ^ bitSize - 1) 0.

End Strconv.

(** ** Part II.  Package [hmcollector]: the telemetry records

    The declarations of these types are outside the files at hand; the
    records hold the fields the parsers read and write. *)

Module Hmcollector.

(** The decoded Redfish Power resource. *)
Record PowerControl : Type := mkPowerControl {
  PC_Name : string;
  PC_MemberId : string;
  PowerConsumedWatts : float
}.

Record PowerSupply : Type := mkPowerSupply {
  PS_MemberId : string;
  LineInputVoltage : float
}.

Record Voltage : Type := mkVoltage {
  V_Name : string;
  ReadingVolts : float
}.

Record Power : Type := mkPower {
  Power_PowerControl : list PowerControl;
  Power_PowerSupplies : list PowerSupply;
  Power_Voltages : list Voltage
}.

(** The decoded Redfish Thermal resource. *)
Record Temperature : Type := mkTemperature {
  T_Name : string;
  ReadingCelsius : float
}.

Record EnclosureThermal : Type := mkEnclosureThermal {
  Temperatures : list Temperature
}.

(** One sensor reading of a normalized event.  [Index] and
    [ParentalIndex] are [*uint8]. *)
Record CrayJSONPayload : Type := mkCrayJSONPayload {
  Timestamp : string;
  Location : string;
  ParentalIndex : option Z;
  PhysicalContext : string;
  Index : option Z;
  DeviceSpecificContext : string;
  Value : string
}.

Record Sensors : Type := mkSensors {
  Sensors_Sensors : list CrayJSONPayload;
  TelemetrySource : string
}.

(** Modelled from the spec: the message identifiers [PowerMessageID],
    [VoltageMessageID] and [TemperatureMessageID], constants of package
    [river_collector] declared outside the files at hand; the spec gives
    three distinct message kinds (power, voltage, temperature). *)
Inductive MessageID : Type :=
| PowerMessageID
| VoltageMessageID
| TemperatureMessageID.

(** A normalized event; [Oem] is [*Sensors]. *)
Record Event : Type := mkEvent {
  MessageId : MessageID;
  EventTimestamp : string;
  Oem : option Sensors
}.

(** The zero value of [CrayJSONPayload] with [Index: new(uint8)]. *)
Definition payload_with_Index : CrayJSONPayload :=
  mkCrayJSONPayload "" "" None "" (Some 0) "" "".

(** The zero value with [Index: new(uint8), ParentalIndex: new(uint8)]. *)
Definition payload_with_Index_ParentalIndex : CrayJSONPayload :=
  mkCrayJSONPayload "" "" (Some 0) "" (Some 0) "" "".

(** [len(event.Oem.Sensors)], where the event has sensors at all. *)
Definition sensors_of (e : Event) : list CrayJSONPayload :=
  match Oem e with
  | Some s => Sensors_Sensors s
  | None => []
  end.

End Hmcollector.

(** The library calls of the parsers whose code is not the program's:
    [json.Unmarshal] into a [Power] and into an [EnclosureThermal] ([None]
    when it returns an error), and [strconv.FormatFloat(x, 'f', -1, 64)]. *)
Class Library : Type := mkLibrary {
  json_Unmarshal_Power : string -> option Hmcollector.Power;
  json_Unmarshal_EnclosureThermal : string -> option Hmcollector.EnclosureThermal;
  FormatFloat : float -> string
}.

(** ** Part III.  Package [river_collector]: the Intel parsers *)

Module IntelRiverCollector.
Import Go Hmcollector.

Section Parsers.
Context {lib : Library}.

(** The loop over [power.PowerControl]; [sensors] is
    [powerEvent.Oem.Sensors] so far. *)
Fixpoint PowerControl_loop (timestamp location : string)
    (entries : list PowerControl) (sensors : list CrayJSONPayload)
  : list CrayJSONPayload :=
  match entries with
  | [] => sensors
  | pc :: rest =>
      if String.eqb (PC_Name pc) "Server Power Control" then
        let indexU64 := fst (Strconv.ParseUint (PC_MemberId pc) 10 8) in
        let payload := {|
          Timestamp := timestamp;
          Location := location;
          ParentalIndex := ParentalIndex payload_with_Index;
          PhysicalContext := "Chassis";
          Index := Some (uint8 indexU64);
          DeviceSpecificContext := DeviceSpecificContext payload_with_Index;
          Value := FormatFloat (PowerConsumedWatts pc)
        |} in
        PowerControl_loop timestamp location rest (sensors ++ [payload])
      else PowerControl_loop timestamp location rest sensors
  end.

(** The loop over [power.PowerSupplies]. *)
Fixpoint PowerSupplies_loop (timestamp location : string)
    (entries : list PowerSupply) (sensors : list CrayJSONPayload)
  : list CrayJSONPayload :=
  match entries with
  | [] => sensors
  | ps :: rest =>
      let indexU64 := fst (Strconv.ParseUint (PS_MemberId ps) 10 8) in
      let payload := {|
        Timestamp := timestamp;
        Location := location;
        ParentalIndex := ParentalIndex payload_with_Index;
        PhysicalContext := "PowerSupplyBay";
        Index := Some (uint8 indexU64);
        DeviceSpecificContext := DeviceSpecificContext payload_with_Index;
        Value := FormatFloat (LineInputVoltage ps)
      |} in
      PowerSupplies_loop timestamp location rest (sensors ++ [payload])
  end.

(** The loop over [power.Voltages]; the slice of the name can panic. *)
Fixpoint Voltages_loop (timestamp location : string)
    (entries : list Voltage) (sensors : list CrayJSONPayload)
  : Result (list CrayJSONPayload) :=
  match entries with
  | [] => Returned sensors
  | v :: rest =>
      match slice_from (V_Name v) 3 with
      | Panicked msg => Panicked msg
      | Returned suffix =>
          let payload := {|
            Timestamp := timestamp;
            Location := location;
            ParentalIndex := ParentalIndex payload_with_Index;
            PhysicalContext := "SystemBoard";
            Index := Index payload_with_Index;
            DeviceSpecificContext := suffix;
            Value := FormatFloat (ReadingVolts v)
          |} in
          Voltages_loop timestamp location rest (sensors ++ [payload])
      end
  end.

Definition ParseJSONPowerEvents (payloadBytes location : string) (clk : Clock)
  : Result (list Event) * Clock :=
  let '(timestamp, clk) := time_Now clk in
  match json_Unmarshal_Power payloadBytes with
  | None => (Returned [], clk)
  | Some power =>
      let '(eventTimestamp, clk) := time_Now clk in
      let powerEvent := {|
        MessageId := PowerMessageID;
        EventTimestamp := eventTimestamp;
        Oem := Some {|
          Sensors_Sensors :=
            PowerControl_loop timestamp location (Power_PowerControl power) [];
          TelemetrySource := "River" |}
      |} in
      let events := [] ++ [powerEvent] in
      let supplies :=
        PowerSupplies_loop timestamp location (Power_PowerSupplies power) [] in
      match Voltages_loop timestamp location (Power_Voltages power) supplies with
      | Panicked msg => (Panicked msg, clk)
      | Returned sensors =>
          let voltageEvent := {|
            MessageId := VoltageMessageID;
            EventTimestamp := timestamp;
            Oem := Some {| Sensors_Sensors := sensors;
                           TelemetrySource := "River" |}
          |} in
          (Returned (events ++ [voltageEvent]), clk)
      end
  end.

(** The loop over [thermal.Temperatures]. *)
Fixpoint Temperatures_loop (timestamp location : string)
    (entries : list Temperature) (sensors : list CrayJSONPayload)
  : list CrayJSONPayload :=
  match entries with
  | [] => sensors
  | t :: rest =>
      let payload := {|
        Timestamp := timestamp;
        Location := location;
        ParentalIndex := ParentalIndex payload_with_Index_ParentalIndex;
        PhysicalContext := "Baseboard";
        Index := Index payload_with_Index_ParentalIndex;
        DeviceSpecificContext := T_Name t;
        Value := FormatFloat (ReadingCelsius t)
      |} in
      Temperatures_loop timestamp location rest (sensors ++ [payload])
  end.

Definition ParseJSONThermalEvents (payloadBytes location : string) (clk : Clock)
  : Result (list Event) * Clock :=
  let '(timestamp, clk) := time_Now clk in
  match json_Unmarshal_EnclosureThermal payloadBytes with
  | None => (Returned [], clk)
  | Some thermal =>
      let temperatureEvent := {|
        MessageId := TemperatureMessageID;
        EventTimestamp := timestamp;
        Oem := Some {|
          Sensors_Sensors :=
            Temperatures_loop timestamp location (Temperatures thermal) [];
          TelemetrySource := "River" |}
      |} in
      (Returned ([] ++ [temperatureEvent]), clk)
  end.

End Parsers.

End IntelRiverCollector.


(** Modelled from the spec: the hand-off of parsed events to the publisher.
    The polling worker that calls the parsers and publishes their events is
    outside the files at hand; the spec requires that an event with no
    sensor payloads is not forwarded downstream.  [forwardEvents] is the
    list of events handed to the publisher for one parser result. *)
Module Polling.
Import Go Hmcollector.

Definition has_sensors (e : Event) : bool :=
  match sensors_of e with
  | [] => false
  | _ :: _ => true
  end.

Definition forwardEvents (parsed : Result (list Event)) : list Event :=
  match parsed with
  | Returned events => List.filter has_sensors events
  | Panicked _ => []
  end.

End Polling.

(** ** Part IV.  Records of the collaborating packages, and the logger *)

(** [rf.RedfishEPDescription] (package redfish of hms-smd), with the fields
    the collector reads and writes. *)
Module Rf.

Record DiscoveryInfo : Type := mkDiscoveryInfo {
  LastStatus : string
}.

Record RedfishEPDescription : Type := mkRedfishEPDescription {
  ID : string;
  FQDN : string;
  User : string;
  Password : string;
  DiscInfo : DiscoveryInfo
}.

End Rf.

(** [hmcollector.KafkaBroker] and its producer handle.  A producer is
    known by the number of messages it still holds. *)
Module Kafka.

Record Producer : Type := mkProducer {
  outstanding : Z
}.

Record KafkaBroker : Type := mkKafkaBroker {
  BrokerAddress : string;
  KafkaProducer : Producer
}.

End Kafka.

(** The zap logger: what is written is kept, oldest entry first. *)
Module Zap.

Inductive Level : Type := DebugLevel | InfoLevel | WarnLevel | ErrorLevel.

Inductive Field : Type :=
| F_Error (err : option string)
| F_Int (key : string) (val : Z)
| F_String (key val : string)
| F_Endpoint (key : string) (ep : Rf.RedfishEPDescription)
| F_Broker (key : string) (b : Kafka.KafkaBroker).

Record Entry : Type := mkEntry {
  level : Level;
  message : string;
  fields : list Field
}.

Definition Logger : Type := list Entry.

Definition write (l : Logger) (lvl : Level) (msg : string) (fs : list Field)
  : Logger :=
  l ++ [mkEntry lvl msg fs].

End Zap.

(** ** Part V.  Package [main]: the endpoint inventory loop *)

Module Inventory.
Import Rf Zap.

(** What one pass of the loop gets from outside: the reply of
    [hmcollector.GetEndpointList] and the content of the secret store. *)
Record Tick : Type := mkTick {
  newEndpoints : list RedfishEPDescription;
  newEndpointsErr : option string;
  secrets : string -> option (string * string)
}.

(** The globals the loop works on. *)
Record State : Type := mkState {
  HSMEndpoints : gmap string RedfishEPDescription;
  logger : Logger
}.

Definition logged (st : State) (lvl : Level) (msg : string) (fs : list Field)
  : State :=
  mkState (HSMEndpoints st) (write (logger st) lvl msg fs).

(** Modelled from the spec: [updateEndpointWithCredentials], declared
    outside the files at hand.  It fetches the user name and the password
    kept for the endpoint's ID in the secret store and attaches them to the
    endpoint; it fails when the store has none. *)
Definition updateEndpointWithCredentials
    (store : string -> option (string * string)) (endpoint : RedfishEPDescription)
  : RedfishEPDescription * option string :=
  match store (ID endpoint) with
  | Some (username, password) =>
      (mkRedfishEPDescription (ID endpoint) (FQDN endpoint) username password
         (DiscInfo endpoint), None)
  | None => (endpoint, Some "unable to get credentials")
  end.

(** The loop over [newEndpoints] of one pass. *)
Fixpoint endpoints_loop (VaultEnabled : bool)
    (store : string -> option (string * string))
    (endpoints : list RedfishEPDescription) (st : State) : State :=
  match endpoints with
  | [] => st
  | newEndpoint :: rest =>
      match HSMEndpoints st !! ID newEndpoint with
      | Some _ => endpoints_loop VaultEnabled store rest st
      | None =>
          if negb (String.eqb (LastStatus (DiscInfo newEndpoint)) "DiscoverOK")
          then
            endpoints_loop VaultEnabled store rest
              (logged st WarnLevel
                 "Ignoring endpoint because HSM status not DiscoveredOK"
                 [F_Endpoint "newEndpoint" newEndpoint])
          else if VaultEnabled then
            match updateEndpointWithCredentials store newEndpoint with
            | (updated, Some updateErr) =>
                endpoints_loop VaultEnabled store rest
                  (logged st ErrorLevel
                     "Unable to update credentials for endpoint with those retrieved from Vault"
                     [F_Error (Some updateErr); F_Endpoint "newEndpoint" updated])
            | (updated, None) =>
                let st' :=
                  logged st DebugLevel
                    "Updated endpoint credentials with those retrieved from Vault"
                    [F_Endpoint "newEndpoint" updated] in
                endpoints_loop VaultEnabled store rest
                  (mkState (<[ID updated := updated]> (HSMEndpoints st'))
                     (logger st'))
            end
          else
            endpoints_loop VaultEnabled store rest
              (mkState (<[ID newEndpoint := newEndpoint]> (HSMEndpoints st))
                 (logger st))
      end
  end.

(** One pass of [for Running { ... }]. *)
Definition pass (VaultEnabled : bool) (t : Tick) (st : State) : State :=
  if (Nat.eqb (List.length (newEndpoints t)) 0)
     || (match newEndpointsErr t with Some _ => true | None => false end)
  then
    logged st WarnLevel "No endpoints retrieved from State Manager"
      [F_Error (newEndpointsErr t)]
  else endpoints_loop VaultEnabled (secrets t) (newEndpoints t) st.

(** The state after the passes made so far, from the state at start. *)
Definition passes (VaultEnabled : bool) (ticks : list Tick) (st : State) : State :=
  fold_left (fun s t => pass VaultEnabled t s) ticks st.

(** [doUpdateHSMEndpoints], for a run in which [Running] held for one pass
    per element of [ticks]. *)
Definition doUpdateHSMEndpoints (VaultEnabled : bool) (ticks : list Tick)
    (st : State) : State :=
  logged (passes VaultEnabled ticks st) InfoLevel
    "HSM endpoint monitoring routine shutdown." [].

(** The state [main] starts the loop from:
    [HSMEndpoints = make(map[string]*rf.RedfishEPDescription)]. *)
Definition initial (l : Logger) : State := mkState ∅ l.

(** The status HSM gave for [id] in its latest reply that lists [id], over
    the replies of [ticks] that the loop took up. *)
Definition status_in_reply (id : string) (t : Tick) : option string :=
  if (Nat.eqb (List.length (newEndpoints t)) 0)
     || (match newEndpointsErr t with Some _ => true | None => false end)
  then None
  else
    match List.filter (fun e => String.eqb (ID e) id) (List.rev (newEndpoints t)) with
    | e :: _ => Some (LastStatus (DiscInfo e))
    | [] => None
    end.

Fixpoint latest_status (id : string) (ticks_latest_first : list Tick)
  : option string :=
  match ticks_latest_first with
  | [] => None
  | t :: earlier =>
      match status_in_reply id t with
      | Some s => Some s
      | None => latest_status id earlier
      end
  end.

Definition most_recent_status (id : string) (ticks : list Tick) : option string :=
  latest_status id (List.rev ticks).

End Inventory.

(** ** Part VI.  Package [main]: the Redfish client at start-up *)

(** What [main] and [createRFClient] get from outside.  [Getenv] is
    [os.Getenv].  [CreateHTTPClientPair k uri timeout] is the error
    ([None] for [nil]) of the [k]-th call of
    [hms_certs.CreateHTTPClientPair], made with these arguments.
    [CAUpdateRegister] is the error of [hms_certs.CAUpdateRegister].
    [Flush p ms] is what [p.Flush(ms)] returns: the number of messages the
    producer still holds when the call ends. *)
Class Environment : Type := mkEnvironment {
  Getenv : string -> string;
  CreateHTTPClientPair : nat -> string -> Z -> option string;
  CAUpdateRegister : string -> option string;
  Flush : Kafka.Producer -> Z -> Z
}.

Module Startup.
Import Go Zap.

(** [hms_certs.HTTPClientPair]: a pair is known by what it was created
    from.  A pair created from the empty CA URI has no CA-validated
    client: both of its clients skip the verification. *)
Record HTTPClientPair : Type := mkHTTPClientPair {
  pair_caURI : string;
  pair_timeoutSecs : Z
}.

(** [hms_certs.ConfigParams], the fields [createRFClient] sets. *)
Record ConfigParams : Type := mkConfigParams {
  VaultCAUrl : string;
  VaultPKIUrl : string;
  VaultJWTFile : string;
  K8SAuthUrl : string
}.

(** The globals of the start-up path, and what it did so far: the number
    of calls of [CreateHTTPClientPair], the seconds slept, the CA URIs
    registered with the watcher. *)
Record State : Type := mkState {
  caURI : string;
  httpTimeout : Z;
  rfClient : option HTTPClientPair;
  params : ConfigParams;
  creations : nat;
  slept : list Z;
  watched : list string;
  logger : Logger
}.

Definition logged (st : State) (lvl : Level) (msg : string) (fs : list Field)
  : State :=
  mkState (caURI st) (httpTimeout st) (rfClient st) (params st) (creations st)
    (slept st) (watched st) (write (logger st) lvl msg fs).

Definition set_params (st : State) (p : ConfigParams) : State :=
  mkState (caURI st) (httpTimeout st) (rfClient st) p (creations st)
    (slept st) (watched st) (logger st).

Definition set_caURI (st : State) (uri : string) : State :=
  mkState uri (httpTimeout st) (rfClient st) (params st) (creations st)
    (slept st) (watched st) (logger st).

Definition set_rfClient (st : State) (c : HTTPClientPair) : State :=
  mkState (caURI st) (httpTimeout st) (Some c) (params st) (creations st)
    (slept st) (watched st) (logger st).

Definition count_creation (st : State) : State :=
  mkState (caURI st) (httpTimeout st) (rfClient st) (params st)
    (S (creations st)) (slept st) (watched st) (logger st).

(** [time.Sleep(secs * time.Second)] *)
Definition sleep (st : State) (secs : Z) : State :=
  mkState (caURI st) (httpTimeout st) (rfClient st) (params st) (creations st)
    (slept st ++ [secs]) (watched st) (logger st).

Definition watch (st : State) (uri : string) : State :=
  mkState (caURI st) (httpTimeout st) (rfClient st) (params st) (creations st)
    (slept st) (watched st ++ [uri]) (logger st).

Section WithEnvironment.
Context {env : Environment}.

(** One of the four blocks that read a variable of the process
    environment: when it is set, log it and store it in a field of
    [ConfigParams]. *)
Definition override (name msg : string)
    (store : ConfigParams -> string -> ConfigParams) (st : State) : State :=
  let envstr := Getenv name in
  if negb (String.eqb envstr "") then
    set_params (logged st InfoLevel msg [F_String "" envstr])
      (store (params st) envstr)
  else st.

(** The head of [createRFClient]: the four variables of the process
    environment that replace a field of [ConfigParams]. *)
Definition read_environment (st : State) : State :=
  let st := override "HMCOLLECTOR_CA_PKI_URL" "Using CA PKI URL: "
              (fun p v => mkConfigParams v (VaultPKIUrl p) (VaultJWTFile p) (K8SAuthUrl p))
              st in
  let st := override "HMCOLLECTOR_VAULT_PKI_URL" "Using VAULT PKI URL: "
              (fun p v => mkConfigParams (VaultCAUrl p) v (VaultJWTFile p) (K8SAuthUrl p))
              st in
  let st := override "HMCOLLECTOR_VAULT_JWT_FILE" "Using Vault JWT file: "
              (fun p v => mkConfigParams (VaultCAUrl p) (VaultPKIUrl p) v (K8SAuthUrl p))
              st in
  override "HMCOLLECTOR_K8S_AUTH_URL" "Using K8S AUTH URL: "
    (fun p v => mkConfigParams (VaultCAUrl p) (VaultPKIUrl p) (VaultJWTFile p) v)
    st.

(** What [createRFClient] logs once it holds the lock. *)
Definition announce (st : State) : State :=
  let st := logged st InfoLevel "All RF threads paused." [] in
  if negb (String.eqb (caURI st) "") then
    logged st InfoLevel "Creating Redfish HTTP client with CA trust bundle from"
      [F_String "" (caURI st)]
  else
    logged st InfoLevel "Creating Redfish HTTP client without CA trust bundle." [].

(** [createRFClient]; the result is its error. *)
Definition createRFClient (st : State) : option string * State :=
  let st := announce (read_environment st) in
  let err := CreateHTTPClientPair (creations st) (caURI st) (httpTimeout st) in
  let st := count_creation st in
  match err with
  | Some e =>
      (Some ("ERROR: Can't create Redfish HTTP client: " +:+ e), st)
  | None =>
      (None, set_rfClient st (mkHTTPClientPair (caURI st) (httpTimeout st)))
  end.

(** [for ix := 1; ix <= 10; ix++ { ... }] of [main], with [left] passes
    still to make; the result is [ok]. *)
Fixpoint create_attempts (left : nat) (ix : Z) (st : State) : bool * State :=
  match left with
  | O => (false, st)
  | S left' =>
      match createRFClient st with
      | (None, st) =>
          (true, logged st InfoLevel "Redfish HTTP client pair creation succeeded." [])
      | (Some err, st) =>
          let st :=
            logged st ErrorLevel "TLS-verified client pair creation failure, "
              [F_Int "attempt" ix; F_Error (Some err)] in
          create_attempts left' (ix + 1) (sleep st 2)
      end
  end.

(** The part of [main] that sets the Redfish client up: the ten attempts,
    the failover to a client without CA bundle, the CA watcher. *)
Definition main_setup_rfClient (st : State) : Result State :=
  let '(ok, st) := create_attempts 10 1 st in
  let after_failover :=
    if negb ok then
      let st :=
        logged st ErrorLevel
          "Can't create secure HTTP client pair for Redfish, exhausted retries." [] in
      let st :=
        logged st ErrorLevel
          "   Making insecure client; Please check CA bundle URI for correctness." [] in
      let st := set_caURI st "" in
      match createRFClient st with
      | (Some _, _) => Panicked "Can't create Redfish HTTP client!!!"
      | (None, st) => Returned st
      end
    else Returned st in
  match after_failover with
  | Panicked msg => Panicked msg
  | Returned st =>
      if negb (String.eqb (caURI st) "") then
        let st := watch st (caURI st) in
        match CAUpdateRegister (caURI st) with
        | Some err =>
            let st :=
              logged st WarnLevel "Unable to register CA bundle watcher for "
                [F_String "URI" (caURI st); F_Error (Some err)] in
            Returned
              (logged st WarnLevel
                 "   This means no updates when CA bundle is rolled." [])
        | None => Returned st
        end
      else
        Returned
          (logged st WarnLevel
             "No CA bundle URI specified, not watching for CA changes." [])
  end.

End WithEnvironment.
End Startup.

(** ** Part VII.  Package [main]: the producers at shutdown *)

Module Shutdown.
Import Go Zap Kafka.

(** The globals of the way out of [main], and the calls of [Flush] made so
    far: the broker and the timeout in milliseconds of each. *)
Record State : Type := mkState {
  kafkaBrokers : list KafkaBroker;
  rfClient : option Startup.HTTPClientPair;
  flushes : list (string * Z);
  logger : Logger
}.

Section WithEnvironment.
Context {env : Environment}.

(** The loop of the deferred function over [kafkaBrokers]; [done] are the
    brokers already flushed, in order. *)
Fixpoint flush_loop (brokers done : list KafkaBroker)
    (calls : list (string * Z)) (l : Logger)
  : list KafkaBroker * list (string * Z) * Logger :=
  match brokers with
  | [] => (done, calls, l)
  | thisBroker :: rest =>
      let timeoutMs := 15 * 1000 in
      let abandonedMessages := Flush (KafkaProducer thisBroker) timeoutMs in
      let thisBroker :=
        mkKafkaBroker (BrokerAddress thisBroker) (mkProducer abandonedMessages) in
      flush_loop rest (done ++ [thisBroker])
        (calls ++ [(BrokerAddress thisBroker, timeoutMs)])
        (write l InfoLevel "Closed connection with Kafka broker."
           [F_Broker "broker" thisBroker;
            F_Int "abandonedMessages" abandonedMessages])
  end.

(** The function [main] defers after [WaitGroup.Wait()]. *)
Definition deferred_flush (st : State) : State :=
  let '(brokers, calls, l) :=
    flush_loop (kafkaBrokers st) [] (flushes st) (logger st) in
  mkState brokers (rfClient st) calls l.

(** [main] from the return of [WaitGroup.Wait()] to its end.  The deferred
    function runs when [main] returns and when it panics. *)
Definition main_exit (st : State) : Result unit * State :=
  match rfClient st with
  | None =>
      (Panicked "invalid memory address or nil pointer dereference",
       deferred_flush st)
  | Some _ =>
      let st :=
        mkState (kafkaBrokers st) (rfClient st) (flushes st)
          (write (logger st) InfoLevel "Exiting..." []) in
      (Returned tt, deferred_flush st)
  end.

End WithEnvironment.
End Shutdown.

(** ** Part VIII.  A reference implementation of the library calls

    The theorems below hold for every [Library] and every [Environment].
    This part gives one of each to run the program on: a formatter of
    binary64 values that prints the shortest decimal that reads back as the
    same value, as [strconv.FormatFloat(x, 'f', -1, 64)] does, and a decoder
    of JSON texts into the telemetry records (objects, arrays, strings with
    the two-character escapes, numbers, [true], [false] and [null]; field
    names are matched as written or up to the case of ASCII letters). *)

Module Reference.
Import Hmcollector.

(** *** Printing a binary64 value *)

Definition decimal (n : Z) : string :=
  NilZero.string_of_uint (N.to_uint (Z.to_N n)).

Fixpoint zeros (k : nat) : string :=
  match k with
  | O => ""
  | S k' => "0" +:+ zeros k'
  end.

(** [num / den] against [d * 10 ^ q]. *)
Definition compare_scaled (num den d q : Z) : comparison :=
  if 0 <=? q then num ?= d * 10 ^ q * den
  else num * 10 ^ (- q) ?= d * den.

(** The least [k] from [k0] on with [num / den < 10 ^ k]. *)
Fixpoint magnitude (fuel : nat) (num den k0 : Z) : Z :=
  match fuel with
  | O => k0
  | S fuel' =>
      match compare_scaled num den 1 k0 with
      | Lt => k0
      | _ => magnitude fuel' num den (k0 + 1)
      end
  end.

(** The shortest decimal [d * 10 ^ q] that rounds to the value [v / den],
    whose neighbours are halfway at [lo / den] and [hi / den]; the ends
    count when [inclusive].  [n] is the number of digits tried, [k] the
    magnitude of the value. *)
Fixpoint shortest (fuel : nat) (lo v hi den : Z) (inclusive : bool) (k n : Z)
  : Z * Z :=
  let q := k - n in
  let down := if 0 <=? q then v / (den * 10 ^ q) else v * 10 ^ (- q) / den in
  let up := down + 1 in
  match fuel with
  | O => (down, q)
  | S fuel' =>
      let okdown :=
        match compare_scaled lo den down q with
        | Lt => true
        | Eq => inclusive
        | Gt => false
        end in
      let okup :=
        match compare_scaled hi den up q with
        | Gt => true
        | Eq => inclusive
        | Lt => false
        end in
      if okdown && okup then
        (* twice the value against [2 * down + 1] in the unit [10 ^ q] *)
        match compare_scaled (2 * v) den (2 * down + 1) q with
        | Lt => (down, q)
        | Gt => (up, q)
        | Eq => if Z.even down then (down, q) else (up, q)
        end
      else if okdown then (down, q)
      else if okup then (up, q)
      else shortest fuel' lo v hi den inclusive k (n + 1)
  end.

(** Drop the zeros a decimal ends with after its point. *)
Fixpoint trim (fuel : nat) (d q : Z) : Z * Z :=
  match fuel with
  | O => (d, q)
  | S fuel' =>
      if (q <? 0) && (d mod 10 =? 0) && negb (d =? 0) then trim fuel' (d / 10) (q + 1)
      else (d, q)
  end.

(** [d * 10 ^ q] in the format ['f']. *)
Definition print_fixed (d q : Z) : string :=
  if 0 <=? q then
    if d =? 0 then "0" else decimal d +:+ zeros (Z.to_nat q)
  else
    let k := Z.to_nat (- q) in
    let whole := d / 10 ^ (- q) in
    let part := decimal (d mod 10 ^ (- q)) in
    decimal whole +:+ "." +:+ zeros (k - String.length part) +:+ part.

Definition FormatFloat_f64 (x : float) : string :=
  match Prim2SF x with
  | S754_nan => "NaN"
  | S754_infinity false => "+Inf"
  | S754_infinity true => "-Inf"
  | S754_zero false => "0"
  | S754_zero true => "-0"
  | S754_finite sign m e =>
      let m := Z.pos m in
      (* in the unit [2 ^ (e - 2)] *)
      let lo := if (m =? 2 ^ 52) && (-1074 <? e) then 4 * m - 1 else 4 * m - 2 in
      let v := 4 * m in
      let hi := 4 * m + 2 in
      let '(lo, v, hi, den) :=
        if 2 <=? e then
          (lo * 2 ^ (e - 2), v * 2 ^ (e - 2), hi * 2 ^ (e - 2), 1)
        else (lo, v, hi, 2 ^ (2 - e)) in
      (* the binary logarithms place the magnitude within two of [guess] *)
      let guess := (Z.log2 v - Z.log2 den) * 30103 / 100000 in
      let k := magnitude 8 v den (guess - 1) in
      let '(d, q) := shortest 17 lo v hi den (Z.even m) k 1 in
      let '(d, q) := trim 400 d q in
      (if sign then "-" else "") +:+ print_fixed d q
  end.

(** *** Reading a JSON text *)

Inductive JSON : Type :=
| JNull
| JBool (b : bool)
| JNumber (negative : bool) (mantissa exp10 : Z)
| JString (s : string)
| JArray (elements : list JSON)
| JObject (members : list (string * JSON)).

Definition byte_of (c : ascii) : Z := Z.of_N (N_of_ascii c).

Definition is_space (c : ascii) : bool :=
  let b := byte_of c in
  (b =? 32) || (b =? 9) || (b =? 10) || (b =? 13).

Definition is_digit (c : ascii) : bool :=
  let b := byte_of c in (48 <=? b) && (b <=? 57).

Fixpoint skip_space (s : string) : string :=
  match s with
  | String c rest => if is_space c then skip_space rest else s
  | EmptyString => s
  end.

(** The digits [s] starts with: their value after [acc], their number,
    the rest. *)
Fixpoint read_digits (s : string) (acc : Z) (count : Z) : Z * Z * string :=
  match s with
  | String c rest =>
      if is_digit c then read_digits rest (10 * acc + (byte_of c - 48)) (count + 1)
      else (acc, count, s)
  | EmptyString => (acc, count, s)
  end.

(** A number: [-? int frac? exp?], where [int] has no leading zero. *)
Definition read_number (s : string) : option (JSON * string) :=
  let '(negative, s) :=
    match s with
    | String "-" rest => (true, rest)
    | _ => (false, s)
    end in
  let leading_zero :=
    match s with
    | String "0" (String c _) => is_digit c
    | _ => false
    end in
  let '(whole, n_whole, s) := read_digits s 0 0 in
  if (n_whole =? 0) || leading_zero then None
  else
    let after_fraction :=
      match s with
      | String "." rest =>
          let '(m, n_frac, rest') := read_digits rest whole 0 in
          if n_frac =? 0 then None else Some (m, - n_frac, rest')
      | _ => Some (whole, 0, s)
      end in
    match after_fraction with
    | None => None
    | Some (m, e, s) =>
        match s with
        | String c rest =>
            if (byte_of c =? 101) || (byte_of c =? 69) then
              let '(minus, rest) :=
                match rest with
                | String "-" r => (true, r)
                | String "+" r => (false, r)
                | _ => (false, rest)
                end in
              let '(x, n_x, rest) := read_digits rest 0 0 in
              if n_x =? 0 then None
              else Some (JNumber negative m (e + (if minus then - x else x)), rest)
            else Some (JNumber negative m e, s)
        | EmptyString => Some (JNumber negative m e, s)
        end
    end.

(** The rest of a string after its opening quote. *)
Fixpoint read_string (s : string) (acc : string) : option (string * string) :=
  match s with
  | EmptyString => None
  | String c rest =>
      if byte_of c =? 34 then Some (acc, rest)
      else if byte_of c <? 32 then None
      else if byte_of c =? 92 then
        match rest with
        | String e rest' =>
            let b := byte_of e in
            let plain (x : Z) :=
              read_string rest' (acc +:+ String (ascii_of_N (Z.to_N x)) "") in
            if (b =? 34) || (b =? 92) || (b =? 47) then plain b
            else if b =? 98 then plain 8
            else if b =? 102 then plain 12
            else if b =? 110 then plain 10
            else if b =? 114 then plain 13
            else if b =? 116 then plain 9
            else None
        | EmptyString => None
        end
      else read_string rest (acc +:+ String c "")
  end.

Definition expect (word : string) (v : JSON) (s : string) : option (JSON * string) :=
  if String.prefix word s
  then Some (v, String.substring (String.length word)
                  (String.length s - String.length word) s)
  else None.

Fixpoint read_value (fuel : nat) (s : string) : option (JSON * string) :=
  match fuel with
  | O => None
  | S fuel' =>
      match skip_space s with
      | EmptyString => None
      | String c rest =>
          let b := byte_of c in
          if b =? 123 then
            match skip_space rest with
            | String "}" rest' => Some (JObject [], rest')
            | _ => read_members fuel' rest []
            end
          else if b =? 91 then
            match skip_space rest with
            | String "]" rest' => Some (JArray [], rest')
            | _ => read_elements fuel' rest []
            end
          else if b =? 34 then
            match read_string rest "" with
            | Some (str, rest') => Some (JString str, rest')
            | None => None
            end
          else if b =? 116 then expect "true" (JBool true) (String c rest)
          else if b =? 102 then expect "false" (JBool false) (String c rest)
          else if b =? 110 then expect "null" JNull (String c rest)
          else read_number (String c rest)
      end
  end
with read_elements (fuel : nat) (s : string) (acc : list JSON)
  : option (JSON * string) :=
  match fuel with
  | O => None
  | S fuel' =>
      match read_value fuel' s with
      | None => None
      | Some (v, rest) =>
          match skip_space rest with
          | String "," rest' => read_elements fuel' rest' (acc ++ [v])
          | String "]" rest' => Some (JArray (acc ++ [v]), rest')
          | _ => None
          end
      end
  end
with read_members (fuel : nat) (s : string) (acc : list (string * JSON))
  : option (JSON * string) :=
  match fuel with
  | O => None
  | S fuel' =>
      match skip_space s with
      | String c rest =>
          if negb (byte_of c =? 34) then None
          else
            match read_string rest "" with
            | None => None
            | Some (key, rest) =>
                match skip_space rest with
                | String ":" rest =>
                    match read_value fuel' rest with
                    | None => None
                    | Some (v, rest) =>
                        match skip_space rest with
                        | String "," rest' =>
                            read_members fuel' rest' (acc ++ [(key, v)])
                        | String "}" rest' =>
                            Some (JObject (acc ++ [(key, v)]), rest')
                        | _ => None
                        end
                    end
                | _ => None
                end
            end
      | EmptyString => None
      end
  end.

(** A whole text: one value, with nothing but space around it. *)
Definition read_text (s : string) : option JSON :=
  match read_value (S (String.length s)) s with
  | Some (v, rest) =>
      match skip_space rest with
      | EmptyString => Some v
      | _ => None
      end
  | None => None
  end.

(** *** Decoding into the telemetry records *)

(** The binary64 value nearest to [m * 10 ^ e], ties to even; [None] when
    it is out of range.  For a negative [e] the quotient is taken to more
    than sixty bits, and one more bit says whether anything is left. *)
Definition float_of_decimal (negative : bool) (m e : Z) : option float :=
  let '(mant, exp2) :=
    if 0 <=? e then (m * 10 ^ e, 0)
    else
      let den := 10 ^ (- e) in
      let shift := Z.max 0 (64 + Z.log2 den - Z.log2 m) in
      let quotient := m * 2 ^ shift / den in
      let left := if m * 2 ^ shift mod den =? 0 then 0 else 1 in
      (2 * quotient + left, - shift - 1) in
  match binary_normalize 53 1024 (if negative then - mant else mant) exp2 negative with
  | S754_infinity _ => None
  | S754_nan => None
  | x => Some (SF2Prim x)
  end.

Definition to_lower (c : ascii) : ascii :=
  let b := byte_of c in
  if (65 <=? b) && (b <=? 90) then ascii_of_N (Z.to_N (b + 32)) else c.

Fixpoint fold_case (s : string) : string :=
  match s with
  | EmptyString => EmptyString
  | String c rest => String (to_lower c) (fold_case rest)
  end.

(** The value of the last member whose key is [name], up to case. *)
Fixpoint member (name : string) (members : list (string * JSON)) (found : option JSON)
  : option JSON :=
  match members with
  | [] => found
  | (key, v) :: rest =>
      if String.eqb (fold_case key) (fold_case name)
      then member name rest (Some v)
      else member name rest found
  end.

Definition as_string (v : option JSON) : option string :=
  match v with
  | None | Some JNull => Some ""
  | Some (JString s) => Some s
  | Some _ => None
  end.

Definition as_float (v : option JSON) : option float :=
  match v with
  | None | Some JNull => Some 0%float
  | Some (JNumber negative m e) => float_of_decimal negative m e
  | Some _ => None
  end.

Fixpoint all_of {A B : Type} (f : A -> option B) (l : list A) : option (list B) :=
  match l with
  | [] => Some []
  | a :: rest =>
      match f a, all_of f rest with
      | Some b, Some bs => Some (b :: bs)
      | _, _ => None
      end
  end.

Definition as_list {B : Type} (f : JSON -> option B) (v : option JSON)
  : option (list B) :=
  match v with
  | None | Some JNull => Some []
  | Some (JArray elements) => all_of f elements
  | Some _ => None
  end.

Definition as_PowerControl (v : JSON) : option PowerControl :=
  match v with
  | JNull => Some (mkPowerControl "" "" 0%float)
  | JObject ms =>
      match as_string (member "Name" ms None),
            as_string (member "MemberId" ms None),
            as_float (member "PowerConsumedWatts" ms None) with
      | Some name, Some id, Some watts => Some (mkPowerControl name id watts)
      | _, _, _ => None
      end
  | _ => None
  end.

Definition as_PowerSupply (v : JSON) : option PowerSupply :=
  match v with
  | JNull => Some (mkPowerSupply "" 0%float)
  | JObject ms =>
      match as_string (member "MemberId" ms None),
            as_float (member "LineInputVoltage" ms None) with
      | Some id, Some volts => Some (mkPowerSupply id volts)
      | _, _ => None
      end
  | _ => None
  end.

Definition as_Voltage (v : JSON) : option Voltage :=
  match v with
  | JNull => Some (mkVoltage "" 0%float)
  | JObject ms =>
      match as_string (member "Name" ms None),
            as_float (member "ReadingVolts" ms None) with
      | Some name, Some volts => Some (mkVoltage name volts)
      | _, _ => None
      end
  | _ => None
  end.

Definition as_Temperature (v : JSON) : option Temperature :=
  match v with
  | JNull => Some (mkTemperature "" 0%float)
  | JObject ms =>
      match as_string (member "Name" ms None),
            as_float (member "ReadingCelsius" ms None) with
      | Some name, Some celsius => Some (mkTemperature name celsius)
      | _, _ => None
      end
  | _ => None
  end.

Definition Unmarshal_Power (payloadBytes : string) : option Power :=
  match read_text payloadBytes with
  | Some JNull => Some (mkPower [] [] [])
  | Some (JObject ms) =>
      match as_list as_PowerControl (member "PowerControl" ms None),
            as_list as_PowerSupply (member "PowerSupplies" ms None),
            as_list as_Voltage (member "Voltages" ms None) with
      | Some controls, Some supplies, Some voltages =>
          Some (mkPower controls supplies voltages)
      | _, _, _ => None
      end
  | _ => None
  end.

Definition Unmarshal_EnclosureThermal (payloadBytes : string)
  : option EnclosureThermal :=
  match read_text payloadBytes with
  | Some JNull => Some (mkEnclosureThermal [])
  | Some (JObject ms) =>
      match as_list as_Temperature (member "Temperatures" ms None) with
      | Some temperatures => Some (mkEnclosureThermal temperatures)
      | None => None
      end
  | _ => None
  end.

Definition library : Library :=
  mkLibrary Unmarshal_Power Unmarshal_EnclosureThermal FormatFloat_f64.

(** A clock that shows the number of the reading. *)
Definition clock : Go.Clock :=
  Go.mkClock (fun k => "2020-12-16T00:00:0" +:+ decimal (Z.of_nat k) +:+ "Z") 0.

(** The scenarios of the specification. *)

(** [text] with every apostrophe turned into a double quote. *)
Fixpoint json (text : string) : string :=
  match text with
  | EmptyString => EmptyString
  | String c rest =>
      String (if byte_of c =? 39 then ascii_of_N 34 else c) (json rest)
  end.

Definition S1_payload : string :=
  json "{'PowerControl':[{'Name':'Server Power Control','MemberId':'0','PowerConsumedWatts':312.5}],'PowerSupplies':[{'MemberId':'1','LineInputVoltage':208}],'Voltages':[{'Name':'P12 VDD','ReadingVolts':12.01}]}".

Definition S2_payload : string :=
  json "{'Temperatures':[{'Name':'CPU1','ReadingCelsius':42}]}".

Definition S3_payload : string :=
  json "{'PowerControl':[],'PowerSupplies':[],'Voltages':[]}".

(** The decoded S1 payload. *)
Definition S1_power : Power :=
  mkPower [mkPowerControl "Server Power Control" "0" 312.5%float]
    [mkPowerSupply "1" 208%float]
    [mkVoltage "P12 VDD" 12.01%float].

(** A payload with a voltage rail of a two-letter name. *)
Definition short_name_payload : string :=
  json "{'PowerControl':[],'PowerSupplies':[],'Voltages':[{'Name':'5V','ReadingVolts':5.02}]}".

(** A payload whose member identifiers are not numbers from 0 to 255. *)
Definition bad_member_payload : string :=
  json "{'PowerControl':[{'Name':'Server Power Control','MemberId':'PSU-A','PowerConsumedWatts':300}],'PowerSupplies':[{'MemberId':'300','LineInputVoltage':230}],'Voltages':[]}".

(** A payload with member identifiers of every kind and a voltage rail:
    no number, digits followed by a letter, a number above 255, a number
    with leading zeros. *)
Definition mixed_member_payload : string :=
  json "{'PowerControl':[{'Name':'Server Power Control','MemberId':'PSU-A','PowerConsumedWatts':300},{'Name':'Server Power Control','MemberId':'256x','PowerConsumedWatts':310}],'PowerSupplies':[{'MemberId':'300','LineInputVoltage':230},{'MemberId':'007','LineInputVoltage':231}],'Voltages':[{'Name':'P12 VDD','ReadingVolts':12.01}]}".

Definition mixed_member_power : Power :=
  mkPower
    [mkPowerControl "Server Power Control" "PSU-A" 300%float;
     mkPowerControl "Server Power Control" "256x" 310%float]
    [mkPowerSupply "300" 230%float; mkPowerSupply "007" 231%float]
    [mkVoltage "P12 VDD" 12.01%float].

(** The same payload with a voltage rail of a two-letter name. *)
Definition mixed_member_short_name_payload : string :=
  json "{'PowerControl':[{'Name':'Server Power Control','MemberId':'PSU-A','PowerConsumedWatts':300}],'PowerSupplies':[{'MemberId':'300','LineInputVoltage':230}],'Voltages':[{'Name':'5V','ReadingVolts':5.02}]}".

End Reference.

(** A run of the inventory loop: HSM first reports an endpoint as
    discovered, and in its next reply reports the same endpoint as failed. *)
Module InventoryScenario.
Import Rf Inventory.

Definition reported_ok : RedfishEPDescription :=
  mkRedfishEPDescription "x3000c0s1b0" "x3000c0s1b0.local" "" ""
    (mkDiscoveryInfo "DiscoverOK").

Definition reported_failed : RedfishEPDescription :=
  mkRedfishEPDescription "x3000c0s1b0" "x3000c0s1b0.local" "" ""
    (mkDiscoveryInfo "HTTPsGetFailed").

Definition store (id : string) : option (string * string) :=
  if String.eqb id "x3000c0s1b0" then Some ("root", "initial0") else None.

Definition first_reply : Tick := mkTick [reported_ok] None store.

Definition second_reply : Tick := mkTick [reported_failed] None store.

Definition kept : RedfishEPDescription :=
  mkRedfishEPDescription "x3000c0s1b0" "x3000c0s1b0.local" "root" "initial0"
    (mkDiscoveryInfo "DiscoverOK").

End InventoryScenario.

(** ** Part IX.  Notions the properties are stated with *)

Module Statements.
Import Go Hmcollector.

(** The payloads the three loops of the power parser and the loop of the
    thermal parser append. *)
Definition chassis_payload {lib : Library} (timestamp location : string)
    (pc : PowerControl) : CrayJSONPayload :=
  mkCrayJSONPayload timestamp location None "Chassis"
    (Some (uint8 (fst (Strconv.ParseUint (PC_MemberId pc) 10 8)))) ""
    (FormatFloat (PowerConsumedWatts pc)).

Definition supply_payload {lib : Library} (timestamp location : string)
    (ps : PowerSupply) : CrayJSONPayload :=
  mkCrayJSONPayload timestamp location None "PowerSupplyBay"
    (Some (uint8 (fst (Strconv.ParseUint (PS_MemberId ps) 10 8)))) ""
    (FormatFloat (LineInputVoltage ps)).

Definition rail_payload {lib : Library} (timestamp location : string)
    (v : Voltage) : CrayJSONPayload :=
  mkCrayJSONPayload timestamp location None "SystemBoard" (Some 0)
    (String.substring 3 (String.length (V_Name v) - 3) (V_Name v))
    (FormatFloat (ReadingVolts v)).

Definition temperature_payload {lib : Library} (timestamp location : string)
    (t : Temperature) : CrayJSONPayload :=
  mkCrayJSONPayload timestamp location (Some 0) "Baseboard" (Some 0) (T_Name t)
    (FormatFloat (ReadingCelsius t)).

Definition is_server_power_control (pc : PowerControl) : bool :=
  String.eqb (PC_Name pc) "Server Power Control".

Definition name_too_short (v : Voltage) : bool :=
  (String.length (V_Name v) <? 3)%nat.

(** The value of a non-empty string of decimal digits. *)
Fixpoint digits_value (s : string) (acc : Z) : option Z :=
  match s with
  | EmptyString => Some acc
  | String c rest =>
      let b := Z.of_N (N_of_ascii c) in
      if (48 <=? b) && (b <=? 57) then digits_value rest (10 * acc + (b - 48))
      else None
  end.

Definition decimal_value (s : string) : option Z :=
  match s with
  | EmptyString => None
  | _ => digits_value s 0
  end.

(** An event, and a parser result, with the time stamps blanked. *)
Definition payload_without_timestamp (p : CrayJSONPayload) : CrayJSONPayload :=
  mkCrayJSONPayload "" (Location p) (ParentalIndex p) (PhysicalContext p)
    (Index p) (DeviceSpecificContext p) (Value p).

Definition event_without_timestamps (e : Event) : Event :=
  mkEvent (MessageId e) ""
    (match Oem e with
     | Some s =>
         Some (mkSensors (List.map payload_without_timestamp (Sensors_Sensors s))
                 (TelemetrySource s))
     | None => None
     end).

Definition without_timestamps (r : Result (list Event)) : Result (list Event) :=
  match r with
  | Returned events => Returned (List.map event_without_timestamps events)
  | Panicked msg => Panicked msg
  end.

(** The clock after [n] more readings. *)
Definition advanced (clk : Clock) (n : nat) : Clock :=
  mkClock (instants clk) (n + reads clk).

(** A call tells its caller of an error when it does not end by returning
    its results.  The parsers have one result, the events, and no error
    value: they can tell of an error by a panic only. *)
Definition signals_error {A : Type} (r : Result A) : Prop :=
  exists msg, r = Panicked msg.

(** The value of the decimal digits a string starts with, read from the
    left; [acc] is the value of the digits read so far. *)
Fixpoint leading_value (s : string) (acc : Z) : Z :=
  match s with
  | EmptyString => acc
  | String c rest =>
      let b := Z.of_N (N_of_ascii c) in
      if (48 <=? b) && (b <=? 57) then leading_value rest (10 * acc + (b - 48))
      else acc
  end.

(** The index a member identifier gives, without reference to [ParseUint]:
    255 when the decimal digits it starts with have a value above 255,
    whatever follows them; otherwise its decimal value when it is a
    non-empty string of decimal digits; otherwise 0. *)
Definition index_of_MemberId (MemberId : string) : Z :=
  if leading_value MemberId 0 >? 255 then 255
  else match decimal_value MemberId with
       | Some v => v
       | None => 0
       end.

(** The error of [ParseUint] for a member identifier, which the parser
    discards: a range error when the decimal digits the identifier starts
    with have a value above 255, no error for a non-empty string of decimal
    digits of a value up to 255, a syntax error otherwise. *)
Definition error_of_MemberId (MemberId : string) : option Strconv.NumError :=
  if leading_value MemberId 0 >? 255 then Some Strconv.ErrRange
  else match decimal_value MemberId with
       | Some _ => None
       | None => Some Strconv.ErrSyntax
       end.

(** The expected outcome of scenario S1, for a given device-specific
    context of the voltage rail. *)
Definition S1_expected (rail_context location : string)
    (r : Result (list Event)) : Prop :=
  exists power_event voltage_event chassis supply rail,
    r = Returned [power_event; voltage_event] /\
    MessageId power_event = PowerMessageID /\
    sensors_of power_event = [chassis] /\
    Index chassis = Some 0 /\
    PhysicalContext chassis = "Chassis" /\
    Value chassis = "312.5" /\
    MessageId voltage_event = VoltageMessageID /\
    sensors_of voltage_event = [supply; rail] /\
    Index supply = Some 1 /\
    PhysicalContext supply = "PowerSupplyBay" /\
    Value supply = "208" /\
    PhysicalContext rail = "SystemBoard" /\
    DeviceSpecificContext rail = rail_context /\
    Value rail = "12.01" /\
    Location chassis = location /\
    Location supply = location /\
    Location rail = location.

End Statements.

(** Notions for the start-up and shutdown paths of [main]. *)
Module MainStatements.
Import Zap Kafka.

(** [st'] is [st] after [calls] more calls of [CreateHTTPClientPair] and
    the sleeps [naps], with more written to the log; the CA URI, the
    timeout and the registered watchers are the same. *)
Definition startup_progress (st st' : Startup.State) (calls : nat)
    (naps : list Z) : Prop :=
  Startup.caURI st' = Startup.caURI st /\
  Startup.httpTimeout st' = Startup.httpTimeout st /\
  Startup.creations st' = (Startup.creations st + calls)%nat /\
  Startup.slept st' = Startup.slept st ++ naps /\
  Startup.watched st' = Startup.watched st /\
  exists entries, Startup.logger st' = Startup.logger st ++ entries.

(** The three entries [main] writes when it gives the CA-validated client
    up. *)
Definition exhausted_retries : Entry :=
  mkEntry ErrorLevel
    "Can't create secure HTTP client pair for Redfish, exhausted retries." [].

Definition making_insecure_client : Entry :=
  mkEntry ErrorLevel
    "   Making insecure client; Please check CA bundle URI for correctness." [].

Definition not_watching : Entry :=
  mkEntry WarnLevel "No CA bundle URI specified, not watching for CA changes." [].

(** A broker after its producer was flushed with a timeout of [ms]
    milliseconds, and the entry written for it. *)
Definition flushed {env : Environment} (ms : Z) (b : KafkaBroker) : KafkaBroker :=
  mkKafkaBroker (BrokerAddress b) (mkProducer (Flush (KafkaProducer b) ms)).

Definition closed_connection {env : Environment} (ms : Z) (b : KafkaBroker) : Entry :=
  mkEntry InfoLevel "Closed connection with Kafka broker."
    [F_Broker "broker" (flushed ms b);
     F_Int "abandonedMessages" (Flush (KafkaProducer b) ms)].

(** An environment in which no client pair can be created from a CA URI
    and one can be created without, and a process that starts with the
    CA URI of a bundle that is not there. *)
Definition no_CA_environment : Environment :=
  mkEnvironment (fun _ => "")
    (fun _ uri _ => if String.eqb uri "" then None else Some "no CA bundle")
    (fun _ => None)
    (fun p ms => Z.max 0 (outstanding p - ms)).

Definition at_start : Startup.State :=
  Startup.mkState "vault://pki_common/ca_chain" 10 None
    (Startup.mkConfigParams "" "" "" "") 0 [] [] [].

(** Two brokers at shutdown, the second with more messages to deliver
    than its producer delivers in time. *)
Definition at_shutdown : Shutdown.State :=
  Shutdown.mkState
    [mkKafkaBroker "kafka-a:9092" (mkProducer 50);
     mkKafkaBroker "kafka-b:9092" (mkProducer 20000)]
    (Some (Startup.mkHTTPClientPair "" 10)) [] [].

End MainStatements.

(** ** Part IX, continued.  The rest of the two files *)

(** [IntelRiverCollector.GetPayloadURLForTelemetryType].  [endpoint] is a
    pointer: reading the FQDN of [nil] panics.  A [TelemetryType] is a
    string, and [fmt.Sprintf] with two [%s] joins the pieces. *)
Module RiverURL.
Import Go Rf.

Definition GetPayloadURLForTelemetryType (endpoint : option RedfishEPDescription)
    (telemetryType : string) : Result string :=
  match endpoint with
  | None => Panicked "invalid memory address or nil pointer dereference"
  | Some endpoint =>
      Returned ("https://" +:+ FQDN endpoint
                +:+ "/redfish/v1/Chassis/RackMount/Baseboard/" +:+ telemetryType)
  end.

End RiverURL.

(** [caChangeCB], the function [main] registers with the CA watcher. *)
Module CARoll.
Import Zap Startup.

Section WithEnvironment.
Context {env : Environment}.

Definition caChangeCB (caBundle : string) (st : State) : State :=
  let st :=
    logged st InfoLevel "CA bundle rolled; waiting for all RF threads to pause..." [] in
  match createRFClient st with
  | (Some err, st) =>
      logged st ErrorLevel
        "Can't create TLS-verified HTTP client pair with cert roll, using previous one: "
        [F_Error (Some err)]
  | (None, st) =>
      logged st InfoLevel "HTTP transports/clients now set up with new CA bundle." []
  end.

End WithEnvironment.
End CARoll.

(** The part of [main] between the set-up of the Redfish client and
    [WaitGroup.Wait()], and the function it starts to wait for a signal. *)
Module Modes.
Import Go Zap.

(** The flags this part reads. *)
Record Flags : Type := mkFlags {
  pollingEnabled : bool;
  rfSubscribeEnabled : bool;
  restEnabled : bool;
  VaultEnabled : bool;
  smURL : string;
  restURL : string
}.

(** What the part does besides logging, in order: the functions it calls
    and the goroutines it starts. *)
Inductive Step : Type :=
| HandleFunc_root
| Call_doRest
| Go_signal_handler
| Call_setupVault
| Call_setupKafka
| Go_doUpdateHSMEndpoints
| Go_doPolling
| Go_doRFSubscribe.

(** How a goroutine ends: it returns or panics, or it waits for good, in a
    call that does not return or at a send that no goroutine receives. *)
Inductive Ending (A W : Type) : Type :=
| Ended (r : Result A)
| Waiting (on : W).
Arguments Ended {A W} r.
Arguments Waiting {A W} on.

Record State : Type := mkState {
  WaitGroup : Z;
  steps : list Step;
  logger : Logger
}.

Definition logged (st : State) (lvl : Level) (msg : string) : State :=
  mkState (WaitGroup st) (steps st) (write (logger st) lvl msg []).

Definition did (st : State) (step : Step) : State :=
  mkState (WaitGroup st) (steps st ++ [step]) (logger st).

(** [WaitGroup.Add(1)] *)
Definition WaitGroup_Add_1 (st : State) : State :=
  mkState (WaitGroup st + 1) (steps st) (logger st).

(** From [if *restEnabled] to [WaitGroup.Wait()].  [doRest], [setupVault]
    and [setupKafka] are outside the files at hand: [returns] says which
    of these calls return (the source notes that [setupVault] and
    [setupKafka] wait for good without a connection).  [logger.Panic]
    writes its message and panics. *)
Definition main_start (f : Flags) (returns : Step -> bool) (st : State)
  : Ending State Step :=
  let st :=
    if restEnabled f
    then logged (did st HandleFunc_root) InfoLevel "REST collection endpoint enabled."
    else st in
  let st := WaitGroup_Add_1 st in
  let st := logged st InfoLevel "Starting rest server." in
  let st := did st Call_doRest in
  if negb (returns Call_doRest) then Waiting Call_doRest else
  let st := did st Go_signal_handler in
  let st := if VaultEnabled f then did st Call_setupVault else st in
  if VaultEnabled f && negb (returns Call_setupVault) then Waiting Call_setupVault else
  let st := did st Call_setupKafka in
  if negb (returns Call_setupKafka) then Waiting Call_setupKafka else
  let st :=
    if pollingEnabled f || rfSubscribeEnabled f
    then did st Go_doUpdateHSMEndpoints else st in
  let after_polling :=
    if pollingEnabled f then
      if String.eqb (smURL f) "" then Panicked "State Manager URL can NOT be empty"
      else
        let st := WaitGroup_Add_1 st in
        let st := logged st InfoLevel "Polling enabled." in
        Returned (did st Go_doPolling)
    else Returned st in
  match after_polling with
  | Panicked msg => Ended (Panicked msg)
  | Returned st =>
      if rfSubscribeEnabled f then
        if String.eqb (smURL f) "" then
          Ended (Panicked "State Manager URL can NOT be empty!")
        else if String.eqb (restURL f) ""
        then Ended (Panicked "Redfish event target URL can NOT be empty!")
        else
          let st := WaitGroup_Add_1 st in
          let st := logged st InfoLevel "Redfish Event Subscribing enabled." in
          Ended (Returned (did st Go_doRFSubscribe))
      else Ended (Returned st)
  end.

(** The three channels [main] makes for the signal handler, all of them
    unbuffered. *)
Inductive Channel : Type :=
| hsmEndpointRefreshShutdown
| RFSubscribeShutdown
| PollingShutdown.

(** How [RestSRV.Shutdown(nil)] ends.  It returns [nil] or an error when
    no connection is active; with an active connection it goes on to
    [ctx.Done()], which panics for the [nil] context it is called with. *)
Inductive ShutdownOutcome : Type :=
| Shutdown_nil
| Shutdown_error (err : string)
| Shutdown_panics.

(** What the signal handler does once a signal arrives, in order; [Sent]
    is a send that a goroutine received. *)
Inductive Action : Type :=
| Set_Running_false
| Cancel_context
| Sent (ch : Channel)
| RestSRV_Shutdown.

(** [if cond { ch <- true }], followed by [rest].  The send on the
    unbuffered channel completes when a goroutine receives from it:
    [received ch] says whether one does.  When none does, the handler
    waits at the send for good and [rest] is not run. *)
Definition send_when (cond : bool) (received : Channel -> bool) (ch : Channel)
    (actions : list Action)
    (rest : list Action -> Ending unit Channel * list Action)
  : Ending unit Channel * list Action :=
  if cond then
    if received ch then rest (actions ++ [Sent ch]) else (Waiting ch, actions)
  else rest actions.

(** The body of the handler after [<-c].  [RestSRV] is [None] for the
    [nil] pointer, and otherwise says how [RestSRV.Shutdown(nil)] ends. *)
Definition signal_handler (f : Flags) (received : Channel -> bool)
    (RestSRV : option ShutdownOutcome) : Ending unit Channel * list Action :=
  let actions := [Set_Running_false; Cancel_context] in
  send_when (pollingEnabled f || rfSubscribeEnabled f) received
    hsmEndpointRefreshShutdown actions (fun actions =>
  send_when (rfSubscribeEnabled f) received RFSubscribeShutdown actions (fun actions =>
  send_when (pollingEnabled f) received PollingShutdown actions (fun actions =>
  match RestSRV with
  | None => (Ended (Returned tt), actions)
  | Some outcome =>
      let actions := actions ++ [RestSRV_Shutdown] in
      match outcome with
      | Shutdown_nil => (Ended (Returned tt), actions)
      | Shutdown_error _ =>
          (Ended (Panicked "Unable to stop REST collection server!"), actions)
      | Shutdown_panics =>
          (Ended (Panicked "invalid memory address or nil pointer dereference"),
           actions)
      end
  end))).

Definition at_start : State := mkState 0 [] [].

(** A collector that polls and subscribes, and one that polls without
    the address of the State Manager. *)
Definition both_modes : Flags :=
  mkFlags true true true true "http://cray-smd" "http://collector/".

Definition polling_without_smURL : Flags :=
  mkFlags true false true true "" "".

(** Every call returns; every send is received; the endpoint refresh has
    left its loop and receives nothing. *)
Definition all_return (step : Step) : bool := true.

Definition all_received (ch : Channel) : bool := true.

Definition refresh_gone (ch : Channel) : bool :=
  match ch with
  | hsmEndpointRefreshShutdown => false
  | _ => true
  end.

End Modes.

(** An environment in which the CA bundle is there from the fourth call
    on, one variable of the process environment is set, and the CA watcher
    cannot be registered. *)
Definition slow_CA_environment : Environment :=
  mkEnvironment
    (fun name => if String.eqb name "HMCOLLECTOR_VAULT_JWT_FILE" then "/tmp/jwt" else "")
    (fun k _ _ => if (k <? 3)%nat then Some "vault not ready" else None)
    (fun _ => Some "no watcher")
    (fun p ms => 0).


(** An endpoint of a reply can be added when HSM discovered it and, with
    the secret store in use, the store has its credentials. *)
Definition usable (VaultEnabled : bool) (store : string -> option (string * string))
    (e : Rf.RedfishEPDescription) : Prop :=
  Rf.LastStatus (Rf.DiscInfo e) = "DiscoverOK" /\
  (VaultEnabled = true -> store (Rf.ID e) <> None).

(** ** Part X.  Properties of the parsers *)

Section ParserProperties.
Import Go Hmcollector IntelRiverCollector Statements.
Context {lib : Library}.

(** The loop over the power controls appends one payload per entry named
    "Server Power Control", in order. *)
Lemma PowerControl_loop_appends (timestamp location : string)
    (entries : list PowerControl) (sensors : list CrayJSONPayload) :
  PowerControl_loop timestamp location entries sensors
  = sensors ++ List.map (chassis_payload timestamp location)
                 (List.filter is_server_power_control entries).
Proof.
  revert sensors.
  induction entries as [|pc rest IH]; intros sensors; simpl.
  - now rewrite app_nil_r.
  - unfold is_server_power_control at 1.
    destruct (String.eqb (PC_Name pc) "Server Power Control"); simpl.
    + rewrite IH, <- app_assoc. reflexivity.
    + apply IH.
Qed.

(** The loop over the power supplies appends one payload per entry. *)
Lemma PowerSupplies_loop_appends (timestamp location : string)
    (entries : list PowerSupply) (sensors : list CrayJSONPayload) :
  PowerSupplies_loop timestamp location entries sensors
  = sensors ++ List.map (supply_payload timestamp location) entries.
Proof.
  revert sensors.
  induction entries as [|ps rest IH]; intros sensors; simpl.
  - now rewrite app_nil_r.
  - rewrite IH, <- app_assoc. reflexivity.
Qed.

(** The slice [name[3:len(name)]] is taken for a name of three bytes or
    more, and panics for a shorter one. *)
Lemma slice_from_3 (name : string) :
  slice_from name 3
  = if (String.length name <? 3)%nat
    then Panicked "slice bounds out of range"
    else Returned (String.substring 3 (String.length name - 3) name).
Proof.
  unfold slice_from.
  destruct (Nat.leb_spec 3 (String.length name)) as [H|H];
    destruct (Nat.ltb_spec (String.length name) 3) as [H'|H']; try lia; reflexivity.
Qed.

(** The loop over the voltages appends one payload per entry when every
    name has three bytes or more, and panics otherwise. *)
Lemma Voltages_loop_outcome (timestamp location : string)
    (entries : list Voltage) (sensors : list CrayJSONPayload) :
  Voltages_loop timestamp location entries sensors
  = if List.existsb name_too_short entries
    then Panicked "slice bounds out of range"
    else Returned (sensors ++ List.map (rail_payload timestamp location) entries).
Proof.
  revert sensors.
  induction entries as [|v rest IH]; intros sensors; simpl.
  - now rewrite app_nil_r.
  - rewrite slice_from_3. unfold name_too_short at 1.
    destruct (String.length (V_Name v) <? 3)%nat; simpl; [reflexivity|].
    rewrite IH. destruct (List.existsb name_too_short rest); [reflexivity|].
    rewrite <- app_assoc. reflexivity.
Qed.

(** The loop over the temperatures appends one payload per entry. *)
Lemma Temperatures_loop_appends (timestamp location : string)
    (entries : list Temperature) (sensors : list CrayJSONPayload) :
  Temperatures_loop timestamp location entries sensors
  = sensors ++ List.map (temperature_payload timestamp location) entries.
Proof.
  revert sensors.
  induction entries as [|t rest IH]; intros sensors; simpl.
  - now rewrite app_nil_r.
  - rewrite IH, <- app_assoc. reflexivity.
Qed.

(** No voltage name is too short for the slice exactly when every name
    has three bytes or more. *)
Lemma existsb_name_too_short (voltages : list Voltage) :
  List.existsb name_too_short voltages = false
  <-> forall v, In v voltages -> (3 <= String.length (V_Name v))%nat.
Proof.
  split.
  - intros H v Hin. destruct (Nat.ltb_spec (String.length (V_Name v)) 3) as [Hlt|]; [|lia].
    assert (List.existsb name_too_short voltages = true); [|congruence].
    apply List.existsb_exists. exists v. split; [exact Hin|].
    unfold name_too_short. now apply Nat.ltb_lt.
  - intros H. destruct (List.existsb name_too_short voltages) eqn:E; [|reflexivity].
    apply List.existsb_exists in E as (v & Hin & Hshort).
    unfold name_too_short in Hshort. apply Nat.ltb_lt in Hshort.
    specialize (H v Hin). lia.
Qed.

(** What the power parser does with a payload that decodes: two readings
    of the clock, and either a panic or the power event followed by the
    voltage event. *)
Lemma ParseJSONPowerEvents_decoded (payloadBytes location : string)
    (clk : Clock) (power : Power) :
  json_Unmarshal_Power payloadBytes = Some power ->
  ParseJSONPowerEvents payloadBytes location clk
  = (if List.existsb name_too_short (Power_Voltages power)
     then Panicked "slice bounds out of range"
     else
       let timestamp := instants clk (reads clk) in
       Returned
         [mkEvent PowerMessageID (instants clk (S (reads clk)))
            (Some (mkSensors
                     (List.map (chassis_payload timestamp location)
                        (List.filter is_server_power_control
                           (Power_PowerControl power)))
                     "River"));
          mkEvent VoltageMessageID timestamp
            (Some (mkSensors
                     (List.map (supply_payload timestamp location)
                        (Power_PowerSupplies power)
                      ++ List.map (rail_payload timestamp location)
                           (Power_Voltages power))
                     "River"))],
     advanced clk 2).
Proof.
  intros Hdec. unfold ParseJSONPowerEvents, time_Now. simpl.
  rewrite Hdec. simpl.
  rewrite Voltages_loop_outcome, PowerSupplies_loop_appends,
    PowerControl_loop_appends.
  destruct (List.existsb name_too_short (Power_Voltages power)); reflexivity.
Qed.

(** What the power parser does with a payload that does not decode. *)
Lemma ParseJSONPowerEvents_undecoded (payloadBytes location : string)
    (clk : Clock) :
  json_Unmarshal_Power payloadBytes = None ->
  ParseJSONPowerEvents payloadBytes location clk = (Returned [], advanced clk 1).
Proof.
  intros Hdec. unfold ParseJSONPowerEvents, time_Now. simpl.
  now rewrite Hdec.
Qed.

(** What the thermal parser does with a payload that decodes. *)
Lemma ParseJSONThermalEvents_decoded (payloadBytes location : string)
    (clk : Clock) (thermal : EnclosureThermal) :
  json_Unmarshal_EnclosureThermal payloadBytes = Some thermal ->
  ParseJSONThermalEvents payloadBytes location clk
  = (Returned
       [mkEvent TemperatureMessageID (instants clk (reads clk))
          (Some (mkSensors
                   (List.map (temperature_payload (instants clk (reads clk)) location)
                      (Temperatures thermal))
                   "River"))],
     advanced clk 1).
Proof.
  intros Hdec. unfold ParseJSONThermalEvents, time_Now. simpl.
  rewrite Hdec. simpl. rewrite Temperatures_loop_appends. reflexivity.
Qed.

Lemma ParseJSONThermalEvents_undecoded (payloadBytes location : string)
    (clk : Clock) :
  json_Unmarshal_EnclosureThermal payloadBytes = None ->
  ParseJSONThermalEvents payloadBytes location clk = (Returned [], advanced clk 1).
Proof.
  intros Hdec. unfold ParseJSONThermalEvents, time_Now. simpl.
  now rewrite Hdec.
Qed.

End ParserProperties.

(** ** Part XI.  [strconv.ParseUint] in base 10 at eight bits *)

Section ParseUintProperties.
Import Statements.

Local Abbreviation cutoff10 := (Go.maxUint64 / 10 + 1).

(** The four parts of the outcome of [ParseUint], for a result that is a
    syntax error, a range error, or was computed. *)
Ltac outcome_parts := split; [intros ?v; split | split; [| split]].

Lemma cutoff10_value : cutoff10 = 1844674407370955162.
Proof. reflexivity. Qed.

(** A byte that [digit_of] maps below ten is a decimal digit. *)
Lemma digit_of_below_ten (c : ascii) (d : Z) :
  Strconv.digit_of c = Some d -> d < 10 ->
  48 <= Z.of_N (N_of_ascii c) <= 57 /\ d = Z.of_N (N_of_ascii c) - 48.
Proof.
  unfold Strconv.digit_of. intros H Hd.
  destruct ((48 <=? Z.of_N (N_of_ascii c)) && (Z.of_N (N_of_ascii c) <=? 57)) eqn:E.
  - injection H as <-. apply andb_prop in E as [E1 E2]. lia.
  - destruct ((97 <=? Strconv.lower (Z.of_N (N_of_ascii c)))
              && (Strconv.lower (Z.of_N (N_of_ascii c)) <=? 122)) eqn:E'.
    + injection H as <-. apply andb_prop in E' as [E1 E2]. lia.
    + discriminate.
Qed.

(** A decimal digit is mapped to its value. *)
Lemma digit_of_decimal_digit (c : ascii) :
  48 <= Z.of_N (N_of_ascii c) <= 57 ->
  Strconv.digit_of c = Some (Z.of_N (N_of_ascii c) - 48).
Proof.
  intros H. unfold Strconv.digit_of.
  replace ((48 <=? Z.of_N (N_of_ascii c)) && (Z.of_N (N_of_ascii c) <=? 57))
    with true; [reflexivity|].
  symmetry. apply andb_true_intro. split; lia.
Qed.

Lemma digits_value_grows (s : string) (acc v : Z) :
  0 <= acc -> digits_value s acc = Some v -> acc <= v.
Proof.
  revert acc. induction s as [|c rest IH]; intros acc Hacc H; simpl in H.
  - injection H as <-. lia.
  - destruct ((48 <=? Z.of_N (N_of_ascii c)) && (Z.of_N (N_of_ascii c) <=? 57)) eqn:E;
      [|discriminate].
    apply andb_prop in E as [E1 E2].
    apply IH in H; lia.
Qed.

(** The loop of [ParseUint], entered with a value that fits eight bits. *)
Lemma ParseUint_loop_10_8 (s : string) (n : Z) :
  0 <= n <= 255 ->
  (forall v, Strconv.ParseUint_loop s 10 cutoff10 255 n = (v, None)
             <-> digits_value s n = Some v /\ v <= 255) /\
  (snd (Strconv.ParseUint_loop s 10 cutoff10 255 n) = Some Strconv.ErrSyntax ->
   fst (Strconv.ParseUint_loop s 10 cutoff10 255 n) = 0) /\
  (snd (Strconv.ParseUint_loop s 10 cutoff10 255 n) = Some Strconv.ErrRange ->
   fst (Strconv.ParseUint_loop s 10 cutoff10 255 n) = 255) /\
  0 <= fst (Strconv.ParseUint_loop s 10 cutoff10 255 n) <= 255.
Proof.
  rewrite cutoff10_value.
  revert n. induction s as [|c rest IH]; intros n Hn.
  - simpl. outcome_parts; try discriminate; try lia.
    + intros H. injection H as <-. split; [reflexivity | lia].
    + intros [H _]. injection H as <-. reflexivity.
  - cbn [Strconv.ParseUint_loop digits_value].
    destruct (Strconv.digit_of c) as [d|] eqn:Hd.
    + destruct (Z.geb_spec d 10) as [Hge|Hlt].
      * (* a letter: no digit of base ten *)
        assert (Hnd : (48 <=? Z.of_N (N_of_ascii c)) && (Z.of_N (N_of_ascii c) <=? 57) = false).
        { destruct ((48 <=? Z.of_N (N_of_ascii c)) && (Z.of_N (N_of_ascii c) <=? 57)) eqn:E;
            [|reflexivity].
          apply andb_prop in E as [E1 E2].
          rewrite digit_of_decimal_digit in Hd by lia. injection Hd as <-. lia. }
        rewrite Hnd. simpl. outcome_parts; try discriminate; try lia; try reflexivity.
        intros [H _]. discriminate.
      * destruct (digit_of_below_ten c d Hd Hlt) as [Hb ->].
        replace ((48 <=? Z.of_N (N_of_ascii c)) && (Z.of_N (N_of_ascii c) <=? 57))
          with true by (symmetry; apply andb_true_intro; split; lia).
        destruct (Z.geb_spec n 1844674407370955162) as [Hbig|_]; [lia|].
        change (2 ^ 64) with 18446744073709551616.
        rewrite (Z.mod_small (n * 10)) by lia.
        rewrite (Z.mod_small (n * 10 + _)) by lia.
        destruct (Z.ltb_spec (n * 10 + (Z.of_N (N_of_ascii c) - 48)) (n * 10)) as [Hlt'|_];
          [lia|].
        destruct (Z.gtb_spec (n * 10 + (Z.of_N (N_of_ascii c) - 48)) 255) as [Hover|Hfit];
          simpl.
        -- outcome_parts; try discriminate; try lia; try reflexivity.
           intros [H Hv]. apply digits_value_grows in H; lia.
        -- replace (10 * n + (Z.of_N (N_of_ascii c) - 48))
             with (n * 10 + (Z.of_N (N_of_ascii c) - 48)) by lia.
           apply IH. lia.
    + assert (Hnd : (48 <=? Z.of_N (N_of_ascii c)) && (Z.of_N (N_of_ascii c) <=? 57) = false).
      { destruct ((48 <=? Z.of_N (N_of_ascii c)) && (Z.of_N (N_of_ascii c) <=? 57)) eqn:E;
          [|reflexivity].
        apply andb_prop in E as [E1 E2].
        rewrite digit_of_decimal_digit in Hd by lia. discriminate. }
      rewrite Hnd. simpl. outcome_parts; try discriminate; try lia; try reflexivity.
      intros [H _]. discriminate.
Qed.

(** [ParseUint(s, 10, 8)] returns no error exactly for the non-empty
    strings of decimal digits whose value is at most 255, and then returns
    that value; with a syntax error it returns 0, with a range error 255. *)
Lemma ParseUint_10_8 (s : string) :
  (forall v, Strconv.ParseUint s 10 8 = (v, None)
             <-> decimal_value s = Some v /\ v <= 255) /\
  (snd (Strconv.ParseUint s 10 8) = Some Strconv.ErrSyntax ->
   fst (Strconv.ParseUint s 10 8) = 0) /\
  (snd (Strconv.ParseUint s 10 8) = Some Strconv.ErrRange ->
   fst (Strconv.ParseUint s 10 8) = 255) /\
  0 <= fst (Strconv.ParseUint s 10 8) <= 255.
Proof.
  unfold Strconv.ParseUint, decimal_value.
  destruct s as [|c rest].
  - simpl. outcome_parts; try discriminate; try lia; try reflexivity.
    intros [H _]. discriminate.
  - change (String.eqb (String c rest) "") with false. cbv iota.
    change (2 ^ 8 - 1) with 255.
    apply ParseUint_loop_10_8. lia.
Qed.

Lemma leading_value_grows (s : string) (acc : Z) :
  0 <= acc -> acc <= leading_value s acc.
Proof.
  revert acc. induction s as [|c rest IH]; intros acc Hacc; simpl; [lia|].
  destruct ((48 <=? Z.of_N (N_of_ascii c)) && (Z.of_N (N_of_ascii c) <=? 57)) eqn:E;
    [|lia].
  apply andb_prop in E as [E1 E2].
  specialize (IH (10 * acc + (Z.of_N (N_of_ascii c) - 48))). lia.
Qed.

(** What the loop of [ParseUint] returns, entered with a value that fits
    eight bits: 255 and a range error as soon as the digits read so far go
    above 255, 0 and a syntax error at a byte that is no decimal digit, the
    value of the digits at the end of the string. *)
Lemma ParseUint_loop_closed_form (s : string) (n : Z) :
  0 <= n <= 255 ->
  Strconv.ParseUint_loop s 10 cutoff10 255 n
  = if leading_value s n >? 255 then (255, Some Strconv.ErrRange)
    else match digits_value s n with
         | Some v => (v, None)
         | None => (0, Some Strconv.ErrSyntax)
         end.
Proof.
  rewrite cutoff10_value.
  revert n. induction s as [|c rest IH]; intros n Hn.
  - simpl. destruct (Z.gtb_spec n 255); [lia|reflexivity].
  - cbn [Strconv.ParseUint_loop digits_value leading_value].
    destruct ((48 <=? Z.of_N (N_of_ascii c)) && (Z.of_N (N_of_ascii c) <=? 57)) eqn:E.
    + apply andb_prop in E as [E1 E2].
      rewrite digit_of_decimal_digit by lia.
      destruct (Z.geb_spec (Z.of_N (N_of_ascii c) - 48) 10) as [Hge|_]; [lia|].
      destruct (Z.geb_spec n 1844674407370955162) as [Hbig|_]; [lia|].
      change (2 ^ 64) with 18446744073709551616.
      rewrite (Z.mod_small (n * 10)) by lia.
      rewrite (Z.mod_small (n * 10 + _)) by lia.
      destruct (Z.ltb_spec (n * 10 + (Z.of_N (N_of_ascii c) - 48)) (n * 10)) as [Hlt'|_];
        [lia|].
      replace (10 * n + (Z.of_N (N_of_ascii c) - 48))
        with (n * 10 + (Z.of_N (N_of_ascii c) - 48)) by lia.
      destruct (Z.gtb_spec (n * 10 + (Z.of_N (N_of_ascii c) - 48)) 255) as [Hover|Hfit];
        simpl.
      * pose proof (leading_value_grows rest
                      (n * 10 + (Z.of_N (N_of_ascii c) - 48)) ltac:(lia)) as Hgrow.
        destruct (Z.gtb_spec (leading_value rest (n * 10 + (Z.of_N (N_of_ascii c) - 48)))
                    255); [reflexivity|lia].
      * apply IH. lia.
    + destruct (Z.gtb_spec n 255); [lia|].
      destruct (Strconv.digit_of c) as [d|] eqn:Hd; [|reflexivity].
      destruct (Z.geb_spec d 10) as [_|Hlt]; [reflexivity|].
      destruct (digit_of_below_ten c d Hd Hlt) as [Hb _].
      apply andb_false_iff in E as [E|E]; lia.
Qed.

(** What [ParseUint(s, 10, 8)] returns: the value and the error. *)
Lemma ParseUint_closed_form (s : string) :
  Strconv.ParseUint s 10 8 = (index_of_MemberId s, error_of_MemberId s).
Proof.
  unfold Strconv.ParseUint, index_of_MemberId, error_of_MemberId, decimal_value.
  destruct s as [|c rest]; [reflexivity|].
  change (String.eqb (String c rest) "") with false. cbv iota.
  change (2 ^ 8 - 1) with 255.
  rewrite ParseUint_loop_closed_form by lia.
  destruct (leading_value (String c rest) 0 >? 255); [reflexivity|].
  destruct (digits_value (String c rest) 0); reflexivity.
Qed.

(** The value [ParseUint(s, 10, 8)] returns, error or not. *)
Lemma ParseUint_value (s : string) :
  fst (Strconv.ParseUint s 10 8) = index_of_MemberId s.
Proof. now rewrite ParseUint_closed_form. Qed.

(** The index the power parser stores fits eight bits, and is the value
    [ParseUint] returned. *)
Lemma uint8_of_ParseUint (s : string) :
  Go.uint8 (fst (Strconv.ParseUint s 10 8)) = fst (Strconv.ParseUint s 10 8).
Proof.
  unfold Go.uint8. change (2 ^ 8) with 256.
  apply Z.mod_small. pose proof (ParseUint_10_8 s) as (_ & _ & _ & H). lia.
Qed.

End ParseUintProperties.

(** ** Part XII.  The claims about the parsers *)

Section ParserClaims.
Import Go Hmcollector IntelRiverCollector Polling Statements.
Context {lib : Library}.

(** C1, as amended.  For a payload that decodes to the S1 record (a power
    control named "Server Power Control" with member identifier "0" and
    312.5 watts, a power supply with member identifier "1" and line input
    voltage 208, a voltage named "P12 VDD" reading 12.01 volts), whose three
    readings print as "312.5", "208" and "12.01", the power parser returns
    exactly a power event with the single payload (index 0, "Chassis",
    "312.5") followed by a voltage event with the two payloads (index 1,
    "PowerSupplyBay", "208") and ("SystemBoard", device-specific context
    " VDD": the name without its first three bytes, "12.01"); every payload
    carries the supplied location. *)
Theorem S1_power_parse (payloadBytes location : string) (clk : Clock) :
  json_Unmarshal_Power payloadBytes = Some Reference.S1_power ->
  FormatFloat 312.5%float = "312.5" ->
  FormatFloat 208%float = "208" ->
  FormatFloat 12.01%float = "12.01" ->
  S1_expected " VDD" location
    (fst (ParseJSONPowerEvents payloadBytes location clk)).
Proof.
  intros Hdec Hw Hl Hv.
  rewrite (ParseJSONPowerEvents_decoded _ _ _ _ Hdec). simpl.
  unfold S1_expected, chassis_payload, supply_payload, rail_payload. simpl.
  rewrite Hw, Hl, Hv.
  eexists _, _, _, _, _.
  split; [reflexivity|].
  repeat (split; [reflexivity|]). reflexivity.
Qed.

(** C2.  Whatever the payload, no event with an empty sensor list is handed
    to the publisher, for the power parser and for the thermal parser; and
    for a payload that decodes to three empty lists (scenario S3) the power
    parser's two events are both dropped: nothing is handed on. *)
Theorem no_empty_event_forwarded (payloadBytes location : string) (clk : Clock) :
  Forall (fun e => sensors_of e <> [])
    (forwardEvents (fst (ParseJSONPowerEvents payloadBytes location clk))) /\
  Forall (fun e => sensors_of e <> [])
    (forwardEvents (fst (ParseJSONThermalEvents payloadBytes location clk))) /\
  (json_Unmarshal_Power payloadBytes = Some (mkPower [] [] []) ->
   forwardEvents (fst (ParseJSONPowerEvents payloadBytes location clk)) = []).
Proof.
  assert (Hfilter : forall r, Forall (fun e => sensors_of e <> []) (forwardEvents r)).
  { intros [events|msg]; simpl; [|constructor].
    apply List.Forall_forall. intros e He.
    apply List.filter_In in He as [_ He]. unfold has_sensors in He.
    destruct (sensors_of e); [discriminate | discriminate]. }
  split; [apply Hfilter|]. split; [apply Hfilter|].
  intros Hdec. rewrite (ParseJSONPowerEvents_decoded _ _ _ _ Hdec). reflexivity.
Qed.

(** C4, what the code does.  When a voltage of the decoded payload has a
    name of fewer than three bytes, the power parser panics at the slice
    of the name: it returns no event at all. *)
Theorem short_voltage_name_panics (payloadBytes location : string) (clk : Clock)
    (power : Power) (v : Voltage) :
  json_Unmarshal_Power payloadBytes = Some power ->
  In v (Power_Voltages power) ->
  (String.length (V_Name v) < 3)%nat ->
  fst (ParseJSONPowerEvents payloadBytes location clk)
  = Panicked "slice bounds out of range".
Proof.
  intros Hdec Hin Hlen.
  rewrite (ParseJSONPowerEvents_decoded _ _ _ _ Hdec).
  replace (List.existsb name_too_short (Power_Voltages power)) with true; [reflexivity|].
  symmetry. apply List.existsb_exists. exists v. split; [exact Hin|].
  unfold name_too_short. apply Nat.ltb_lt. exact Hlen.
Qed.

(** A voltage name of exactly three bytes gives the empty device-specific
    context. *)
Lemma three_byte_name_gives_empty_context (timestamp location : string) (v : Voltage) :
  String.length (V_Name v) = 3%nat ->
  DeviceSpecificContext (rail_payload timestamp location v) = "".
Proof.
  intros H. unfold rail_payload. simpl. rewrite H. simpl.
  destruct (V_Name v) as [|a [|b [|c [|d rest]]]]; try discriminate. reflexivity.
Qed.

(** C5, as amended.  For a payload that decodes, no entry is skipped for
    its member identifier.  When every voltage name has three bytes or
    more, the parser returns the power event and the voltage event: the
    power event holds one "Chassis" payload per power control named "Server
    Power Control", the voltage event one "PowerSupplyBay" payload per power
    supply and then one payload per voltage, in order.  The index of each
    of these payloads is the value [ParseUint] returned, its error
    discarded: 255 when the decimal digits the identifier starts with have
    a value above 255 (then the error is a range error, also for "256x"),
    otherwise the decimal value of an identifier that is a non-empty string
    of decimal digits (no error), otherwise 0 (a syntax error); it lies
    between 0 and 255.  When some voltage name has fewer than three bytes,
    the parser panics and emits no payload at all, whatever the member
    identifiers. *)
Theorem member_index_never_skipped (payloadBytes location : string) (clk : Clock)
    (power : Power) :
  json_Unmarshal_Power payloadBytes = Some power ->
  ((forall v, In v (Power_Voltages power) -> (3 <= String.length (V_Name v))%nat) ->
   exists power_event voltage_event supplies rails,
     fst (ParseJSONPowerEvents payloadBytes location clk)
     = Returned [power_event; voltage_event] /\
     Forall2
       (fun pc p => PhysicalContext p = "Chassis"
                    /\ Index p = Some (index_of_MemberId (PC_MemberId pc))
                    /\ 0 <= index_of_MemberId (PC_MemberId pc) <= 255
                    /\ Strconv.ParseUint (PC_MemberId pc) 10 8
                       = (index_of_MemberId (PC_MemberId pc),
                          error_of_MemberId (PC_MemberId pc)))
       (List.filter is_server_power_control (Power_PowerControl power))
       (sensors_of power_event) /\
     sensors_of voltage_event = supplies ++ rails /\
     Forall2
       (fun ps p => PhysicalContext p = "PowerSupplyBay"
                    /\ Index p = Some (index_of_MemberId (PS_MemberId ps))
                    /\ 0 <= index_of_MemberId (PS_MemberId ps) <= 255
                    /\ Strconv.ParseUint (PS_MemberId ps) 10 8
                       = (index_of_MemberId (PS_MemberId ps),
                          error_of_MemberId (PS_MemberId ps)))
       (Power_PowerSupplies power) supplies /\
     List.length rails = List.length (Power_Voltages power)) /\
  ((exists v, In v (Power_Voltages power) /\ (String.length (V_Name v) < 3)%nat) ->
   fst (ParseJSONPowerEvents payloadBytes location clk)
   = Panicked "slice bounds out of range").
Proof.
  intros Hdec.
  rewrite (ParseJSONPowerEvents_decoded _ _ _ _ Hdec). cbn [fst].
  split.
  - intros Hlong. apply existsb_name_too_short in Hlong. rewrite Hlong.
    assert (Hidx : forall id,
               Some (uint8 (fst (Strconv.ParseUint id 10 8)))
               = Some (index_of_MemberId id)
               /\ 0 <= index_of_MemberId id <= 255
               /\ Strconv.ParseUint id 10 8
                  = (index_of_MemberId id, error_of_MemberId id)).
    { intros id. rewrite uint8_of_ParseUint.
      destruct (ParseUint_10_8 id) as (_ & _ & _ & Hfits).
      rewrite <- ParseUint_value.
      split; [reflexivity|]. split; [exact Hfits|].
      rewrite ParseUint_value. apply ParseUint_closed_form. }
    eexists _, _, _, _. split; [reflexivity|]. simpl.
    split; [|split; [reflexivity|split]].
    + induction (List.filter is_server_power_control (Power_PowerControl power))
        as [|pc rest IH]; simpl; constructor; [|exact IH].
      split; [reflexivity|apply Hidx].
    + induction (Power_PowerSupplies power) as [|ps rest IH]; simpl; constructor;
        [|exact IH].
      split; [reflexivity|apply Hidx].
    + apply List.length_map.
  - intros (v & Hin & Hshort).
    replace (List.existsb name_too_short (Power_Voltages power)) with true;
      [reflexivity|].
    symmetry. apply List.existsb_exists. exists v. split; [exact Hin|].
    unfold name_too_short. apply Nat.ltb_lt. exact Hshort.
Qed.

(** C6, as amended.  For a payload that does not decode, each parser
    returns the empty list of events after one reading of the clock, and
    nothing else: no error value, no panic, no log.  The empty list is the
    caller's only sign of the failure, and it is one: for a payload that
    decodes, neither parser returns the empty list. *)
Theorem undecodable_payload_returns_no_events (payloadBytes location : string)
    (clk : Clock) :
  (json_Unmarshal_Power payloadBytes = None ->
   ParseJSONPowerEvents payloadBytes location clk = (Returned [], advanced clk 1)) /\
  (json_Unmarshal_EnclosureThermal payloadBytes = None ->
   ParseJSONThermalEvents payloadBytes location clk = (Returned [], advanced clk 1)) /\
  (json_Unmarshal_Power payloadBytes <> None ->
   fst (ParseJSONPowerEvents payloadBytes location clk) <> Returned []) /\
  (json_Unmarshal_EnclosureThermal payloadBytes <> None ->
   fst (ParseJSONThermalEvents payloadBytes location clk) <> Returned []).
Proof.
  split; [apply ParseJSONPowerEvents_undecoded|].
  split; [apply ParseJSONThermalEvents_undecoded|].
  split.
  - destruct (json_Unmarshal_Power payloadBytes) as [power|] eqn:Hdec;
      [intros _|intros H; now destruct H].
    rewrite (ParseJSONPowerEvents_decoded _ _ _ _ Hdec). simpl.
    destruct (List.existsb name_too_short (Power_Voltages power)); discriminate.
  - destruct (json_Unmarshal_EnclosureThermal payloadBytes) as [thermal|] eqn:Hdec;
      [intros _|intros H; now destruct H].
    rewrite (ParseJSONThermalEvents_decoded _ _ _ _ Hdec). discriminate.
Qed.

(** The payloads of the parsers differ by the time stamp only when the
    clock differs. *)
Lemma payloads_without_timestamp {A : Type}
    (f : string -> string -> A -> CrayJSONPayload) (location t1 t2 : string)
    (l : list A) :
  (forall a, payload_without_timestamp (f t1 location a)
             = payload_without_timestamp (f t2 location a)) ->
  List.map payload_without_timestamp (List.map (f t1 location) l)
  = List.map payload_without_timestamp (List.map (f t2 location) l).
Proof.
  intros H. rewrite !List.map_map. apply List.map_ext. exact H.
Qed.

(** C7, as amended.  For every payload and location, the events a parser
    returns under two states of the wall clock are equal once the time
    stamps are blanked, and equal outright when the clock shows the same
    instants; the parsers touch nothing but the clock, which they read
    themselves, as no time stamp is passed to them: the thermal parser
    once, the power parser once for a payload that does not decode and
    twice for one that does. *)
Theorem parsers_differ_by_timestamps_only (payloadBytes location : string)
    (clk1 clk2 : Clock) :
  without_timestamps (fst (ParseJSONPowerEvents payloadBytes location clk1))
  = without_timestamps (fst (ParseJSONPowerEvents payloadBytes location clk2)) /\
  without_timestamps (fst (ParseJSONThermalEvents payloadBytes location clk1))
  = without_timestamps (fst (ParseJSONThermalEvents payloadBytes location clk2)) /\
  (instants clk1 (reads clk1) = instants clk2 (reads clk2) ->
   instants clk1 (S (reads clk1)) = instants clk2 (S (reads clk2)) ->
   fst (ParseJSONPowerEvents payloadBytes location clk1)
   = fst (ParseJSONPowerEvents payloadBytes location clk2)) /\
  (instants clk1 (reads clk1) = instants clk2 (reads clk2) ->
   fst (ParseJSONThermalEvents payloadBytes location clk1)
   = fst (ParseJSONThermalEvents payloadBytes location clk2)) /\
  snd (ParseJSONPowerEvents payloadBytes location clk1)
  = advanced clk1 (match json_Unmarshal_Power payloadBytes with
                   | Some _ => 2
                   | None => 1
                   end) /\
  snd (ParseJSONThermalEvents payloadBytes location clk1) = advanced clk1 1.
Proof.
  destruct (json_Unmarshal_Power payloadBytes) as [power|] eqn:Hp;
    destruct (json_Unmarshal_EnclosureThermal payloadBytes) as [thermal|] eqn:Ht;
    rewrite ?(ParseJSONPowerEvents_decoded _ _ _ _ Hp),
            ?(ParseJSONPowerEvents_undecoded _ _ _ Hp),
            ?(ParseJSONThermalEvents_decoded _ _ _ _ Ht),
            ?(ParseJSONThermalEvents_undecoded _ _ _ Ht);
    cbn [fst snd];
    (split; [|split; [|split; [|split; [|split; reflexivity]]]]);
    try reflexivity;
    try (intros -> ; try intros ->; reflexivity).
  all: try (destruct (List.existsb name_too_short (Power_Voltages power));
            [reflexivity|]).
  all: unfold without_timestamps, event_without_timestamps; simpl.
  all: rewrite ?List.map_app.
  all: rewrite ?(payloads_without_timestamp chassis_payload location
                   (instants clk1 (reads clk1)) (instants clk2 (reads clk2)))
         by reflexivity.
  all: rewrite ?(payloads_without_timestamp supply_payload location
                   (instants clk1 (reads clk1)) (instants clk2 (reads clk2)))
         by reflexivity.
  all: rewrite ?(payloads_without_timestamp rail_payload location
                   (instants clk1 (reads clk1)) (instants clk2 (reads clk2)))
         by reflexivity.
  all: rewrite ?(payloads_without_timestamp temperature_payload location
                   (instants clk1 (reads clk1)) (instants clk2 (reads clk2)))
         by reflexivity.
  all: reflexivity.
Qed.

(** C10.  For a payload that decodes, the thermal parser returns one
    temperature event with one payload per temperature of the payload, and
    every payload has an index and a parental index, both 0, whatever the
    payload holds. *)
Theorem thermal_indices_are_zero (payloadBytes location : string) (clk : Clock)
    (thermal : EnclosureThermal) :
  json_Unmarshal_EnclosureThermal payloadBytes = Some thermal ->
  exists temperature_event,
    fst (ParseJSONThermalEvents payloadBytes location clk)
    = Returned [temperature_event] /\
    MessageId temperature_event = TemperatureMessageID /\
    List.length (sensors_of temperature_event)
    = List.length (Temperatures thermal) /\
    Forall (fun p => Index p = Some 0 /\ ParentalIndex p = Some 0)
      (sensors_of temperature_event).
Proof.
  intros Hdec. rewrite (ParseJSONThermalEvents_decoded _ _ _ _ Hdec).
  eexists. split; [reflexivity|]. split; [reflexivity|].
  unfold sensors_of. simpl. split; [apply List.length_map|].
  apply List.Forall_forall. intros p Hp.
  apply List.in_map_iff in Hp as (t & <- & _). split; reflexivity.
Qed.

End ParserClaims.

(** ** Part XIII.  The parsers run on the scenarios *)

Section ParserScenarios.
Import Go Hmcollector IntelRiverCollector Polling Statements.

Local Abbreviation power_events :=
  (ParseJSONPowerEvents (lib := Reference.library)).
Local Abbreviation thermal_events :=
  (ParseJSONThermalEvents (lib := Reference.library)).

(** The library calls on some inputs. *)
Example ParseUint_of_numbers :
  List.map (fun s => Strconv.ParseUint s 10 8) ["0"; "1"; "007"; "255"]
  = [(0, None); (1, None); (7, None); (255, None)].
Proof. reflexivity. Qed.

Example ParseUint_of_other_strings :
  List.map (fun s => Strconv.ParseUint s 10 8) [""; "-1"; "+1"; "2x"; "1a"; "256"; "256x"]
  = [(0, Some Strconv.ErrSyntax); (0, Some Strconv.ErrSyntax);
     (0, Some Strconv.ErrSyntax); (0, Some Strconv.ErrSyntax);
     (0, Some Strconv.ErrSyntax); (255, Some Strconv.ErrRange);
     (255, Some Strconv.ErrRange)].
Proof. reflexivity. Qed.

Example slices_of_names :
  List.map (fun s => slice_from s 3) ["P12 VDD"; "BB +12.0V"; "12V"; "5V"; ""]
  = [Returned " VDD"; Returned "+12.0V"; Returned "";
     Panicked "slice bounds out of range"; Panicked "slice bounds out of range"].
Proof. reflexivity. Qed.

Example FormatFloat_of_readings :
  List.map Reference.FormatFloat_f64
    [312.5; 208; 12.01; 42; 0.1; 5.02; 100; 1e21; 0.000001; (-1.5)]%float
  = ["312.5"; "208"; "12.01"; "42"; "0.1"; "5.02"; "100";
     "1000000000000000000000"; "0.000001"; "-1.5"].
Proof. vm_compute. reflexivity. Qed.

Example Unmarshal_of_S1 :
  Reference.Unmarshal_Power Reference.S1_payload = Some Reference.S1_power.
Proof. vm_compute. reflexivity. Qed.

Example Unmarshal_of_other_texts :
  List.map Reference.Unmarshal_Power
    ["not json"; "{"; "[]"; "null"; "{}"; Reference.json "{'Voltages':[{'Name':5}]}"]
  = [None; None; None; Some (mkPower [] [] []); Some (mkPower [] [] []); None].
Proof. vm_compute. reflexivity. Qed.

(** Scenario S1 on the reference library. *)
Lemma S1_power_parse_witness :
  json_Unmarshal_Power (Library := Reference.library) Reference.S1_payload
  = Some Reference.S1_power /\
  S1_expected " VDD" "x3000c0s1b0"
    (fst (power_events Reference.S1_payload "x3000c0s1b0" Reference.clock)).
Proof.
  split; [vm_compute; reflexivity|].
  apply (S1_power_parse (lib := Reference.library)); vm_compute; reflexivity.
Defined.

(** The claim C1 as first stated fails: on S1 the device-specific context
    of the rail is " VDD", the name "P12 VDD" without its first three bytes,
    and not "2 VDD". *)
Lemma S1_rail_context_is_not_2_VDD :
  ~ S1_expected "2 VDD" "x3000c0s1b0"
      (fst (power_events Reference.S1_payload "x3000c0s1b0" Reference.clock)).
Proof.
  intros (pe & ve & chassis & supply & rail & Hret & _ & _ & _ & _ & _ & _
          & Hsensors & _ & _ & _ & _ & Hcontext & _).
  vm_compute in Hret. injection Hret as <- <-.
  vm_compute in Hsensors. injection Hsensors as _ <-.
  vm_compute in Hcontext. discriminate.
Qed.

(** Scenario S3 on the reference library: nothing reaches the publisher. *)
Lemma S3_nothing_forwarded :
  json_Unmarshal_Power (Library := Reference.library) Reference.S3_payload
  = Some (mkPower [] [] []) /\
  forwardEvents (fst (power_events Reference.S3_payload "x3000c0s1b0" Reference.clock))
  = [].
Proof.
  assert (H : json_Unmarshal_Power (Library := Reference.library) Reference.S3_payload
              = Some (mkPower [] [] [])) by (vm_compute; reflexivity).
  split; [exact H|].
  exact (proj2 (proj2 (no_empty_event_forwarded (lib := Reference.library)
                         Reference.S3_payload "x3000c0s1b0" Reference.clock)) H).
Defined.

(** On S3 the parser itself returns its two events, both without sensor
    payloads: it is the hand-off that drops them. *)
Lemma S3_parser_returns_two_empty_events :
  fst (power_events Reference.S3_payload "x3000c0s1b0" Reference.clock)
  = Returned
      [mkEvent PowerMessageID "2020-12-16T00:00:01Z" (Some (mkSensors [] "River"));
       mkEvent VoltageMessageID "2020-12-16T00:00:00Z" (Some (mkSensors [] "River"))].
Proof. vm_compute. reflexivity. Qed.

(** A voltage rail named "5V": the parser panics. *)
Lemma short_voltage_name_panics_witness :
  fst (power_events Reference.short_name_payload "x3000c0s1b0" Reference.clock)
  = Panicked "slice bounds out of range".
Proof.
  apply (short_voltage_name_panics (lib := Reference.library) _ _ _
           (mkPower [] [] [mkVoltage "5V" 5.02%float]) (mkVoltage "5V" 5.02%float)).
  - vm_compute. reflexivity.
  - left. reflexivity.
  - simpl. lia.
Defined.

(** What the parser returns for the payload whose member identifiers are
    "PSU-A" and "300". *)
Lemma bad_member_payload_parsed :
  fst (power_events Reference.bad_member_payload "x3000c0s1b0" Reference.clock)
  = Returned
      [mkEvent PowerMessageID "2020-12-16T00:00:01Z"
         (Some (mkSensors
                  [mkCrayJSONPayload "2020-12-16T00:00:00Z" "x3000c0s1b0" None
                     "Chassis" (Some 0) "" "300"]
                  "River"));
       mkEvent VoltageMessageID "2020-12-16T00:00:00Z"
         (Some (mkSensors
                  [mkCrayJSONPayload "2020-12-16T00:00:00Z" "x3000c0s1b0" None
                     "PowerSupplyBay" (Some 255) "" "230"]
                  "River"))].
Proof. vm_compute. reflexivity. Qed.

(** The claim C5 as first stated fails: the member identifiers "PSU-A" and
    "300" do not parse as numbers from 0 to 255, and their entries are
    emitted all the same, with the indices 0 and 255. *)
Lemma bad_member_ids_are_emitted :
  snd (Strconv.ParseUint "PSU-A" 10 8) = Some Strconv.ErrSyntax /\
  snd (Strconv.ParseUint "300" 10 8) = Some Strconv.ErrRange /\
  exists chassis supply,
    fst (power_events Reference.bad_member_payload "x3000c0s1b0" Reference.clock)
    = Returned
        [mkEvent PowerMessageID "2020-12-16T00:00:01Z"
           (Some (mkSensors [chassis] "River"));
         mkEvent VoltageMessageID "2020-12-16T00:00:00Z"
           (Some (mkSensors [supply] "River"))] /\
    PhysicalContext chassis = "Chassis" /\ Index chassis = Some 0 /\
    PhysicalContext supply = "PowerSupplyBay" /\ Index supply = Some 255.
Proof.
  split; [vm_compute; reflexivity|]. split; [vm_compute; reflexivity|].
  eexists _, _. split; [vm_compute; reflexivity|].
  repeat split; reflexivity.
Qed.

(** The amended C5 on a payload with the member identifiers "PSU-A",
    "256x", "300" and "007" and a voltage named "P12 VDD", and on a payload
    whose voltage is named "5V". *)
Lemma member_index_never_skipped_witness :
  (exists power_event voltage_event supplies rails,
     fst (power_events Reference.mixed_member_payload "x3000c0s1b0" Reference.clock)
     = Returned [power_event; voltage_event] /\
     Forall2
       (fun pc p => PhysicalContext p = "Chassis"
                    /\ Index p = Some (index_of_MemberId (PC_MemberId pc))
                    /\ 0 <= index_of_MemberId (PC_MemberId pc) <= 255
                    /\ Strconv.ParseUint (PC_MemberId pc) 10 8
                       = (index_of_MemberId (PC_MemberId pc),
                          error_of_MemberId (PC_MemberId pc)))
       [mkPowerControl "Server Power Control" "PSU-A" 300%float;
        mkPowerControl "Server Power Control" "256x" 310%float]
       (sensors_of power_event) /\
     sensors_of voltage_event = supplies ++ rails /\
     Forall2
       (fun ps p => PhysicalContext p = "PowerSupplyBay"
                    /\ Index p = Some (index_of_MemberId (PS_MemberId ps))
                    /\ 0 <= index_of_MemberId (PS_MemberId ps) <= 255
                    /\ Strconv.ParseUint (PS_MemberId ps) 10 8
                       = (index_of_MemberId (PS_MemberId ps),
                          error_of_MemberId (PS_MemberId ps)))
       [mkPowerSupply "300" 230%float; mkPowerSupply "007" 231%float] supplies /\
     List.length rails = 1%nat) /\
  List.map index_of_MemberId ["PSU-A"; "256x"; "300"; "007"] = [0; 255; 255; 7] /\
  List.map error_of_MemberId ["PSU-A"; "256x"; "300"; "007"]
  = [Some Strconv.ErrSyntax; Some Strconv.ErrRange; Some Strconv.ErrRange; None] /\
  fst (power_events Reference.mixed_member_short_name_payload "x3000c0s1b0"
         Reference.clock)
  = Panicked "slice bounds out of range".
Proof.
  split; [|split; [reflexivity|split; [reflexivity|]]].
  - apply (member_index_never_skipped (lib := Reference.library)
             Reference.mixed_member_payload "x3000c0s1b0" Reference.clock
             Reference.mixed_member_power ltac:(vm_compute; reflexivity)).
    intros v [<-|[]]. simpl. lia.
  - apply (member_index_never_skipped (lib := Reference.library)
             Reference.mixed_member_short_name_payload "x3000c0s1b0" Reference.clock
             (mkPower [mkPowerControl "Server Power Control" "PSU-A" 300%float]
                [mkPowerSupply "300" 230%float] [mkVoltage "5V" 5.02%float])
             ltac:(vm_compute; reflexivity)).
    exists (mkVoltage "5V" 5.02%float). split; [left; reflexivity|simpl; lia].
Defined.

(** A text that is no JSON on the reference library. *)
Lemma undecodable_payload_witness :
  json_Unmarshal_Power (Library := Reference.library) "not json" = None /\
  json_Unmarshal_EnclosureThermal (Library := Reference.library) "not json" = None /\
  power_events "not json" "x3000c0s1b0" Reference.clock
  = (Returned [], advanced Reference.clock 1) /\
  thermal_events "not json" "x3000c0s1b0" Reference.clock
  = (Returned [], advanced Reference.clock 1).
Proof.
  assert (Hp : json_Unmarshal_Power (Library := Reference.library) "not json" = None)
    by (vm_compute; reflexivity).
  assert (Ht : json_Unmarshal_EnclosureThermal (Library := Reference.library) "not json"
               = None) by (vm_compute; reflexivity).
  pose proof (undecodable_payload_returns_no_events (lib := Reference.library)
                "not json" "x3000c0s1b0" Reference.clock) as (H1 & H2 & _).
  split; [exact Hp|]. split; [exact Ht|]. split; [exact (H1 Hp)|exact (H2 Ht)].
Defined.

(** The claim C6 as first stated fails: on a text that is no JSON the
    parsers return the empty list and tell their caller of no error. *)
Lemma undecodable_payload_signals_no_error :
  fst (power_events "not json" "x3000c0s1b0" Reference.clock) = Returned [] /\
  ~ signals_error (fst (power_events "not json" "x3000c0s1b0" Reference.clock)) /\
  fst (thermal_events "not json" "x3000c0s1b0" Reference.clock) = Returned [] /\
  ~ signals_error (fst (thermal_events "not json" "x3000c0s1b0" Reference.clock)).
Proof.
  assert (Hp : fst (power_events "not json" "x3000c0s1b0" Reference.clock) = Returned [])
    by (vm_compute; reflexivity).
  assert (Ht : fst (thermal_events "not json" "x3000c0s1b0" Reference.clock) = Returned [])
    by (vm_compute; reflexivity).
  split; [exact Hp|]. split; [|split; [exact Ht|]].
  - rewrite Hp. intros [msg H]. discriminate.
  - rewrite Ht. intros [msg H]. discriminate.
Qed.

(** The amended C7 on S1 and S2, for the clock at start and five readings
    later. *)
Lemma parsers_differ_by_timestamps_only_witness :
  without_timestamps
    (fst (power_events Reference.S1_payload "x3000c0s1b0" Reference.clock))
  = without_timestamps
      (fst (power_events Reference.S1_payload "x3000c0s1b0"
              (advanced Reference.clock 5))) /\
  snd (power_events Reference.S1_payload "x3000c0s1b0" Reference.clock)
  = advanced Reference.clock 2.
Proof.
  pose proof (parsers_differ_by_timestamps_only (lib := Reference.library)
                Reference.S1_payload "x3000c0s1b0" Reference.clock
                (advanced Reference.clock 5)) as (H1 & _ & _ & _ & H5 & _).
  split; [exact H1|].
  rewrite H5.
  replace (json_Unmarshal_Power (Library := Reference.library) Reference.S1_payload)
    with (Some Reference.S1_power) by (vm_compute; reflexivity).
  reflexivity.
Defined.

(** The claim C7 as first stated fails: no time stamp is passed to the
    parsers and they read the wall clock themselves, the power parser
    twice and the thermal parser once, so that the same payload parsed
    later gives other events. *)
Lemma parsers_read_the_wall_clock :
  reads Reference.clock = 0%nat /\
  reads (snd (power_events Reference.S1_payload "x3000c0s1b0" Reference.clock))
  = 2%nat /\
  reads (snd (thermal_events Reference.S2_payload "x3000c0s1b0" Reference.clock))
  = 1%nat /\
  fst (power_events Reference.S1_payload "x3000c0s1b0" Reference.clock)
  <> fst (power_events Reference.S1_payload "x3000c0s1b0"
            (advanced Reference.clock 5)) /\
  fst (thermal_events Reference.S2_payload "x3000c0s1b0" Reference.clock)
  <> fst (thermal_events Reference.S2_payload "x3000c0s1b0"
            (advanced Reference.clock 5)).
Proof.
  split; [reflexivity|]. split; [vm_compute; reflexivity|].
  split; [vm_compute; reflexivity|].
  split; intros H; vm_compute in H; discriminate.
Qed.

(** Scenario S2 on the reference library. *)
Lemma thermal_indices_are_zero_witness :
  exists temperature_event,
    fst (thermal_events Reference.S2_payload "x3000c0s1b0" Reference.clock)
    = Returned [temperature_event] /\
    MessageId temperature_event = TemperatureMessageID /\
    List.length (sensors_of temperature_event) = 1%nat /\
    Forall (fun p => Index p = Some 0 /\ ParentalIndex p = Some 0)
      (sensors_of temperature_event).
Proof.
  exact (thermal_indices_are_zero (lib := Reference.library) Reference.S2_payload
           "x3000c0s1b0" Reference.clock
           (mkEnclosureThermal [mkTemperature "CPU1" 42%float])
           ltac:(vm_compute; reflexivity)).
Defined.

End ParserScenarios.

(** ** Part XIV.  The endpoint inventory loop *)

Section InventoryProperties.
Import Rf Zap Inventory.

(** Logging leaves the inventory as it is. *)
Lemma HSMEndpoints_logged (st : State) (lvl : Level) (msg : string)
    (fs : list Field) :
  HSMEndpoints (logged st lvl msg fs) = HSMEndpoints st.
Proof. reflexivity. Qed.

(** A known endpoint stays as it is through the loop over a reply. *)
Lemma endpoints_loop_keeps (VaultEnabled : bool)
    (store : string -> option (string * string))
    (endpoints : list RedfishEPDescription) (st : State)
    (id : string) (ep : RedfishEPDescription) :
  HSMEndpoints st !! id = Some ep ->
  HSMEndpoints (endpoints_loop VaultEnabled store endpoints st) !! id = Some ep.
Proof.
  revert st. induction endpoints as [|e rest IH]; intros st Hknown; simpl.
  - exact Hknown.
  - destruct (HSMEndpoints st !! ID e) eqn:He; [now apply IH|].
    assert (Hne : ID e <> id) by (intros Heq; rewrite Heq in He; congruence).
    destruct (negb (String.eqb (LastStatus (DiscInfo e)) "DiscoverOK"));
      [now apply IH|].
    destruct VaultEnabled.
    + unfold updateEndpointWithCredentials.
      destruct (store (ID e)) as [[username password]|]; apply IH; simpl.
      * now rewrite lookup_insert_ne.
      * exact Hknown.
    + apply IH. simpl. now rewrite lookup_insert_ne.
Qed.

(** An endpoint that the loop over a reply adds was listed in the reply
    with the status "DiscoverOK", and carries the credentials of the secret
    store when the store is in use. *)
Lemma endpoints_loop_adds (VaultEnabled : bool)
    (store : string -> option (string * string))
    (endpoints : list RedfishEPDescription) (st : State)
    (id : string) (ep : RedfishEPDescription) :
  HSMEndpoints st !! id = None ->
  HSMEndpoints (endpoints_loop VaultEnabled store endpoints st) !! id = Some ep ->
  exists reported,
    In reported endpoints /\
    ID reported = id /\
    LastStatus (DiscInfo reported) = "DiscoverOK" /\
    if VaultEnabled
    then exists username password,
           store id = Some (username, password) /\
           ep = mkRedfishEPDescription id (FQDN reported) username password
                  (DiscInfo reported)
    else ep = reported.
Proof.
  revert st. induction endpoints as [|e rest IH]; intros st Hnew Hadded;
    simpl in Hadded.
  - congruence.
  - assert (Hrest : forall st',
               HSMEndpoints st' !! id = None ->
               HSMEndpoints (endpoints_loop VaultEnabled store rest st') !! id = Some ep ->
               exists reported,
                 In reported (e :: rest) /\ ID reported = id /\
                 LastStatus (DiscInfo reported) = "DiscoverOK" /\
                 if VaultEnabled
                 then exists username password,
                        store id = Some (username, password) /\
                        ep = mkRedfishEPDescription id (FQDN reported) username
                               password (DiscInfo reported)
                 else ep = reported).
    { intros st' H1 H2. destruct (IH st' H1 H2) as (r & Hin & Hr).
      exists r. split; [now right|exact Hr]. }
    destruct (HSMEndpoints st !! ID e) eqn:He; [now apply (Hrest st)|].
    destruct (String.eqb (LastStatus (DiscInfo e)) "DiscoverOK") eqn:Hok;
      simpl in Hadded; [|refine (Hrest _ _ Hadded); exact Hnew].
    apply String.eqb_eq in Hok.
    destruct (String.eqb_spec (ID e) id) as [Hid|Hid].
    + (* the endpoint at hand is the one asked about *)
      destruct VaultEnabled.
      * unfold updateEndpointWithCredentials in Hadded.
        destruct (store (ID e)) as [[username password]|] eqn:Hs.
        -- rewrite (endpoints_loop_keeps _ _ _ _ id
                      (mkRedfishEPDescription (ID e) (FQDN e) username password
                         (DiscInfo e))) in Hadded
             by (simpl; rewrite Hid; apply lookup_insert_eq).
           injection Hadded as <-.
           exists e. split; [now left|]. split; [exact Hid|]. split; [exact Hok|].
           exists username, password. rewrite <- Hid. split; [exact Hs|reflexivity].
        -- refine (Hrest _ _ Hadded); exact Hnew.
      * rewrite (endpoints_loop_keeps _ _ _ _ id e) in Hadded
          by (simpl; rewrite Hid; apply lookup_insert_eq).
        injection Hadded as <-.
        exists e. split; [now left|]. split; [exact Hid|]. split; [exact Hok|reflexivity].
    + destruct VaultEnabled.
      * unfold updateEndpointWithCredentials in Hadded.
        destruct (store (ID e)) as [[username password]|] eqn:Hs.
        -- refine (Hrest _ _ Hadded). simpl.
           rewrite lookup_insert_ne by exact Hid. exact Hnew.
        -- refine (Hrest _ _ Hadded); exact Hnew.
      * refine (Hrest _ _ Hadded). simpl.
        rewrite lookup_insert_ne by exact Hid. exact Hnew.
Qed.

(** One pass keeps the known endpoints. *)
Lemma pass_keeps (VaultEnabled : bool) (t : Tick) (st : State)
    (id : string) (ep : RedfishEPDescription) :
  HSMEndpoints st !! id = Some ep ->
  HSMEndpoints (pass VaultEnabled t st) !! id = Some ep.
Proof.
  intros H. unfold pass.
  destruct ((Nat.eqb (List.length (newEndpoints t)) 0)
            || match newEndpointsErr t with Some _ => true | None => false end).
  - exact H.
  - now apply endpoints_loop_keeps.
Qed.

(** Every further pass keeps them as well. *)
Lemma passes_keep (VaultEnabled : bool) (ticks : list Tick) (st : State)
    (id : string) (ep : RedfishEPDescription) :
  HSMEndpoints st !! id = Some ep ->
  HSMEndpoints (passes VaultEnabled ticks st) !! id = Some ep.
Proof.
  revert st. induction ticks as [|t rest IH]; intros st H; simpl.
  - exact H.
  - apply IH. now apply pass_keeps.
Qed.

Lemma passes_app (VaultEnabled : bool) (before after : list Tick) (st : State) :
  passes VaultEnabled (before ++ after) st
  = passes VaultEnabled after (passes VaultEnabled before st).
Proof. unfold passes. apply List.fold_left_app. Qed.

(** An endpoint that one pass adds comes from a reply without error. *)
Lemma pass_adds (VaultEnabled : bool) (t : Tick) (st : State)
    (id : string) (ep : RedfishEPDescription) :
  HSMEndpoints st !! id = None ->
  HSMEndpoints (pass VaultEnabled t st) !! id = Some ep ->
  newEndpointsErr t = None /\
  exists reported,
    In reported (newEndpoints t) /\
    ID reported = id /\
    LastStatus (DiscInfo reported) = "DiscoverOK" /\
    if VaultEnabled
    then exists username password,
           secrets t id = Some (username, password) /\
           ep = mkRedfishEPDescription id (FQDN reported) username password
                  (DiscInfo reported)
    else ep = reported.
Proof.
  intros Hnew Hadded. unfold pass in Hadded.
  destruct (newEndpointsErr t) as [err|].
  - rewrite orb_true_r in Hadded. simpl in Hadded. congruence.
  - rewrite orb_false_r in Hadded.
    destruct (Nat.eqb (List.length (newEndpoints t)) 0).
    + simpl in Hadded. congruence.
    + split; [reflexivity|]. now apply (endpoints_loop_adds _ _ _ st).
Qed.

End InventoryProperties.

Section InventoryClaims.
Import Rf Zap Inventory.

(** When the loop ends it writes to the log and leaves the inventory. *)
Lemma doUpdateHSMEndpoints_inventory (VaultEnabled : bool) (ticks : list Tick)
    (st : State) :
  HSMEndpoints (doUpdateHSMEndpoints VaultEnabled ticks st)
  = HSMEndpoints (passes VaultEnabled ticks st).
Proof. reflexivity. Qed.

(** An endpoint that appears in the inventory in the course of some passes
    was added by one of them, from a reply of that pass. *)
Lemma passes_add (VaultEnabled : bool) (ticks : list Tick) (st : State)
    (id : string) (ep : RedfishEPDescription) :
  HSMEndpoints st !! id = None ->
  HSMEndpoints (passes VaultEnabled ticks st) !! id = Some ep ->
  exists before t after reported,
    ticks = before ++ t :: after /\
    HSMEndpoints (passes VaultEnabled before st) !! id = None /\
    newEndpointsErr t = None /\
    In reported (newEndpoints t) /\
    ID reported = id /\
    LastStatus (DiscInfo reported) = "DiscoverOK" /\
    if VaultEnabled
    then exists username password,
           secrets t id = Some (username, password) /\
           ep = mkRedfishEPDescription id (FQDN reported) username password
                  (DiscInfo reported)
    else ep = reported.
Proof.
  revert st. induction ticks as [|t rest IH]; intros st Hnew Hadded.
  - simpl in Hadded. congruence.
  - change (passes VaultEnabled (t :: rest) st)
      with (passes VaultEnabled rest (pass VaultEnabled t st)) in Hadded.
    destruct (HSMEndpoints (pass VaultEnabled t st) !! id) as [ep'|] eqn:Hpass.
    + rewrite (passes_keep _ _ _ _ _ Hpass) in Hadded. injection Hadded as ->.
      destruct (pass_adds _ _ _ _ _ Hnew Hpass) as (Herr & reported & Hin & Hrep).
      exists [], t, rest, reported.
      split; [reflexivity|]. split; [exact Hnew|]. split; [exact Herr|].
      split; [exact Hin|exact Hrep].
    + destruct (IH _ Hpass Hadded)
        as (before & t' & after & reported & -> & Hbefore & Hrep).
      exists (t :: before), t', after, reported.
      split; [reflexivity|]. split; [exact Hbefore|exact Hrep].
Qed.

(** The three ways the loop passes over an endpoint of a reply. *)
Lemma known_endpoint_is_passed_over (VaultEnabled : bool)
    (store : string -> option (string * string)) (e : RedfishEPDescription)
    (rest : list RedfishEPDescription) (st : State) :
  is_Some (HSMEndpoints st !! ID e) ->
  endpoints_loop VaultEnabled store (e :: rest) st
  = endpoints_loop VaultEnabled store rest st.
Proof. intros [known H]. simpl. now rewrite H. Qed.

Lemma undiscovered_endpoint_is_passed_over_with_warning (VaultEnabled : bool)
    (store : string -> option (string * string)) (e : RedfishEPDescription)
    (rest : list RedfishEPDescription) (st : State) :
  HSMEndpoints st !! ID e = None ->
  LastStatus (DiscInfo e) <> "DiscoverOK" ->
  endpoints_loop VaultEnabled store (e :: rest) st
  = endpoints_loop VaultEnabled store rest
      (mkState (HSMEndpoints st)
         (logger st
          ++ [mkEntry WarnLevel "Ignoring endpoint because HSM status not DiscoveredOK"
                [F_Endpoint "newEndpoint" e]])).
Proof.
  intros Hnew Hstatus. simpl. rewrite Hnew.
  destruct (String.eqb_spec (LastStatus (DiscInfo e)) "DiscoverOK") as [H|_];
    [contradiction|reflexivity].
Qed.

Lemma endpoint_without_credentials_is_passed_over
    (store : string -> option (string * string)) (e : RedfishEPDescription)
    (rest : list RedfishEPDescription) (st : State) :
  HSMEndpoints st !! ID e = None ->
  LastStatus (DiscInfo e) = "DiscoverOK" ->
  store (ID e) = None ->
  HSMEndpoints (endpoints_loop true store (e :: rest) st)
  = HSMEndpoints
      (endpoints_loop true store rest
         (mkState (HSMEndpoints st)
            (logger st
             ++ [mkEntry ErrorLevel
                   "Unable to update credentials for endpoint with those retrieved from Vault"
                   [F_Error (Some "unable to get credentials");
                    F_Endpoint "newEndpoint" e]]))).
Proof.
  intros Hnew Hstatus Hstore. simpl. rewrite Hnew, Hstatus. simpl.
  unfold updateEndpointWithCredentials. rewrite Hstore. reflexivity.
Qed.

(** C3, as amended.  At every state the loop reaches from the empty
    inventory, an endpoint of the inventory is filed under its own ID with
    the status "DiscoverOK" that HSM reported when it was added: some pass
    found it unknown in a reply without error, listed with that status,
    and, when the secret store is in use, fetched its credentials; and no
    later pass changes or removes it, whatever HSM reports then. *)
Theorem inventory_holds_endpoints_added_as_DiscoverOK (VaultEnabled : bool)
    (ticks : list Tick) (l : Logger) (id : string) (ep : RedfishEPDescription) :
  HSMEndpoints (passes VaultEnabled ticks (initial l)) !! id = Some ep ->
  ID ep = id /\
  LastStatus (DiscInfo ep) = "DiscoverOK" /\
  (exists before t after reported,
     ticks = before ++ t :: after /\
     HSMEndpoints (passes VaultEnabled before (initial l)) !! id = None /\
     newEndpointsErr t = None /\
     In reported (newEndpoints t) /\
     ID reported = id /\
     LastStatus (DiscInfo reported) = "DiscoverOK" /\
     if VaultEnabled
     then exists username password,
            secrets t id = Some (username, password) /\
            ep = mkRedfishEPDescription id (FQDN reported) username password
                   (DiscInfo reported)
     else ep = reported) /\
  (forall more,
     HSMEndpoints (passes VaultEnabled (ticks ++ more) (initial l)) !! id = Some ep).
Proof.
  intros Hin.
  destruct (passes_add VaultEnabled ticks (initial l) id ep (lookup_empty id) Hin)
    as (before & t & after & reported & Hticks & Hbefore & Herr & Hrep & Hid & Hok & Hep).
  assert (Hform : ID ep = id /\ LastStatus (DiscInfo ep) = "DiscoverOK").
  { destruct VaultEnabled.
    - destruct Hep as (username & password & _ & ->). split; [reflexivity|exact Hok].
    - subst ep. split; [exact Hid|exact Hok]. }
  split; [apply Hform|]. split; [apply Hform|]. split.
  - exists before, t, after, reported. repeat (split; [assumption|]). exact Hep.
  - intros more. rewrite passes_app. now apply passes_keep.
Qed.

Import InventoryScenario.

(** The run in which HSM reports an endpoint as discovered and then as
    failed: the endpoint is in the inventory after both passes. *)
Lemma failed_endpoint_run :
  HSMEndpoints (passes true [first_reply; second_reply] (initial []))
  !! "x3000c0s1b0" = Some kept.
Proof.
  unfold passes, pass, first_reply, second_reply, initial. simpl.
  rewrite lookup_empty. simpl.
  rewrite lookup_insert_eq. simpl.
  apply lookup_insert_eq.
Qed.

(** The amended C3 on that run. *)
Lemma inventory_holds_endpoints_added_as_DiscoverOK_witness :
  ID kept = "x3000c0s1b0" /\
  LastStatus (DiscInfo kept) = "DiscoverOK" /\
  forall more,
    HSMEndpoints (passes true ([first_reply; second_reply] ++ more) (initial []))
    !! "x3000c0s1b0" = Some kept.
Proof.
  destruct (inventory_holds_endpoints_added_as_DiscoverOK true
              [first_reply; second_reply] [] "x3000c0s1b0" kept failed_endpoint_run)
    as (H1 & H2 & _ & H4).
  split; [exact H1|]. split; [exact H2|exact H4].
Defined.

(** The claim C3 as first stated fails: after the two passes the inventory
    holds the endpoint, and the status HSM reported for it most recently
    is "HTTPsGetFailed". *)
Lemma inventory_keeps_endpoint_reported_failed :
  HSMEndpoints (passes true [first_reply; second_reply] (initial []))
  !! "x3000c0s1b0" = Some kept /\
  most_recent_status "x3000c0s1b0" [first_reply; second_reply]
  = Some "HTTPsGetFailed".
Proof.
  split; [|reflexivity].
  unfold passes, pass, first_reply, second_reply, initial. simpl.
  rewrite lookup_empty. simpl.
  rewrite lookup_insert_eq. simpl.
  apply lookup_insert_eq.
Qed.

End InventoryClaims.

(** ** Part XV.  The Redfish client at start-up *)

Section StartupProperties.
Import Go Zap Startup MainStatements.
Context {env : Environment}.

Lemma startup_progress_refl (st : State) : startup_progress st st 0 [].
Proof.
  unfold startup_progress. rewrite Nat.add_0_r, app_nil_r.
  repeat (split; [reflexivity|]). exists []. now rewrite app_nil_r.
Qed.

Lemma startup_progress_trans (st1 st2 st3 : State) (n m : nat) (naps naps' : list Z) :
  startup_progress st1 st2 n naps ->
  startup_progress st2 st3 m naps' ->
  startup_progress st1 st3 (n + m) (naps ++ naps').
Proof.
  intros (U1 & T1 & C1 & S1 & W1 & l1 & L1) (U2 & T2 & C2 & S2 & W2 & l2 & L2).
  unfold startup_progress.
  rewrite U2, T2, C2, S2, W2, L2, U1, T1, C1, S1, W1, L1.
  split; [reflexivity|]. split; [reflexivity|]. split; [lia|].
  split; [now rewrite app_assoc|]. split; [reflexivity|].
  exists (l1 ++ l2). now rewrite app_assoc.
Qed.

(** Reading the environment and announcing the creation write to the log
    and to [ConfigParams] only. *)
Lemma override_progress (name msg : string)
    (store : ConfigParams -> string -> ConfigParams) (st : State) :
  startup_progress st (override name msg store st) 0 [] /\
  rfClient (override name msg store st) = rfClient st.
Proof.
  unfold override.
  destruct (negb (String.eqb (Getenv name) "")).
  - split; [|reflexivity]. unfold startup_progress. cbn.
    rewrite Nat.add_0_r, app_nil_r.
    repeat (split; [reflexivity|]). eexists. reflexivity.
  - split; [apply startup_progress_refl|reflexivity].
Qed.

Lemma read_environment_progress (st : State) :
  startup_progress st (read_environment st) 0 [] /\
  rfClient (read_environment st) = rfClient st.
Proof.
  unfold read_environment. cbv zeta.
  match goal with
  | |- context [override ?n ?m ?f st] =>
      destruct (override_progress n m f st) as [P1 R1];
      set (s1 := override n m f st) in *
  end.
  match goal with
  | |- context [override ?n ?m ?f s1] =>
      destruct (override_progress n m f s1) as [P2 R2];
      set (s2 := override n m f s1) in *
  end.
  match goal with
  | |- context [override ?n ?m ?f s2] =>
      destruct (override_progress n m f s2) as [P3 R3];
      set (s3 := override n m f s2) in *
  end.
  match goal with
  | |- context [override ?n ?m ?f s3] =>
      destruct (override_progress n m f s3) as [P4 R4];
      set (s4 := override n m f s3) in *
  end.
  split; [|congruence].
  pose proof (startup_progress_trans _ _ _ _ _ _ _ P1 P2) as P12.
  pose proof (startup_progress_trans _ _ _ _ _ _ _ P12 P3) as P13.
  exact (startup_progress_trans _ _ _ _ _ _ _ P13 P4).
Qed.

Lemma announce_progress (st : State) :
  startup_progress st (announce st) 0 [] /\
  rfClient (announce st) = rfClient st.
Proof.
  unfold announce. cbv zeta.
  destruct (negb (String.eqb (caURI (logged st InfoLevel "All RF threads paused." [])) ""));
    (split; [|reflexivity]); unfold startup_progress; cbn;
    rewrite Nat.add_0_r, app_nil_r; repeat (split; [reflexivity|]);
    unfold write; rewrite <- app_assoc; eexists; reflexivity.
Qed.

(** One call of [createRFClient]: one call of [CreateHTTPClientPair] with
    the CA URI and the timeout of the moment, whose error it passes on;
    on success the new pair is the Redfish client. *)
Lemma createRFClient_outcome (st : State) :
  startup_progress st (snd (createRFClient st)) 1 [] /\
  match CreateHTTPClientPair (creations st) (caURI st) (httpTimeout st) with
  | None =>
      fst (createRFClient st) = None /\
      rfClient (snd (createRFClient st))
      = Some (mkHTTPClientPair (caURI st) (httpTimeout st))
  | Some e =>
      fst (createRFClient st)
      = Some ("ERROR: Can't create Redfish HTTP client: " +:+ e) /\
      rfClient (snd (createRFClient st)) = rfClient st
  end.
Proof.
  unfold createRFClient. cbv zeta.
  destruct (read_environment_progress st) as [P1 R1].
  destruct (announce_progress (read_environment st)) as [P2 R2].
  pose proof (startup_progress_trans _ _ _ _ _ _ _ P1 P2) as P.
  generalize dependent (announce (read_environment st)). intros st0 _ R2 P.
  clear P1. cbn in P.
  destruct P as (U & T & C & S & W & l & L). rewrite Nat.add_0_r in C.
  rewrite app_nil_r in S.
  rewrite U, T, C.
  assert (Hprog : startup_progress st (count_creation st0) 1 []).
  { unfold startup_progress. cbn. rewrite U, T, C, S, W, L, app_nil_r.
    split; [reflexivity|]. split; [reflexivity|]. split; [lia|].
    split; [reflexivity|]. split; [reflexivity|]. now exists l. }
  destruct (CreateHTTPClientPair (creations st) (caURI st) (httpTimeout st)); cbn.
  - split; [exact Hprog|]. split; [reflexivity|congruence].
  - split; [exact Hprog|]. split; [reflexivity|]. now rewrite U, T.
Qed.

(** When every one of [n] attempts fails, the loop of [main] ends with
    [ok] false after [n] calls and [n] sleeps of two seconds. *)
Lemma create_attempts_all_fail (n : nat) (ix : Z) (st : State) :
  (forall k, (k < n)%nat ->
     CreateHTTPClientPair (creations st + k) (caURI st) (httpTimeout st) <> None) ->
  exists st',
    create_attempts n ix st = (false, st') /\
    startup_progress st st' n (List.repeat 2 n) /\
    rfClient st' = rfClient st.
Proof.
  revert ix st. induction n as [|n IH]; intros ix st Hfail.
  - exists st. split; [reflexivity|]. split; [apply startup_progress_refl|reflexivity].
  - cbn [create_attempts].
    destruct (createRFClient_outcome st) as [Hprog Hres].
    pose proof (Hfail 0%nat ltac:(lia)) as H0. rewrite Nat.add_0_r in H0.
    destruct (CreateHTTPClientPair (creations st) (caURI st) (httpTimeout st))
      as [e|]; [|contradiction].
    destruct Hres as [Herr Hclient].
    destruct (createRFClient st) as [err st1]. simpl in Herr, Hclient, Hprog.
    subst err.
    set (st2 := sleep (logged st1 ErrorLevel "TLS-verified client pair creation failure, " _) 2).
    assert (Hstep : startup_progress st st2 1 [2]).
    { change 1%nat with (1 + 0)%nat. change [2] with ([] ++ [2]).
      apply (startup_progress_trans _ st1); [exact Hprog|].
      unfold startup_progress, st2. simpl. rewrite Nat.add_0_r.
      repeat (split; [reflexivity|]). eexists. reflexivity. }
    destruct (IH (ix + 1) st2) as (st' & Hrun & Hprog' & Hclient').
    { intros k Hk.
      destruct Hstep as (-> & -> & -> & _).
      replace (creations st + 1 + k)%nat with (creations st + S k)%nat by lia.
      apply Hfail. lia. }
    exists st'. split; [exact Hrun|]. split.
    + change (S n) with (1 + n)%nat.
      change (List.repeat 2 (1 + n)) with ([2] ++ List.repeat 2 n).
      now apply (startup_progress_trans _ st2).
    + rewrite Hclient'. unfold st2. simpl. exact Hclient.
Qed.

(** C8.  When the ten attempts to create the client pair from the CA URI
    all fail, and the pair can be created without a CA bundle, [main] does
    not panic: ten sleeps of two seconds after the ten attempts, it writes
    the two entries that tell of the failover, clears the CA URI, makes
    the pair created without a CA bundle the Redfish client, registers no
    CA watcher, and ends its log with the warning that CA changes are not
    watched. *)
Theorem startup_fails_over_to_client_without_CA (st : State) :
  (forall k, (k < 10)%nat ->
     CreateHTTPClientPair (creations st + k) (caURI st) (httpTimeout st) <> None) ->
  CreateHTTPClientPair (creations st + 10) "" (httpTimeout st) = None ->
  exists st',
    main_setup_rfClient st = Returned st' /\
    caURI st' = "" /\
    rfClient st' = Some (mkHTTPClientPair "" (httpTimeout st)) /\
    creations st' = (creations st + 11)%nat /\
    slept st' = slept st ++ List.repeat 2 10 /\
    watched st' = watched st /\
    exists attempts last_attempt,
      logger st'
      = logger st ++ attempts ++ [exhausted_retries; making_insecure_client]
        ++ last_attempt ++ [not_watching].
Proof.
  intros Hfail Hlast.
  destruct (create_attempts_all_fail 10 1 st Hfail)
    as (st1 & Hrun & (U1 & T1 & C1 & S1 & W1 & l1 & L1) & Hclient1).
  unfold main_setup_rfClient. rewrite Hrun. cbn [negb].
  set (st2 := set_caURI _ "").
  destruct (createRFClient_outcome st2) as [(U2 & T2 & C2 & S2 & W2 & l2 & L2) Hres].
  assert (Hcreations : creations st2 = (creations st + 10)%nat) by exact C1.
  assert (Htimeout : httpTimeout st2 = httpTimeout st) by exact T1.
  assert (Huri : caURI st2 = "") by reflexivity.
  rewrite Hcreations, Htimeout, Huri, Hlast in Hres.
  destruct Hres as [Herr Hclient].
  destruct (createRFClient st2) as [err st3]. simpl in *. subst err.
  rewrite U2. cbn.
  eexists. split; [reflexivity|]. simpl.
  split; [exact U2|]. split; [exact Hclient|].
  split; [rewrite C2, C1; lia|].
  split; [rewrite S2, app_nil_r; exact S1|].
  split; [rewrite W2; exact W1|].
  exists l1, l2. unfold write. rewrite L2. simpl. unfold write. rewrite L1.
  rewrite <- !app_assoc. reflexivity.
Qed.

(** When no client pair can be created at all, [main] panics. *)
Lemma startup_panics_without_any_client (st : State) :
  (forall k, (k < 10)%nat ->
     CreateHTTPClientPair (creations st + k) (caURI st) (httpTimeout st) <> None) ->
  CreateHTTPClientPair (creations st + 10) "" (httpTimeout st) <> None ->
  main_setup_rfClient st = Panicked "Can't create Redfish HTTP client!!!".
Proof.
  intros Hfail Hlast.
  destruct (create_attempts_all_fail 10 1 st Hfail)
    as (st1 & Hrun & (U1 & T1 & C1 & S1 & W1 & l1 & L1) & Hclient1).
  unfold main_setup_rfClient. rewrite Hrun. cbn [negb].
  set (st2 := set_caURI _ "").
  destruct (createRFClient_outcome st2) as [_ Hres].
  assert (Hcreations : creations st2 = (creations st + 10)%nat) by exact C1.
  assert (Htimeout : httpTimeout st2 = httpTimeout st) by exact T1.
  assert (Huri : caURI st2 = "") by reflexivity.
  rewrite Hcreations, Htimeout, Huri in Hres.
  destruct (CreateHTTPClientPair (creations st + 10) "" (httpTimeout st)) as [e|];
    [|contradiction].
  destruct Hres as [Herr _].
  destruct (createRFClient st2) as [err st3]. simpl in Herr. subst err.
  reflexivity.
Qed.

End StartupProperties.

(** C8 on a process whose CA bundle is not there. *)
Lemma startup_fails_over_to_client_without_CA_witness :
  exists st',
    Startup.main_setup_rfClient (env := MainStatements.no_CA_environment)
      MainStatements.at_start = Go.Returned st' /\
    Startup.caURI st' = "" /\
    Startup.rfClient st' = Some (Startup.mkHTTPClientPair "" 10) /\
    Startup.creations st' = 11%nat /\
    Startup.slept st' = List.repeat 2 10 /\
    Startup.watched st' = [].
Proof.
  destruct (startup_fails_over_to_client_without_CA
              (env := MainStatements.no_CA_environment) MainStatements.at_start)
    as (st' & Hrun & Huri & Hclient & Hcalls & Hslept & Hwatched & _).
  - intros k _. simpl. discriminate.
  - reflexivity.
  - exists st'. repeat (split; [assumption|]). exact Hwatched.
Defined.

(** ** Part XVI.  The producers at shutdown *)

Section ShutdownProperties.
Import Go Zap Kafka Shutdown MainStatements.
Context {env : Environment}.

(** The loop of the deferred function flushes every broker once, in
    order, with the timeout [15 * 1000], and writes one entry per broker
    with the number [Flush] returned. *)
Lemma flush_loop_outcome (brokers done : list KafkaBroker)
    (calls : list (string * Z)) (l : Logger) :
  flush_loop brokers done calls l
  = (done ++ List.map (flushed (15 * 1000)) brokers,
     calls ++ List.map (fun b => (BrokerAddress b, 15 * 1000)) brokers,
     l ++ List.map (closed_connection (15 * 1000)) brokers).
Proof.
  revert done calls l.
  induction brokers as [|b rest IH]; intros done calls l; cbn [flush_loop List.map].
  - now rewrite !app_nil_r.
  - rewrite IH. unfold write. rewrite <- !app_assoc. reflexivity.
Qed.

(** C9.  On the way out of [main], whether it returns or panics, the
    producer of every configured broker is flushed once, in the order of
    the configuration, with a timeout of 15 * 1000 milliseconds, and for
    each broker an entry of the log reports, as [abandonedMessages], the
    number of messages [Flush] returned as still held. *)
Theorem shutdown_flushes_every_broker (st : State) :
  flushes (snd (main_exit st))
  = flushes st ++ List.map (fun b => (BrokerAddress b, 15 * 1000)) (kafkaBrokers st) /\
  15 * 1000 = 15000 /\
  kafkaBrokers (snd (main_exit st))
  = List.map (flushed (15 * 1000)) (kafkaBrokers st) /\
  (exists exiting,
     logger (snd (main_exit st))
     = logger st ++ exiting
       ++ List.map (closed_connection (15 * 1000)) (kafkaBrokers st)) /\
  Forall2
    (fun b entry =>
       level entry = InfoLevel /\
       fields entry
       = [F_Broker "broker" (flushed (15 * 1000) b);
          F_Int "abandonedMessages" (Flush (KafkaProducer b) (15 * 1000))])
    (kafkaBrokers st)
    (List.map (closed_connection (15 * 1000)) (kafkaBrokers st)).
Proof.
  assert (Hentries :
            Forall2
              (fun b entry =>
                 level entry = InfoLevel /\
                 fields entry
                 = [F_Broker "broker" (flushed (15 * 1000) b);
                    F_Int "abandonedMessages" (Flush (KafkaProducer b) (15 * 1000))])
              (kafkaBrokers st)
              (List.map (closed_connection (15 * 1000)) (kafkaBrokers st))).
  { induction (kafkaBrokers st) as [|b rest IH]; simpl; constructor;
      [split; reflexivity|exact IH]. }
  unfold main_exit, deferred_flush.
  destruct (rfClient st) as [client|]; cbn [snd kafkaBrokers flushes logger rfClient];
    rewrite flush_loop_outcome; cbn [snd kafkaBrokers flushes logger rfClient app].
  - split; [reflexivity|]. split; [reflexivity|]. split; [reflexivity|].
    split; [|exact Hentries].
    exists [mkEntry InfoLevel "Exiting..." []]. unfold write.
    rewrite <- app_assoc. reflexivity.
  - split; [reflexivity|]. split; [reflexivity|]. split; [reflexivity|].
    split; [|exact Hentries].
    exists []. reflexivity.
Qed.

End ShutdownProperties.

(** The shutdown of two brokers: the first delivers its 50 messages in
    time, the second is left with 5000 of its 20000. *)
Lemma shutdown_of_two_brokers :
  Shutdown.flushes
    (snd (Shutdown.main_exit (env := MainStatements.no_CA_environment)
            MainStatements.at_shutdown))
  = [("kafka-a:9092", 15000); ("kafka-b:9092", 15000)] /\
  Shutdown.logger
    (snd (Shutdown.main_exit (env := MainStatements.no_CA_environment)
            MainStatements.at_shutdown))
  = [Zap.mkEntry Zap.InfoLevel "Exiting..." [];
     Zap.mkEntry Zap.InfoLevel "Closed connection with Kafka broker."
       [Zap.F_Broker "broker" (Kafka.mkKafkaBroker "kafka-a:9092" (Kafka.mkProducer 0));
        Zap.F_Int "abandonedMessages" 0];
     Zap.mkEntry Zap.InfoLevel "Closed connection with Kafka broker."
       [Zap.F_Broker "broker" (Kafka.mkKafkaBroker "kafka-b:9092" (Kafka.mkProducer 5000));
        Zap.F_Int "abandonedMessages" 5000]].
Proof. split; reflexivity. Qed.

(** ** Part XVII.  Further properties of the parsers *)

Section ParserFurther.
Import Go Hmcollector IntelRiverCollector Statements.
Context {lib : Library}.

(** X1.  For a payload that decodes, the power parser returns exactly
    when every voltage name has three bytes or more, and panics at the
    slice of a name exactly when some voltage name is shorter. *)
Theorem power_parser_returns_iff_names_long (payloadBytes location : string)
    (clk : Clock) (power : Power) :
  json_Unmarshal_Power payloadBytes = Some power ->
  ((exists events, fst (ParseJSONPowerEvents payloadBytes location clk) = Returned events)
   <-> forall v, In v (Power_Voltages power) -> (3 <= String.length (V_Name v))%nat) /\
  (fst (ParseJSONPowerEvents payloadBytes location clk)
   = Panicked "slice bounds out of range"
   <-> exists v, In v (Power_Voltages power) /\ (String.length (V_Name v) < 3)%nat).
Proof.
  intros Hdec. rewrite (ParseJSONPowerEvents_decoded _ _ _ _ Hdec). cbn [fst].
  rewrite <- existsb_name_too_short.
  destruct (List.existsb name_too_short (Power_Voltages power)) eqn:E.
  - split; split.
    + intros [events H]. discriminate.
    + discriminate.
    + intros _. apply List.existsb_exists in E as (v & Hin & Hshort).
      exists v. split; [exact Hin|]. now apply Nat.ltb_lt.
    + reflexivity.
  - split; split.
    + reflexivity.
    + intros _. eexists. reflexivity.
    + discriminate.
    + intros (v & Hin & Hshort).
      pose proof (proj1 (existsb_name_too_short _) E v Hin). lia.
Qed.

(** X2.  The thermal parser never panics: it returns the empty list for a
    payload that does not decode and exactly one event otherwise. *)
Theorem thermal_parser_always_returns (payloadBytes location : string) (clk : Clock) :
  exists events,
    fst (ParseJSONThermalEvents payloadBytes location clk) = Returned events /\
    (events = [] <-> json_Unmarshal_EnclosureThermal payloadBytes = None) /\
    (json_Unmarshal_EnclosureThermal payloadBytes <> None -> List.length events = 1%nat).
Proof.
  destruct (json_Unmarshal_EnclosureThermal payloadBytes) as [thermal|] eqn:Hdec.
  - rewrite (ParseJSONThermalEvents_decoded _ _ _ _ Hdec). eexists.
    split; [reflexivity|]. split; [split; discriminate|reflexivity].
  - rewrite (ParseJSONThermalEvents_undecoded _ _ _ Hdec). exists [].
    split; [reflexivity|]. split; [split; reflexivity|]. intros H. now destruct H.
Qed.

(** X3.  When the power parser returns for a payload that decodes, it
    returns the power event and then the voltage event, whatever the
    payload holds.  The power event has one "Chassis" payload per power
    control whose name is exactly "Server Power Control" and none for the
    others; the voltage event has the payloads of the power supplies
    first, then those of the voltages, each in the order of the payload. *)
Theorem power_events_follow_the_payload (payloadBytes location : string)
    (clk : Clock) (power : Power) (events : list Event) :
  json_Unmarshal_Power payloadBytes = Some power ->
  fst (ParseJSONPowerEvents payloadBytes location clk) = Returned events ->
  exists power_event voltage_event,
    events = [power_event; voltage_event] /\
    MessageId power_event = PowerMessageID /\
    MessageId voltage_event = VoltageMessageID /\
    List.length (sensors_of power_event)
    = List.length (List.filter is_server_power_control (Power_PowerControl power)) /\
    Forall (fun p => PhysicalContext p = "Chassis") (sensors_of power_event) /\
    List.map Value (sensors_of power_event)
    = List.map (fun pc => FormatFloat (PowerConsumedWatts pc))
        (List.filter is_server_power_control (Power_PowerControl power)) /\
    List.map PhysicalContext (sensors_of voltage_event)
    = List.repeat "PowerSupplyBay" (List.length (Power_PowerSupplies power))
      ++ List.repeat "SystemBoard" (List.length (Power_Voltages power)) /\
    List.map Value (sensors_of voltage_event)
    = List.map (fun ps => FormatFloat (LineInputVoltage ps)) (Power_PowerSupplies power)
      ++ List.map (fun v => FormatFloat (ReadingVolts v)) (Power_Voltages power).
Proof.
  intros Hdec Hret.
  rewrite (ParseJSONPowerEvents_decoded _ _ _ _ Hdec) in Hret. cbn [fst] in Hret.
  destruct (List.existsb name_too_short (Power_Voltages power)); [discriminate|].
  injection Hret as <-.
  eexists _, _. split; [reflexivity|]. unfold sensors_of. cbn.
  split; [reflexivity|]. split; [reflexivity|].
  split; [apply List.length_map|].
  split; [apply List.Forall_forall; intros p Hp;
          apply List.in_map_iff in Hp as (pc & <- & _); reflexivity|].
  split; [now rewrite List.map_map|].
  rewrite !List.map_app, !List.map_map. cbn. split; [|reflexivity].
  f_equal.
  - induction (Power_PowerSupplies power); simpl; [reflexivity|now f_equal].
  - induction (Power_Voltages power); simpl; [reflexivity|now f_equal].
Qed.

(** X4.  Every payload of every event a parser returns carries the
    location passed to the parser and the first reading of the clock as
    its time stamp, and every event has its sensors and the telemetry
    source "River".  The voltage and the temperature event carry that same
    reading as event time stamp; the power event carries the second
    reading. *)
Theorem events_carry_location_and_reading (payloadBytes location : string)
    (clk : Clock) (events : list Event) :
  fst (ParseJSONPowerEvents payloadBytes location clk) = Returned events
  \/ fst (ParseJSONThermalEvents payloadBytes location clk) = Returned events ->
  Forall
    (fun e =>
       (exists sensors, Oem e = Some (mkSensors sensors "River")) /\
       EventTimestamp e
       = (if match MessageId e with PowerMessageID => true | _ => false end
          then instants clk (S (reads clk)) else instants clk (reads clk)) /\
       Forall (fun p => Location p = location
                        /\ Timestamp p = instants clk (reads clk))
         (sensors_of e))
    events.
Proof.
  assert (Hmap : forall (A : Type) (f : string -> string -> A -> CrayJSONPayload)
                   (l : list A),
             (forall a, Location (f (instants clk (reads clk)) location a) = location
                        /\ Timestamp (f (instants clk (reads clk)) location a)
                           = instants clk (reads clk)) ->
             Forall (fun p => Location p = location
                              /\ Timestamp p = instants clk (reads clk))
               (List.map (f (instants clk (reads clk)) location) l)).
  { intros A f l Hf. apply List.Forall_forall. intros p Hp.
    apply List.in_map_iff in Hp as (a & <- & _). apply Hf. }
  intros [Hret|Hret].
  - destruct (json_Unmarshal_Power payloadBytes) as [power|] eqn:Hdec.
    + rewrite (ParseJSONPowerEvents_decoded _ _ _ _ Hdec) in Hret. cbn [fst] in Hret.
      destruct (List.existsb name_too_short (Power_Voltages power)); [discriminate|].
      injection Hret as <-.
      constructor; [|constructor; [|constructor]];
        (split; [eexists; reflexivity|split; [reflexivity|]]);
        unfold sensors_of; cbn.
      * apply Hmap. intros a. split; reflexivity.
      * apply List.Forall_app. split; apply Hmap; intros a; split; reflexivity.
    + rewrite (ParseJSONPowerEvents_undecoded _ _ _ Hdec) in Hret.
      injection Hret as <-. constructor.
  - destruct (json_Unmarshal_EnclosureThermal payloadBytes) as [thermal|] eqn:Hdec.
    + rewrite (ParseJSONThermalEvents_decoded _ _ _ _ Hdec) in Hret.
      injection Hret as <-.
      constructor; [|constructor].
      split; [eexists; reflexivity|split; [reflexivity|]].
      unfold sensors_of. cbn. apply Hmap. intros a. split; reflexivity.
    + rewrite (ParseJSONThermalEvents_undecoded _ _ _ Hdec) in Hret.
      injection Hret as <-. constructor.
Qed.

Lemma length_append (a b : string) :
  String.length (a +:+ b) = (String.length a + String.length b)%nat.
Proof.
  induction a as [|c a IH]; [reflexivity|].
  change (S (String.length (a +:+ b)) = S (String.length a + String.length b)).
  now rewrite IH.
Qed.

(** The first [n] bytes of a string followed by the rest give the string. *)
Lemma substring_split (n : nat) (s : string) :
  (n <= String.length s)%nat ->
  String.substring 0 n s +:+ String.substring n (String.length s - n) s = s.
Proof.
  revert s. induction n as [|n IH]; intros s Hn.
  - simpl. rewrite Nat.sub_0_r.
    assert (H : forall t, String.substring 0 (String.length t) t = t).
    { induction t as [|c t IHt]; simpl; [reflexivity|now rewrite IHt]. }
    destruct s; [reflexivity|]. apply H.
  - destruct s as [|c s]; [simpl in Hn; lia|].
    change (String.length (String c s) - S n)%nat with (String.length s - n)%nat.
    change (String c (String.substring 0 n s
                      +:+ String.substring n (String.length s - n) s)
            = String c s).
    f_equal. apply IH. simpl in Hn. lia.
Qed.

(** X5.  When the power parser returns for a payload that decodes, the
    payloads of the voltage event after those of the power supplies
    answer the voltages one by one: each is a "SystemBoard" payload with
    index 0 whose device-specific context, put after the first three
    bytes of the voltage's name, gives the name back. *)
Theorem rail_context_completes_the_name (payloadBytes location : string)
    (clk : Clock) (power : Power) (power_event voltage_event : Event) :
  json_Unmarshal_Power payloadBytes = Some power ->
  fst (ParseJSONPowerEvents payloadBytes location clk)
  = Returned [power_event; voltage_event] ->
  Forall2
    (fun v p =>
       PhysicalContext p = "SystemBoard" /\
       Index p = Some 0 /\
       String.substring 0 3 (V_Name v) +:+ DeviceSpecificContext p = V_Name v /\
       String.length (DeviceSpecificContext p) = (String.length (V_Name v) - 3)%nat)
    (Power_Voltages power)
    (List.skipn (List.length (Power_PowerSupplies power)) (sensors_of voltage_event)).
Proof.
  intros Hdec Hret.
  rewrite (ParseJSONPowerEvents_decoded _ _ _ _ Hdec) in Hret. cbn [fst] in Hret.
  destruct (List.existsb name_too_short (Power_Voltages power)) eqn:E; [discriminate|].
  injection Hret as _ <-. unfold sensors_of. cbn.
  rewrite <- (List.length_map (supply_payload (instants clk (reads clk)) location)
                (Power_PowerSupplies power)).
  rewrite drop_app_length.
  pose proof (proj1 (existsb_name_too_short _) E) as Hlong. clear E.
  induction (Power_Voltages power) as [|v rest IH]; simpl; constructor.
  - assert (Hv : (3 <= String.length (V_Name v))%nat) by (apply Hlong; now left).
    split; [reflexivity|]. split; [reflexivity|].
    split; [now apply substring_split|].
    pose proof (substring_split 3 (V_Name v) Hv) as Hs.
    apply (f_equal String.length) in Hs. rewrite length_append in Hs.
    assert (H3 : String.length (String.substring 0 3 (V_Name v)) = 3%nat).
    { destruct (V_Name v) as [|a [|b [|c t]]]; simpl in Hv; try lia.
      destruct t; reflexivity. }
    change (String.length
              (String.substring 3 (String.length (V_Name v) - 3) (V_Name v))
            = (String.length (V_Name v) - 3)%nat).
    lia.
  - apply IH. intros v' Hin. apply Hlong. now right.
Qed.

(** X6.  When the power parser returns for a payload that decodes, and
    the member identifier of every power control named "Server Power
    Control" and of every power supply is a non-empty string of decimal
    digits of value at most 255, each payload has that value as index,
    leading zeros or not. *)
Theorem decimal_member_ids_become_indices (payloadBytes location : string)
    (clk : Clock) (power : Power) (power_event voltage_event : Event) :
  json_Unmarshal_Power payloadBytes = Some power ->
  fst (ParseJSONPowerEvents payloadBytes location clk)
  = Returned [power_event; voltage_event] ->
  Forall (fun pc => exists n, decimal_value (PC_MemberId pc) = Some n /\ n <= 255)
    (List.filter is_server_power_control (Power_PowerControl power)) ->
  Forall (fun ps => exists n, decimal_value (PS_MemberId ps) = Some n /\ n <= 255)
    (Power_PowerSupplies power) ->
  List.map Index (sensors_of power_event)
  = List.map (fun pc => decimal_value (PC_MemberId pc))
      (List.filter is_server_power_control (Power_PowerControl power)) /\
  List.map Index
    (List.firstn (List.length (Power_PowerSupplies power)) (sensors_of voltage_event))
  = List.map (fun ps => decimal_value (PS_MemberId ps)) (Power_PowerSupplies power).
Proof.
  intros Hdec Hret Hpc Hps.
  rewrite (ParseJSONPowerEvents_decoded _ _ _ _ Hdec) in Hret. cbn [fst] in Hret.
  destruct (List.existsb name_too_short (Power_Voltages power)); [discriminate|].
  injection Hret as <- <-. unfold sensors_of. cbn.
  assert (Hidx : forall id n,
             decimal_value id = Some n -> n <= 255 ->
             Some (uint8 (fst (Strconv.ParseUint id 10 8))) = decimal_value id).
  { intros id n Hn Hle. rewrite uint8_of_ParseUint, Hn.
    destruct (ParseUint_10_8 id) as (Hok & _).
    now rewrite (proj2 (Hok n) (conj Hn Hle)). }
  split.
  - rewrite List.map_map. apply List.map_ext_in. intros pc Hin.
    rewrite List.Forall_forall in Hpc. destruct (Hpc pc Hin) as (n & Hn & Hle).
    now apply (Hidx _ n).
  - rewrite <- (List.length_map (supply_payload (instants clk (reads clk)) location)
                  (Power_PowerSupplies power)).
    rewrite take_app_length.
    rewrite List.map_map. apply List.map_ext_in. intros ps Hin.
    rewrite List.Forall_forall in Hps. destruct (Hps ps Hin) as (n & Hn & Hle).
    now apply (Hidx _ n).
Qed.

(** X7.  For a payload that decodes, the temperature event has one
    "Baseboard" payload per temperature, in the order of the payload, with
    the name of the temperature as device-specific context and its
    reading as value. *)
Theorem temperature_payloads_follow_the_readings (payloadBytes location : string)
    (clk : Clock) (thermal : EnclosureThermal) :
  json_Unmarshal_EnclosureThermal payloadBytes = Some thermal ->
  exists temperature_event,
    fst (ParseJSONThermalEvents payloadBytes location clk)
    = Returned [temperature_event] /\
    List.map DeviceSpecificContext (sensors_of temperature_event)
    = List.map T_Name (Temperatures thermal) /\
    List.map Value (sensors_of temperature_event)
    = List.map (fun t => FormatFloat (ReadingCelsius t)) (Temperatures thermal) /\
    Forall (fun p => PhysicalContext p = "Baseboard") (sensors_of temperature_event).
Proof.
  intros Hdec. rewrite (ParseJSONThermalEvents_decoded _ _ _ _ Hdec).
  eexists. split; [reflexivity|]. unfold sensors_of. cbn.
  rewrite !List.map_map. split; [reflexivity|]. split; [reflexivity|].
  apply List.Forall_forall. intros p Hp.
  apply List.in_map_iff in Hp as (t & <- & _). reflexivity.
Qed.

End ParserFurther.

Section ParserFurtherScenarios.
Import Go Hmcollector IntelRiverCollector Statements.

Local Abbreviation power_events :=
  (ParseJSONPowerEvents (lib := Reference.library)).
Local Abbreviation thermal_events :=
  (ParseJSONThermalEvents (lib := Reference.library)).

(** The reference library on the three payloads used below. *)
Lemma S1_decodes :
  json_Unmarshal_Power (Library := Reference.library) Reference.S1_payload
  = Some Reference.S1_power.
Proof. vm_compute. reflexivity. Qed.

Lemma S1_returns :
  exists power_event voltage_event,
    fst (power_events Reference.S1_payload "x3000c0s1b0" Reference.clock)
    = Returned [power_event; voltage_event].
Proof. vm_compute. eexists _, _. reflexivity. Qed.

Lemma S2_decodes :
  json_Unmarshal_EnclosureThermal (Library := Reference.library) Reference.S2_payload
  = Some (mkEnclosureThermal [mkTemperature "CPU1" 42%float]).
Proof. vm_compute. reflexivity. Qed.

(** X1 on S1: the three voltage names have three bytes or more. *)
Lemma power_parser_returns_iff_names_long_witness :
  exists events,
    fst (power_events Reference.S1_payload "x3000c0s1b0" Reference.clock)
    = Returned events.
Proof.
  apply (proj2 (proj1 (power_parser_returns_iff_names_long
                         (lib := Reference.library) Reference.S1_payload
                         "x3000c0s1b0" Reference.clock Reference.S1_power S1_decodes))).
  intros v [<-|[]]. simpl. lia.
Defined.

(** X3 on S1. *)
Lemma power_events_follow_the_payload_witness :
  exists power_event voltage_event,
    fst (power_events Reference.S1_payload "x3000c0s1b0" Reference.clock)
    = Returned [power_event; voltage_event] /\
    List.length (sensors_of power_event) = 1%nat /\
    List.map PhysicalContext (sensors_of voltage_event)
    = ["PowerSupplyBay"; "SystemBoard"].
Proof.
  destruct S1_returns as (pe & ve & Hret).
  destruct (power_events_follow_the_payload (lib := Reference.library)
              Reference.S1_payload "x3000c0s1b0" Reference.clock Reference.S1_power
              [pe; ve] S1_decodes Hret)
    as (pe' & ve' & Hev & _ & _ & Hlen & _ & _ & Hctx & _).
  injection Hev as <- <-.
  exists pe, ve. split; [exact Hret|]. split; [exact Hlen|exact Hctx].
Defined.

(** X4 on S1. *)
Lemma events_carry_location_and_reading_witness :
  exists events,
    fst (power_events Reference.S1_payload "x3000c0s1b0" Reference.clock)
    = Returned events /\
    Forall
      (fun e =>
         Forall (fun p => Location p = "x3000c0s1b0"
                          /\ Timestamp p = "2020-12-16T00:00:00Z")
           (sensors_of e))
      events.
Proof.
  destruct S1_returns as (pe & ve & Hret).
  exists [pe; ve]. split; [exact Hret|].
  pose proof (events_carry_location_and_reading (lib := Reference.library)
                Reference.S1_payload "x3000c0s1b0" Reference.clock [pe; ve]
                (or_introl Hret)) as H.
  eapply List.Forall_impl; [|exact H].
  intros e (_ & _ & He). exact He.
Defined.

(** X5 on S1: " VDD" after "P12" gives "P12 VDD". *)
Lemma rail_context_completes_the_name_witness :
  exists power_event voltage_event,
    fst (power_events Reference.S1_payload "x3000c0s1b0" Reference.clock)
    = Returned [power_event; voltage_event] /\
    Forall2
      (fun v p => String.substring 0 3 (V_Name v) +:+ DeviceSpecificContext p
                  = V_Name v)
      [mkVoltage "P12 VDD" 12.01%float]
      (List.skipn 1 (sensors_of voltage_event)).
Proof.
  destruct S1_returns as (pe & ve & Hret).
  exists pe, ve. split; [exact Hret|].
  pose proof (rail_context_completes_the_name (lib := Reference.library)
                Reference.S1_payload "x3000c0s1b0" Reference.clock Reference.S1_power
                pe ve S1_decodes Hret) as H.
  eapply List.Forall2_impl; [|exact H].
  intros v p (_ & _ & Hname & _). exact Hname.
Defined.

(** X6 on S1: the member identifiers "0" and "1". *)
Lemma decimal_member_ids_become_indices_witness :
  exists power_event voltage_event,
    fst (power_events Reference.S1_payload "x3000c0s1b0" Reference.clock)
    = Returned [power_event; voltage_event] /\
    List.map Index (sensors_of power_event) = [Some 0] /\
    List.map Index (List.firstn 1 (sensors_of voltage_event)) = [Some 1].
Proof.
  destruct S1_returns as (pe & ve & Hret).
  exists pe, ve. split; [exact Hret|].
  apply (decimal_member_ids_become_indices (lib := Reference.library)
           Reference.S1_payload "x3000c0s1b0" Reference.clock Reference.S1_power
           pe ve S1_decodes Hret).
  - repeat constructor. exists 0. split; [reflexivity|lia].
  - repeat constructor. exists 1. split; [reflexivity|lia].
Defined.

(** X7 on S2. *)
Lemma temperature_payloads_follow_the_readings_witness :
  exists temperature_event,
    fst (thermal_events Reference.S2_payload "x3000c0s1b0" Reference.clock)
    = Returned [temperature_event] /\
    List.map DeviceSpecificContext (sensors_of temperature_event) = ["CPU1"] /\
    List.map Value (sensors_of temperature_event) = ["42"].
Proof.
  destruct (temperature_payloads_follow_the_readings (lib := Reference.library)
              Reference.S2_payload "x3000c0s1b0" Reference.clock _ S2_decodes)
    as (e & Hret & Hnames & Hvalues & _).
  exists e. split; [exact Hret|]. split; [exact Hnames|].
  rewrite Hvalues. vm_compute. reflexivity.
Defined.

End ParserFurtherScenarios.

(** ** Part XVIII.  The payload URL *)

Section URLProperties.
Import Go Rf RiverURL.

Lemma append_cancel_l (s a b : string) : s +:+ a = s +:+ b -> a = b.
Proof.
  induction s as [|c s IH]; intros H; [exact H|].
  change (String c (s +:+ a) = String c (s +:+ b)) in H.
  injection H as H. now apply IH.
Qed.

Lemma append_cancel_r (a b s : string) : a +:+ s = b +:+ s -> a = b.
Proof.
  revert b. induction a as [|c a IH]; intros b H.
  - destruct b as [|d b]; [reflexivity|].
    apply (f_equal String.length) in H. rewrite !length_append in H.
    simpl in H. lia.
  - destruct b as [|d b].
    + apply (f_equal String.length) in H. rewrite !length_append in H.
      simpl in H. lia.
    + change (String c (a +:+ s) = String d (b +:+ s)) in H.
      injection H as -> H. f_equal. now apply IH.
Qed.

(** X8.  The payload URL of an endpoint is an https URL on the endpoint's
    FQDN.  For one telemetry type, endpoints with different FQDNs get
    different URLs; for one endpoint, different telemetry types get
    different URLs.  For a [nil] endpoint the call panics. *)
Theorem payload_URL_tells_endpoints_and_types_apart :
  (forall e t,
     exists rest,
       GetPayloadURLForTelemetryType (Some e) t
       = Returned ("https://" +:+ FQDN e +:+ "/redfish/v1/" +:+ rest)) /\
  (forall e1 e2 t,
     GetPayloadURLForTelemetryType (Some e1) t
     = GetPayloadURLForTelemetryType (Some e2) t ->
     FQDN e1 = FQDN e2) /\
  (forall e t1 t2,
     GetPayloadURLForTelemetryType (Some e) t1
     = GetPayloadURLForTelemetryType (Some e) t2 ->
     t1 = t2) /\
  (forall t, exists msg, GetPayloadURLForTelemetryType None t = Panicked msg).
Proof.
  split; [|split; [|split]].
  - intros e t. exists ("Chassis/RackMount/Baseboard/" +:+ t). reflexivity.
  - intros e1 e2 t H. unfold GetPayloadURLForTelemetryType in H.
    injection H as H. apply append_cancel_l in H.
    now apply append_cancel_r in H.
  - intros e t1 t2 H. unfold GetPayloadURLForTelemetryType in H.
    injection H as H. now repeat apply append_cancel_l in H.
  - intros t. eexists. reflexivity.
Qed.

End URLProperties.

(** ** Part XIX.  Further properties of the inventory loop *)

Section InventoryFurther.
Import Rf Zap Inventory.

Lemma endpoints_loop_keeps_known (VaultEnabled : bool)
    (store : string -> option (string * string))
    (endpoints : list RedfishEPDescription) (st : State) (id : string) :
  is_Some (HSMEndpoints st !! id) ->
  is_Some (HSMEndpoints (endpoints_loop VaultEnabled store endpoints st) !! id).
Proof.
  intros [ep H]. exists ep. now apply endpoints_loop_keeps.
Qed.

(** After the loop over a reply, every usable endpoint of the reply is
    known. *)
Lemma endpoints_loop_learns (VaultEnabled : bool)
    (store : string -> option (string * string))
    (endpoints : list RedfishEPDescription) (st : State) (e : RedfishEPDescription) :
  In e endpoints ->
  usable VaultEnabled store e ->
  is_Some (HSMEndpoints (endpoints_loop VaultEnabled store endpoints st) !! ID e).
Proof.
  revert st. induction endpoints as [|e' rest IH]; intros st Hin [Hok Hcred];
    [destruct Hin|].
  destruct Hin as [->|Hin]; [|simpl].
  - simpl. destruct (HSMEndpoints st !! ID e) eqn:Hknown.
    + apply endpoints_loop_keeps_known. rewrite Hknown. eauto.
    + rewrite Hok. simpl. destruct VaultEnabled.
      * unfold updateEndpointWithCredentials.
        destruct (store (ID e)) as [[username password]|] eqn:Hs;
          [|now destruct (Hcred eq_refl)].
        apply endpoints_loop_keeps_known. simpl. rewrite lookup_insert_eq. eauto.
      * apply endpoints_loop_keeps_known. simpl. rewrite lookup_insert_eq. eauto.
  - destruct (HSMEndpoints st !! ID e'); [now apply IH|].
    destruct (negb (String.eqb (LastStatus (DiscInfo e')) "DiscoverOK"));
      [now apply IH|].
    destruct VaultEnabled.
    + unfold updateEndpointWithCredentials.
      destruct (store (ID e')) as [[username password]|]; now apply IH.
    + now apply IH.
Qed.

(** X9.  One pass over a reply of HSM that has no error adds exactly the
    usable endpoints: an ID is in the inventory after the pass when it was
    there before, or when the reply lists under it an endpoint that HSM
    reports as "DiscoverOK" and, with the secret store in use, that has
    credentials in the store; and in no other case. *)
Theorem pass_adds_exactly_the_usable_endpoints (VaultEnabled : bool) (t : Tick)
    (st : State) (id : string) :
  newEndpointsErr t = None ->
  (is_Some (HSMEndpoints (pass VaultEnabled t st) !! id)
   <-> is_Some (HSMEndpoints st !! id)
       \/ exists e,
            In e (newEndpoints t) /\
            ID e = id /\
            LastStatus (DiscInfo e) = "DiscoverOK" /\
            (VaultEnabled = true -> secrets t id <> None)).
Proof.
  intros Herr. split.
  - intros [ep Hep]. destruct (HSMEndpoints st !! id) as [known|] eqn:Hknown;
      [left; eauto|right].
    destruct (pass_adds _ _ _ _ _ Hknown Hep) as (_ & e & Hin & Hid & Hok & Hcred).
    exists e. split; [exact Hin|]. split; [exact Hid|]. split; [exact Hok|].
    intros ->. destruct Hcred as (username & password & -> & _). discriminate.
  - intros [[ep Hep]|(e & Hin & <- & Hok & Hcred)].
    + exists ep. now apply pass_keeps.
    + unfold pass. rewrite Herr, orb_false_r.
      destruct (newEndpoints t) as [|e' rest] eqn:Hl; [destruct Hin|].
      cbn [List.length Nat.eqb]. apply endpoints_loop_learns; [exact Hin|].
      split; assumption.
Qed.

(** The loop adds nothing when each endpoint of the reply is known, or not
    discovered, or without credentials. *)
Lemma endpoints_loop_settled (VaultEnabled : bool)
    (store : string -> option (string * string))
    (endpoints : list RedfishEPDescription) (st : State) :
  (forall e, In e endpoints ->
     is_Some (HSMEndpoints st !! ID e) \/ ~ usable VaultEnabled store e) ->
  HSMEndpoints (endpoints_loop VaultEnabled store endpoints st) = HSMEndpoints st.
Proof.
  revert st. induction endpoints as [|e rest IH]; intros st Hsettled; [reflexivity|].
  assert (Hrest : forall st',
             HSMEndpoints st' = HSMEndpoints st ->
             HSMEndpoints (endpoints_loop VaultEnabled store rest st')
             = HSMEndpoints st).
  { intros st' Heq. rewrite IH; [exact Heq|].
    intros e' Hin. rewrite Heq. apply Hsettled. now right. }
  simpl. destruct (HSMEndpoints st !! ID e) eqn:Hknown; [now apply Hrest|].
  destruct (Hsettled e (or_introl eq_refl)) as [[ep Hep]|Hnot]; [congruence|].
  destruct (String.eqb_spec (LastStatus (DiscInfo e)) "DiscoverOK") as [Hok|Hbad];
    simpl; [|now apply Hrest].
  destruct VaultEnabled.
  - unfold updateEndpointWithCredentials.
    destruct (store (ID e)) as [[username password]|] eqn:Hs; [|now apply Hrest].
    destruct Hnot. split; [exact Hok|]. intros _. congruence.
  - destruct Hnot. split; [exact Hok|discriminate].
Qed.

(** X10.  A second pass over the same reply, with the same content of the
    secret store, leaves the inventory as the first pass left it. *)
Theorem pass_twice_is_pass_once (VaultEnabled : bool) (t : Tick) (st : State) :
  HSMEndpoints (pass VaultEnabled t (pass VaultEnabled t st))
  = HSMEndpoints (pass VaultEnabled t st).
Proof.
  unfold pass.
  destruct ((Nat.eqb (List.length (newEndpoints t)) 0)
            || match newEndpointsErr t with Some _ => true | None => false end);
    [reflexivity|].
  apply endpoints_loop_settled. intros e Hin.
  destruct (String.eqb_spec (LastStatus (DiscInfo e)) "DiscoverOK") as [Hok|Hbad];
    [|right; intros [H _]; contradiction].
  destruct VaultEnabled.
  - destruct (secrets t (ID e)) as [creds|] eqn:Hs.
    + left. apply endpoints_loop_learns; [exact Hin|].
      split; [exact Hok|]. intros _. congruence.
    + right. intros [_ H]. now apply H.
  - left. apply endpoints_loop_learns; [exact Hin|]. split; [exact Hok|discriminate].
Qed.

(** X11.  While every reply of HSM comes with an error or lists nothing,
    the inventory stays as it is and each pass writes one warning, with
    the error of the reply, and nothing else. *)
Theorem failed_replies_change_nothing (VaultEnabled : bool) (ticks : list Tick)
    (st : State) :
  Forall (fun t => newEndpoints t = [] \/ newEndpointsErr t <> None) ticks ->
  HSMEndpoints (passes VaultEnabled ticks st) = HSMEndpoints st /\
  logger (passes VaultEnabled ticks st)
  = logger st
    ++ List.map
         (fun t => mkEntry WarnLevel "No endpoints retrieved from State Manager"
                     [F_Error (newEndpointsErr t)])
         ticks.
Proof.
  revert st. induction ticks as [|t rest IH]; intros st Hbad.
  - simpl. now rewrite app_nil_r.
  - apply List.Forall_cons_iff in Hbad as [Ht Hrest].
    change (passes VaultEnabled (t :: rest) st)
      with (passes VaultEnabled rest (pass VaultEnabled t st)).
    destruct (IH (pass VaultEnabled t st) Hrest) as [Hmap Hlog].
    rewrite Hmap, Hlog.
    assert (Hpass : pass VaultEnabled t st
                    = logged st WarnLevel "No endpoints retrieved from State Manager"
                        [F_Error (newEndpointsErr t)]).
    { unfold pass. destruct Ht as [->|Herr]; [reflexivity|].
      destruct (newEndpointsErr t); [|contradiction].
      now rewrite orb_true_r. }
    rewrite Hpass. simpl. unfold write. rewrite <- app_assoc.
    split; reflexivity.
Qed.

End InventoryFurther.

(** X9 on the run of the scenario: the endpoint reported as discovered is
    known after the first pass. *)
Lemma pass_adds_exactly_the_usable_endpoints_witness :
  is_Some
    (Inventory.HSMEndpoints
       (Inventory.pass true InventoryScenario.first_reply (Inventory.initial []))
     !! "x3000c0s1b0").
Proof.
  apply (pass_adds_exactly_the_usable_endpoints true InventoryScenario.first_reply
           (Inventory.initial []) "x3000c0s1b0" eq_refl).
  right. exists InventoryScenario.reported_ok.
  split; [left; reflexivity|]. split; [reflexivity|]. split; [reflexivity|].
  intros _. discriminate.
Defined.

(** X11 on two replies, one with an error and one that lists nothing. *)
Lemma failed_replies_change_nothing_witness :
  Inventory.HSMEndpoints
    (Inventory.passes true
       [Inventory.mkTick [InventoryScenario.reported_ok] (Some "connection refused")
          InventoryScenario.store;
        Inventory.mkTick [] None InventoryScenario.store]
       (Inventory.initial []))
  = ∅.
Proof.
  apply (failed_replies_change_nothing true).
  constructor; [right; discriminate|].
  constructor; [left; reflexivity|constructor].
Defined.

(** ** Part XX.  Further properties of the start-up path *)

Section StartupFurther.
Import Go Zap Startup CARoll MainStatements.
Context {env : Environment}.

(** When the attempt after [j] failures succeeds, the loop of [main] ends
    with [ok] true after [j + 1] calls and [j] sleeps, with the new pair
    as Redfish client. *)
Lemma create_attempts_first_success (j n : nat) (ix : Z) (st : State) :
  (j < n)%nat ->
  (forall k, (k < j)%nat ->
     CreateHTTPClientPair (creations st + k) (caURI st) (httpTimeout st) <> None) ->
  CreateHTTPClientPair (creations st + j) (caURI st) (httpTimeout st) = None ->
  exists st',
    create_attempts n ix st = (true, st') /\
    startup_progress st st' (S j) (List.repeat 2 j) /\
    rfClient st' = Some (mkHTTPClientPair (caURI st) (httpTimeout st)).
Proof.
  revert n ix st. induction j as [|j IH]; intros n ix st Hn Hfail Hok;
    (destruct n as [|n]; [lia|]); cbn [create_attempts];
    destruct (createRFClient_outcome st) as [Hprog Hres].
  - rewrite Nat.add_0_r in Hok. rewrite Hok in Hres. destruct Hres as [Herr Hclient].
    destruct (createRFClient st) as [err st1]. simpl in Herr, Hclient, Hprog.
    subst err. eexists. split; [reflexivity|]. split; [|exact Hclient].
    change 1%nat with (1 + 0)%nat. change (List.repeat 2 0) with (@nil Z ++ []).
    apply (startup_progress_trans _ st1); [exact Hprog|].
    unfold startup_progress. simpl. rewrite Nat.add_0_r, app_nil_r.
    repeat (split; [reflexivity|]). eexists. reflexivity.
  - pose proof (Hfail 0%nat ltac:(lia)) as H0. rewrite Nat.add_0_r in H0.
    destruct (CreateHTTPClientPair (creations st) (caURI st) (httpTimeout st))
      as [e|]; [|contradiction].
    destruct Hres as [Herr Hclient].
    destruct (createRFClient st) as [err st1]. simpl in Herr, Hclient, Hprog.
    subst err.
    set (st2 := sleep (logged st1 ErrorLevel "TLS-verified client pair creation failure, " _) 2).
    assert (Hstep : startup_progress st st2 1 [2]).
    { change 1%nat with (1 + 0)%nat. change [2] with ([] ++ [2]).
      apply (startup_progress_trans _ st1); [exact Hprog|].
      unfold startup_progress, st2. simpl. rewrite Nat.add_0_r.
      repeat (split; [reflexivity|]). eexists. reflexivity. }
    pose proof Hstep as (U & T & C & _).
    destruct (IH n (ix + 1) st2) as (st' & Hrun & Hprog' & Hclient').
    + lia.
    + intros k Hk. rewrite U, T, C.
      replace (creations st + 1 + k)%nat with (creations st + S k)%nat by lia.
      apply Hfail. lia.
    + rewrite U, T, C.
      replace (creations st + 1 + j)%nat with (creations st + S j)%nat by lia.
      exact Hok.
    + exists st'. split; [exact Hrun|]. split.
      * change (S (S j)) with (1 + S j)%nat.
        change (List.repeat 2 (S j)) with ([2] ++ List.repeat 2 j).
        now apply (startup_progress_trans _ st2).
      * rewrite Hclient', U, T. reflexivity.
Qed.

(** The attempts either all fail or have a first one that succeeds. *)
Lemma first_success_or_none (n : nat) (f : nat -> option string) :
  (forall k, (k < n)%nat -> f k <> None) \/
  (exists j, (j < n)%nat /\ (forall k, (k < j)%nat -> f k <> None) /\ f j = None).
Proof.
  induction n as [|n [IH|(j & Hj & Hfail & Hok)]].
  - left. intros k Hk. lia.
  - destruct (f n) eqn:Hn.
    + left. intros k Hk. destruct (Nat.eq_dec k n) as [->|Hne].
      * congruence.
      * apply IH. lia.
    + right. exists n. split; [lia|]. split; [|exact Hn].
      intros k Hk. now apply IH.
  - right. exists j. split; [lia|]. split; assumption.
Qed.

(** What [main] does after the loop that ended with [ok] true. *)
Lemma main_setup_after_first_success (j : nat) (st : State) :
  (j < 10)%nat ->
  (forall k, (k < j)%nat ->
     CreateHTTPClientPair (creations st + k) (caURI st) (httpTimeout st) <> None) ->
  CreateHTTPClientPair (creations st + j) (caURI st) (httpTimeout st) = None ->
  exists st',
    main_setup_rfClient st = Returned st' /\
    caURI st' = caURI st /\
    rfClient st' = Some (mkHTTPClientPair (caURI st) (httpTimeout st)) /\
    creations st' = (creations st + S j)%nat /\
    slept st' = slept st ++ List.repeat 2 j /\
    watched st'
    = watched st ++ (if String.eqb (caURI st) "" then [] else [caURI st]).
Proof.
  intros Hj Hfail Hok.
  destruct (create_attempts_first_success j 10 1 st Hj Hfail Hok)
    as (st1 & Hrun & (U & T & C & Sl & W & l & L) & Hclient).
  unfold main_setup_rfClient. rewrite Hrun. cbn [negb]. rewrite U.
  destruct (String.eqb (caURI st) ""); cbn [negb].
  - eexists. split; [reflexivity|]. simpl. rewrite app_nil_r.
    repeat (split; [assumption|]). exact W.
  - cbv zeta. change (caURI (watch st1 (caURI st))) with (caURI st1).
    destruct (CAUpdateRegister (caURI st1)); eexists; (split; [reflexivity|]);
      simpl; rewrite W; repeat (split; [assumption|]); reflexivity.
Qed.

(** What [main] does after the loop that ended with [ok] false, when the
    pair can be created without a CA bundle. *)
Lemma main_setup_after_failover (st : State) :
  (forall k, (k < 10)%nat ->
     CreateHTTPClientPair (creations st + k) (caURI st) (httpTimeout st) <> None) ->
  CreateHTTPClientPair (creations st + 10) "" (httpTimeout st) = None ->
  exists st',
    main_setup_rfClient st = Returned st' /\
    caURI st' = "" /\
    rfClient st' = Some (mkHTTPClientPair "" (httpTimeout st)) /\
    creations st' = (creations st + 11)%nat /\
    slept st' = slept st ++ List.repeat 2 10 /\
    watched st' = watched st.
Proof.
  intros Hfail Hlast.
  destruct (create_attempts_all_fail 10 1 st Hfail)
    as (st1 & Hrun & (U1 & T1 & C1 & S1 & W1 & l1 & L1) & Hclient1).
  unfold main_setup_rfClient. rewrite Hrun. cbn [negb].
  set (st2 := set_caURI _ "").
  destruct (createRFClient_outcome st2) as [(U2 & T2 & C2 & S2 & W2 & l2 & L2) Hres].
  assert (Hcreations : creations st2 = (creations st + 10)%nat) by exact C1.
  assert (Htimeout : httpTimeout st2 = httpTimeout st) by exact T1.
  assert (Huri : caURI st2 = "") by reflexivity.
  rewrite Hcreations, Htimeout, Huri, Hlast in Hres.
  destruct Hres as [Herr Hclient].
  destruct (createRFClient st2) as [err st3]. simpl in *. subst err.
  rewrite U2. cbn.
  eexists. split; [reflexivity|]. simpl.
  split; [exact U2|]. split; [exact Hclient|].
  split; [rewrite C2, C1; lia|].
  split; [rewrite S2, app_nil_r; exact S1|].
  rewrite W2. exact W1.
Qed.

(** X12.  When the attempt after [j] failures succeeds, for a [j] below
    ten, [main] goes on with the pair created from the CA URI: [j + 1]
    calls of the creation and [j] sleeps of two seconds were made, the CA
    URI is kept, and the CA watcher is registered for it exactly when it
    is not empty; that the registration fails stops nothing. *)
Theorem startup_uses_first_pair_created (j : nat) (st : State) :
  (j < 10)%nat ->
  (forall k, (k < j)%nat ->
     CreateHTTPClientPair (creations st + k) (caURI st) (httpTimeout st) <> None) ->
  CreateHTTPClientPair (creations st + j) (caURI st) (httpTimeout st) = None ->
  exists st',
    main_setup_rfClient st = Returned st' /\
    caURI st' = caURI st /\
    rfClient st' = Some (mkHTTPClientPair (caURI st) (httpTimeout st)) /\
    creations st' = (creations st + S j)%nat /\
    slept st' = slept st ++ List.repeat 2 j /\
    watched st'
    = watched st ++ (if String.eqb (caURI st) "" then [] else [caURI st]).
Proof. exact (main_setup_after_first_success j st). Qed.

(** X13.  Whatever the environment does, this part of [main] calls the
    creation until a call succeeds: up to ten times with the configured CA
    URI, a sleep of two seconds after each failure, and an eleventh time
    without CA bundle.  When it returns, the call that succeeded was call
    number [j + 1] for some [j] up to ten, every call before it failed, [j]
    sleeps were made, and the Redfish client is the pair of that call,
    created from the CA URI then in force: the configured one for [j] below
    ten, the empty one for the eleventh call; the watcher is registered
    for that URI exactly when it is not empty.  It panics exactly when the
    ten attempts and the creation without CA bundle all fail. *)
Theorem startup_outcome (st : State) :
  match main_setup_rfClient st with
  | Returned st' =>
      exists j,
        (j <= 10)%nat /\
        (forall k, (k < j)%nat ->
           CreateHTTPClientPair (creations st + k) (caURI st) (httpTimeout st) <> None) /\
        CreateHTTPClientPair (creations st + j) (caURI st') (httpTimeout st) = None /\
        caURI st' = (if (j <? 10)%nat then caURI st else "") /\
        rfClient st' = Some (mkHTTPClientPair (caURI st') (httpTimeout st)) /\
        creations st' = (creations st + S j)%nat /\
        slept st' = slept st ++ List.repeat 2 j /\
        watched st'
        = watched st ++ (if String.eqb (caURI st') "" then [] else [caURI st'])
  | Panicked msg => msg = "Can't create Redfish HTTP client!!!"
  end /\
  ((exists msg, main_setup_rfClient st = Panicked msg)
   <-> (forall k, (k < 10)%nat ->
          CreateHTTPClientPair (creations st + k) (caURI st) (httpTimeout st) <> None) /\
       CreateHTTPClientPair (creations st + 10) "" (httpTimeout st) <> None).
Proof.
  destruct (first_success_or_none 10
              (fun k => CreateHTTPClientPair (creations st + k) (caURI st) (httpTimeout st)))
    as [Hfail|(j & Hj & Hfail & Hok)].
  - destruct (CreateHTTPClientPair (creations st + 10) "" (httpTimeout st)) eqn:Hlast.
    + rewrite (startup_panics_without_any_client st Hfail) by congruence.
      split; [reflexivity|]. split; [|intros _; eexists; reflexivity].
      intros _. split; [exact Hfail|discriminate].
    + destruct (main_setup_after_failover st Hfail Hlast)
        as (st' & -> & U & R & C & Sl & W).
      split.
      * exists 10%nat. rewrite U, R, C, Sl, W. cbn.
        split; [lia|]. split; [exact Hfail|]. split; [exact Hlast|].
        split; [reflexivity|]. split; [reflexivity|]. split; [reflexivity|].
        split; [reflexivity|]. now rewrite app_nil_r.
      * split; [intros [msg H]; discriminate|]. intros [_ H]. now destruct H.
  - destruct (main_setup_after_first_success j st Hj Hfail Hok)
      as (st' & -> & U & R & C & Sl & W).
    split.
    + exists j. rewrite U, R, C, Sl, W.
      destruct (Nat.ltb_spec j 10) as [_|Hge]; [|lia].
      split; [lia|]. split; [exact Hfail|]. split; [exact Hok|].
      repeat (split; [reflexivity|]). reflexivity.
    + split; [intros [msg H]; discriminate|].
      intros [Hall _]. destruct (Hall j Hj Hok).
Qed.

(** X14.  One call of [createRFClient] makes one call of the creation,
    with the CA URI and the timeout as they stand.  It returns no error
    exactly when that call gives none; then the new pair is the Redfish
    client.  When the call fails the Redfish client stays the one it was.
    The CA URI and the timeout are never changed. *)
Theorem createRFClient_replaces_client_on_success_only (st : State) :
  (fst (createRFClient st) = None
   <-> CreateHTTPClientPair (creations st) (caURI st) (httpTimeout st) = None) /\
  (fst (createRFClient st) = None ->
   rfClient (snd (createRFClient st))
   = Some (mkHTTPClientPair (caURI st) (httpTimeout st))) /\
  (fst (createRFClient st) <> None ->
   rfClient (snd (createRFClient st)) = rfClient st) /\
  creations (snd (createRFClient st)) = S (creations st) /\
  caURI (snd (createRFClient st)) = caURI st /\
  httpTimeout (snd (createRFClient st)) = httpTimeout st.
Proof.
  destruct (createRFClient_outcome st) as [(U & T & C & _) Hres].
  destruct (CreateHTTPClientPair (creations st) (caURI st) (httpTimeout st)) as [e|];
    destruct Hres as [Herr Hclient]; rewrite Herr.
  - split; [split; discriminate|]. split; [discriminate|]. split; [now intros _|].
    split; [lia|]. split; assumption.
  - split; [split; reflexivity|]. split; [now intros _|].
    split; [intros H; now destruct H|]. split; [lia|]. split; assumption.
Qed.

Lemma params_of_createRFClient (st : State) :
  params (snd (createRFClient st)) = params (read_environment st).
Proof.
  unfold createRFClient. cbv zeta.
  assert (Hannounce : forall s, params (announce s) = params s).
  { intros s. unfold announce. cbv zeta.
    destruct (negb (String.eqb (caURI (logged s InfoLevel "All RF threads paused." [])) ""));
      reflexivity. }
  destruct (CreateHTTPClientPair _ _ _); cbn [snd]; apply Hannounce.
Qed.

(** X15.  [createRFClient] takes each of the four fields of
    [ConfigParams] from its variable of the process environment when the
    variable is set to a non-empty value, and leaves the field as it is
    otherwise; no variable touches the field of another. *)
Theorem createRFClient_reads_the_environment (st : State) :
  let pick name old := if String.eqb (Getenv name) "" then old else Getenv name in
  params (snd (createRFClient st))
  = mkConfigParams
      (pick "HMCOLLECTOR_CA_PKI_URL" (VaultCAUrl (params st)))
      (pick "HMCOLLECTOR_VAULT_PKI_URL" (VaultPKIUrl (params st)))
      (pick "HMCOLLECTOR_VAULT_JWT_FILE" (VaultJWTFile (params st)))
      (pick "HMCOLLECTOR_K8S_AUTH_URL" (K8SAuthUrl (params st))).
Proof.
  cbv zeta. rewrite params_of_createRFClient.
  unfold read_environment, override. cbv zeta.
  generalize (Getenv "HMCOLLECTOR_CA_PKI_URL") (Getenv "HMCOLLECTOR_VAULT_PKI_URL")
    (Getenv "HMCOLLECTOR_VAULT_JWT_FILE") (Getenv "HMCOLLECTOR_K8S_AUTH_URL").
  intros v1 v2 v3 v4.
  destruct (String.eqb v1 "");
    destruct (String.eqb v2 ""); destruct (String.eqb v3 "");
    destruct (String.eqb v4 "");
    cbn [negb]; destruct st as [u t c [a b d e] n z w l]; reflexivity.
Qed.

(** X16.  When the CA bundle rolls, the callback creates the pair anew
    from the CA URI of the configuration, whatever bundle it is called
    with.  When that fails the Redfish client of before stays in use and
    the failure is the last entry of the log, at error level; when it
    succeeds the new pair is the Redfish client.  The CA URI stays. *)
Theorem caChangeCB_keeps_previous_client_on_failure (caBundle : string) (st : State) :
  caURI (caChangeCB caBundle st) = caURI st /\
  match CreateHTTPClientPair (creations st) (caURI st) (httpTimeout st) with
  | Some e =>
      rfClient (caChangeCB caBundle st) = rfClient st /\
      exists earlier,
        logger (caChangeCB caBundle st)
        = earlier
          ++ [mkEntry ErrorLevel
                "Can't create TLS-verified HTTP client pair with cert roll, using previous one: "
                [F_Error (Some ("ERROR: Can't create Redfish HTTP client: " +:+ e))]]
  | None =>
      rfClient (caChangeCB caBundle st)
      = Some (mkHTTPClientPair (caURI st) (httpTimeout st)) /\
      exists earlier,
        logger (caChangeCB caBundle st)
        = earlier
          ++ [mkEntry InfoLevel
                "HTTP transports/clients now set up with new CA bundle." []]
  end.
Proof.
  unfold caChangeCB. cbv zeta.
  set (st0 := logged st InfoLevel "CA bundle rolled; waiting for all RF threads to pause..." []).
  destruct (createRFClient_outcome st0) as [(U & _) Hres].
  change (creations st0) with (creations st) in Hres.
  change (caURI st0) with (caURI st) in Hres, U.
  change (httpTimeout st0) with (httpTimeout st) in Hres.
  change (rfClient st0) with (rfClient st) in Hres.
  destruct (CreateHTTPClientPair (creations st) (caURI st) (httpTimeout st)) as [e|];
    destruct Hres as [Herr Hclient];
    destruct (createRFClient st0) as [err st1]; simpl in Herr, Hclient, U; subst err;
    (split; [exact U|]); (split; [exact Hclient|]); eexists; reflexivity.
Qed.




End StartupFurther.

(** X12 where the first three attempts fail. *)
Lemma startup_uses_first_pair_created_witness :
  exists st',
    Startup.main_setup_rfClient (env := slow_CA_environment) MainStatements.at_start
    = Go.Returned st' /\
    Startup.creations st' = 4%nat /\
    Startup.slept st' = [2; 2; 2] /\
    Startup.watched st' = ["vault://pki_common/ca_chain"].
Proof.
  destruct (startup_uses_first_pair_created (env := slow_CA_environment) 3
              MainStatements.at_start)
    as (st' & Hrun & _ & _ & Hcalls & Hslept & Hwatched).
  - lia.
  - intros k Hk. simpl. destruct (Nat.ltb_spec k 3); [discriminate|lia].
  - reflexivity.
  - exists st'. split; [exact Hrun|]. split; [exact Hcalls|].
    split; [exact Hslept|exact Hwatched].
Defined.


(** ** Part XXI.  The modes of [main] and the signal handler *)

Section ModesProperties.
Import Go Zap Modes.

(** What [main] has started when it reaches its wait, by the flags. *)
Lemma main_start_steps (f : Flags) (returns : Step -> bool) (st st' : State) :
  main_start f returns st = Ended (Returned st') ->
  WaitGroup st'
  = WaitGroup st + 1 + (if pollingEnabled f then 1 else 0)
    + (if rfSubscribeEnabled f then 1 else 0) /\
  steps st'
  = steps st
    ++ (if restEnabled f then [HandleFunc_root] else [])
    ++ [Call_doRest; Go_signal_handler]
    ++ (if VaultEnabled f then [Call_setupVault] else [])
    ++ [Call_setupKafka]
    ++ (if pollingEnabled f || rfSubscribeEnabled f
        then [Go_doUpdateHSMEndpoints] else [])
    ++ (if pollingEnabled f then [Go_doPolling] else [])
    ++ (if rfSubscribeEnabled f then [Go_doRFSubscribe] else []).
Proof.
  destruct f as [polling subscribe rest vault sm collector].
  destruct st as [wg done log].
  destruct polling, subscribe, rest, vault;
    cbv beta iota zeta
      delta [main_start did logged WaitGroup_Add_1 WaitGroup steps logger
             pollingEnabled rfSubscribeEnabled restEnabled VaultEnabled smURL restURL
             negb andb orb];
    (destruct (returns Call_doRest); [|discriminate]);
    try (destruct (returns Call_setupVault); [|discriminate]);
    (destruct (returns Call_setupKafka); [|discriminate]);
    try (destruct (String.eqb sm ""); [discriminate|]);
    try (destruct (String.eqb collector ""); [discriminate|]);
    intros H; injection H as <-;
    cbn [WaitGroup steps app]; rewrite <- ?app_assoc; cbn [app];
    (split; [lia|reflexivity]).
Qed.

(** What [main] has started when it reaches its wait. *)
Lemma main_start_returned (f : Flags) (returns : Step -> bool) (st st' : State) :
  main_start f returns st = Ended (Returned st') ->
  WaitGroup st'
  = WaitGroup st + 1 + (if pollingEnabled f then 1 else 0)
    + (if rfSubscribeEnabled f then 1 else 0) /\
  exists started,
    steps st' = steps st ++ started /\
    List.NoDup started /\
    (In Go_signal_handler started) /\
    (In Go_doUpdateHSMEndpoints started
     <-> pollingEnabled f || rfSubscribeEnabled f = true) /\
    (In Go_doPolling started <-> pollingEnabled f = true) /\
    (In Go_doRFSubscribe started <-> rfSubscribeEnabled f = true).
Proof.
  intros Hret. destruct (main_start_steps f returns st st' Hret) as [Hwg Hsteps].
  split; [exact Hwg|]. eexists. split; [exact Hsteps|]. clear.
  destruct (restEnabled f), (VaultEnabled f), (pollingEnabled f),
    (rfSubscribeEnabled f); cbn;
    (split; [repeat constructor; cbn; intuition discriminate|]);
    intuition discriminate.
Qed.

(** How this part of [main] ends. *)
Lemma main_start_ending (f : Flags) (returns : Step -> bool) (st : State) :
  let misconfigured :=
    (pollingEnabled f = true /\ smURL f = "") \/
    (rfSubscribeEnabled f = true /\ (smURL f = "" \/ restURL f = "")) in
  let calls_return :=
    returns Call_doRest = true /\
    (VaultEnabled f = true -> returns Call_setupVault = true) /\
    returns Call_setupKafka = true in
  match main_start f returns st with
  | Ended (Panicked _) => calls_return /\ misconfigured
  | Ended (Returned _) => calls_return /\ ~ misconfigured
  | Waiting step =>
      ~ calls_return /\ returns step = false /\
      (step = Call_doRest \/ (step = Call_setupVault /\ VaultEnabled f = true)
       \/ step = Call_setupKafka)
  end.
Proof.
  destruct f as [polling subscribe rest vault sm collector].
  unfold main_start.
  cbn [pollingEnabled rfSubscribeEnabled restEnabled VaultEnabled smURL restURL].
  destruct (returns Call_doRest) eqn:R1; cbn [negb];
    [|split; [intuition discriminate|split; [exact R1|now left]]].
  assert (Hv : (vault = true -> returns Call_setupVault = true)
               <-> vault && negb (returns Call_setupVault) = false).
  { destruct vault, (returns Call_setupVault); cbn; intuition discriminate. }
  destruct (vault && negb (returns Call_setupVault)) eqn:R2.
  { split; [intros (_ & H & _); apply Hv in H; discriminate|].
    apply andb_prop in R2 as [-> R2]. apply negb_true_iff in R2.
    split; [exact R2|]. right. left. split; reflexivity. }
  assert (Hvault : vault = true -> returns Call_setupVault = true) by now apply Hv.
  clear Hv R2.
  destruct (returns Call_setupKafka) eqn:R3; cbn [negb];
    [|split; [intuition discriminate|split; [exact R3|now right; right]]].
  destruct (String.eqb_spec sm "") as [Hsm|Hsm];
    destruct (String.eqb_spec collector "") as [Hc|Hc];
    destruct polling, subscribe; cbn;
    (split; [split; [reflexivity|split; [exact Hvault|reflexivity]]|]);
    intuition (try discriminate; try contradiction).
Qed.

(** The cases of the handler: what follows from the hypotheses of a case,
    and what is left to show of it. *)
Ltac handler_hyps :=
  repeat match goal with
         | H : _ /\ _ |- _ => destruct H
         | H : _ \/ _ |- _ => destruct H
         | H : exists _, _ |- _ => destruct H
         | H : False |- _ => destruct H
         | H : forall ch : Channel, Waiting ?c <> Waiting ch |- _ =>
             destruct (H c eq_refl)
         | H : _ = _ |- _ => discriminate H
         | H : _ -> _ = _ |- _ => discriminate (H eq_refl)
         end.

Ltac handler_goal :=
  repeat match goal with
         | |- _ /\ _ => split
         | |- forall ch : Channel, _ <> _ => intros ? ?; discriminate
         | |- _ = _ => reflexivity
         | |- exists _, _ = _ => eexists; reflexivity
         | |- _ -> _ => intro; handler_hyps
         end;
  try solve [auto 8 | left; eexists; reflexivity | right; reflexivity].

(** What the handler does, by the flags and by the sends that are
    received. *)
Lemma signal_handler_outcome (f : Flags) (received : Channel -> bool)
    (RestSRV : option ShutdownOutcome) :
  let ending := fst (signal_handler f received RestSRV) in
  let actions := snd (signal_handler f received RestSRV) in
  let tried ch := In (Sent ch) actions \/ ending = Waiting ch in
  (exists rest, actions = Set_Running_false :: Cancel_context :: rest) /\
  List.NoDup actions /\
  (tried hsmEndpointRefreshShutdown
   <-> pollingEnabled f || rfSubscribeEnabled f = true) /\
  (tried RFSubscribeShutdown
   <-> rfSubscribeEnabled f = true /\ received hsmEndpointRefreshShutdown = true) /\
  (tried PollingShutdown
   <-> pollingEnabled f = true /\ received hsmEndpointRefreshShutdown = true /\
       (rfSubscribeEnabled f = true -> received RFSubscribeShutdown = true)) /\
  (forall ch, In (Sent ch) actions <-> tried ch /\ received ch = true) /\
  (forall ch, ending = Waiting ch <-> tried ch /\ received ch = false) /\
  (In RestSRV_Shutdown actions
   <-> (forall ch, ending <> Waiting ch) /\ RestSRV <> None) /\
  (ending = Ended (Returned tt)
   <-> (forall ch, ending <> Waiting ch) /\
       (RestSRV = None \/ RestSRV = Some Shutdown_nil)) /\
  ((exists msg, ending = Ended (Panicked msg))
   <-> (forall ch, ending <> Waiting ch) /\
       ((exists err, RestSRV = Some (Shutdown_error err))
        \/ RestSRV = Some Shutdown_panics)).
Proof.
  destruct f as [polling subscribe rest vault sm collector].
  unfold signal_handler, send_when.
  cbn [pollingEnabled rfSubscribeEnabled].
  destruct polling, subscribe; cbn [orb];
    repeat match goal with
           | |- context [if received ?c then _ else _] => destruct (received c) eqn:?
           end;
    cbn [fst snd app];
    try (destruct RestSRV as [[|err|]|]; cbn [fst snd app]);
    (split; [eexists; reflexivity|]);
    (split; [repeat constructor; cbn; intuition discriminate|]);
    repeat match goal with
           | |- _ /\ _ => split
           | |- forall ch : Channel, _ <-> _ => intros [| |]
           end;
    repeat match goal with H : received _ = _ |- _ => rewrite H; clear H end;
    (split; cbn [In]; intros; handler_hyps; handler_goal).
Qed.

(** X18.  This part of [main] panics exactly when [doRest], [setupVault]
    (when the secret store is enabled) and [setupKafka] return and polling
    is enabled without the URL of the State Manager, or subscribing is
    enabled without that URL or without the URL of the collector; it waits
    for good exactly when one of the three calls does not return.  When it
    reaches its wait, it has added to the wait group one for the REST
    server and one for each enabled mode, and what it started agrees with
    what the signal handler tries to stop.  The handler first clears
    [Running] and cancels the context.  It then tries a send on
    [hsmEndpointRefreshShutdown], [RFSubscribeShutdown] and
    [PollingShutdown], in this order, only when [main] started
    [doUpdateHSMEndpoints], [doRFSubscribe] and [doPolling]; a send that is
    tried completes exactly when a goroutine receives it, and one that no
    goroutine receives keeps the handler waiting: the later sends are not
    tried and [RestSRV.Shutdown] is not called.  The handler calls
    [RestSRV.Shutdown] exactly when no send keeps it waiting and the
    server is set, returns exactly when besides that call returns [nil],
    and panics when the call returns an error or panics itself. *)
Theorem main_starts_what_the_handler_stops (f : Flags) (returns : Step -> bool)
    (st : State) :
  let misconfigured :=
    (pollingEnabled f = true /\ smURL f = "") \/
    (rfSubscribeEnabled f = true /\ (smURL f = "" \/ restURL f = "")) in
  let calls_return :=
    returns Call_doRest = true /\
    (VaultEnabled f = true -> returns Call_setupVault = true) /\
    returns Call_setupKafka = true in
  ((exists msg, main_start f returns st = Ended (Panicked msg))
   <-> calls_return /\ misconfigured) /\
  ((exists step, main_start f returns st = Waiting step) <-> ~ calls_return) /\
  ((exists st', main_start f returns st = Ended (Returned st'))
   <-> calls_return /\ ~ misconfigured) /\
  forall st',
    main_start f returns st = Ended (Returned st') ->
    WaitGroup st'
    = WaitGroup st + 1 + (if pollingEnabled f then 1 else 0)
      + (if rfSubscribeEnabled f then 1 else 0) /\
    exists started,
      steps st' = steps st ++ started /\
      List.NoDup started /\
      In Go_signal_handler started /\
      forall received RestSRV,
        let ending := fst (signal_handler f received RestSRV) in
        let actions := snd (signal_handler f received RestSRV) in
        let tried ch := In (Sent ch) actions \/ ending = Waiting ch in
        (exists rest, actions = Set_Running_false :: Cancel_context :: rest) /\
        List.NoDup actions /\
        (tried hsmEndpointRefreshShutdown <-> In Go_doUpdateHSMEndpoints started) /\
        (tried RFSubscribeShutdown
         <-> In Go_doRFSubscribe started /\
             received hsmEndpointRefreshShutdown = true) /\
        (tried PollingShutdown
         <-> In Go_doPolling started /\
             received hsmEndpointRefreshShutdown = true /\
             (In Go_doRFSubscribe started -> received RFSubscribeShutdown = true)) /\
        (forall ch, In (Sent ch) actions <-> tried ch /\ received ch = true) /\
        (forall ch, ending = Waiting ch <-> tried ch /\ received ch = false) /\
        (In RestSRV_Shutdown actions
         <-> (forall ch, ending <> Waiting ch) /\ RestSRV <> None) /\
        (ending = Ended (Returned tt)
         <-> (forall ch, ending <> Waiting ch) /\
             (RestSRV = None \/ RestSRV = Some Shutdown_nil)) /\
        ((exists msg, ending = Ended (Panicked msg))
         <-> (forall ch, ending <> Waiting ch) /\
             ((exists err, RestSRV = Some (Shutdown_error err))
              \/ RestSRV = Some Shutdown_panics)).
Proof.
  cbv zeta.
  pose proof (main_start_ending f returns st) as Hend. cbv zeta in Hend.
  split; [|split; [|split]].
  - destruct (main_start f returns st) as [[s|msg]|step].
    + split; [intros [m H]; discriminate|]. intros [_ H]. now destruct Hend.
    + split; [intros _; exact Hend|]. intros _. eexists. reflexivity.
    + split; [intros [m H]; discriminate|]. intros [H _]. now destruct Hend.
  - destruct (main_start f returns st) as [[s|msg]|step].
    + split; [intros [m H]; discriminate|]. intros H. now destruct Hend.
    + split; [intros [m H]; discriminate|]. intros H. now destruct Hend.
    + split; [intros _; apply Hend|]. intros _. eexists. reflexivity.
  - destruct (main_start f returns st) as [[s|msg]|step].
    + split; [intros _; exact Hend|]. intros _. eexists. reflexivity.
    + split; [intros [m H]; discriminate|]. intros [_ H]. now destruct Hend.
    + split; [intros [m H]; discriminate|]. intros [H _]. now destruct Hend.
  - intros st' Hret.
    destruct (main_start_returned f returns st st' Hret)
      as (Hwg & started & Hsteps & Hnodup & Hhandler & Hhsm & Hpoll & Hsub).
    split; [exact Hwg|].
    exists started. split; [exact Hsteps|]. split; [exact Hnodup|].
    split; [exact Hhandler|].
    intros received RestSRV.
    pose proof (signal_handler_outcome f received RestSRV) as Hout.
    cbv zeta in Hout. cbv zeta.
    rewrite Hhsm, Hpoll, Hsub. exact Hout.
Qed.

End ModesProperties.

(** A collector that polls and subscribes, when every call returns, every
    send is received and the server shuts down. *)
Lemma main_start_of_both_modes :
  exists st',
    Modes.main_start Modes.both_modes Modes.all_return Modes.at_start
    = Modes.Ended (Go.Returned st') /\
    Modes.WaitGroup st' = 3 /\
    Modes.steps st'
    = [Modes.HandleFunc_root; Modes.Call_doRest; Modes.Go_signal_handler;
       Modes.Call_setupVault; Modes.Call_setupKafka; Modes.Go_doUpdateHSMEndpoints;
       Modes.Go_doPolling; Modes.Go_doRFSubscribe] /\
    Modes.signal_handler Modes.both_modes Modes.all_received (Some Modes.Shutdown_nil)
    = (Modes.Ended (Go.Returned tt),
       [Modes.Set_Running_false; Modes.Cancel_context;
        Modes.Sent Modes.hsmEndpointRefreshShutdown;
        Modes.Sent Modes.RFSubscribeShutdown;
        Modes.Sent Modes.PollingShutdown; Modes.RestSRV_Shutdown]).
Proof. eexists. repeat split; reflexivity. Qed.

(** The same collector when the endpoint refresh has left its loop before
    the handler sends, and when the server has an active connection. *)
Lemma signal_handler_waits_or_panics :
  Modes.signal_handler Modes.both_modes Modes.refresh_gone (Some Modes.Shutdown_nil)
  = (Modes.Waiting Modes.hsmEndpointRefreshShutdown,
     [Modes.Set_Running_false; Modes.Cancel_context]) /\
  fst (Modes.signal_handler Modes.both_modes Modes.all_received
         (Some Modes.Shutdown_panics))
  = Modes.Ended (Go.Panicked "invalid memory address or nil pointer dereference").
Proof. split; reflexivity. Qed.

(** A collector that polls without the URL of the State Manager. *)
Lemma main_start_without_smURL :
  Modes.main_start Modes.polling_without_smURL Modes.all_return Modes.at_start
  = Modes.Ended (Go.Panicked "State Manager URL can NOT be empty").
Proof. reflexivity. Qed.
